(** * Mirage brand-extract: the parser, the colour scorer, the normaliser
      and the comparator, embedded from the Python sources.

    The first part holds the definitions, module by module as in the
    sources ([services/gemini.py], [services/firecrawl.py], [tools.py],
    [schemas/brand.py]); the second part holds the lemmas and theorems.
    The calls to the two external services are not part of the embedding:
    the functions take what the services answered.

    Conventions of the embedding.

    - A Python [str] is a Rocq [string]; a character is a code point in
      U+0000..U+00FF (the built-ins [isspace], [lower] and [int] are
      tabulated on that range).
    - Python exceptions are values of [exn]; a computation that may raise
      has type [result A].
    - A Python [dict] is a [gmap], a [set] is a [gset].
    - The [float] returned by [round(x, 3)] is represented by the integer
      number of thousandths it denotes. *)

From Stdlib Require Import ZArith QArith String Ascii List Lia Reals Lra.
From stdpp Require Import base gmap strings list.

Local Open Scope Z_scope.

#[local] Arguments String.append !_ _ / : simpl nomatch.

(** ** Exceptions *)

Inductive exn : Type :=
| ValueError
| IndexError
| KeyError
| AttributeError
| TypeError
| ValidationError.

Inductive result (A : Type) : Type :=
| Ok (a : A)
| Raise (e : exn).
Arguments Ok {A} a.
Arguments Raise {A} e.

#[global] Instance result_ret : MRet result := fun _ a => Ok a.
#[global] Instance result_bind : MBind result := fun _ _ f r =>
  match r with
  | Ok a => f a
  | Raise e => Raise e
  end.

#[global] Instance exn_eq_dec : EqDecision exn.
Proof. solve_decision. Defined.

(** [try: body except (e1, e2, ...): return v] *)
Definition try_except {A} (body : result A) (caught : list exn) (v : A)
  : result A :=
  match body with
  | Ok a => Ok a
  | Raise e =>
      if existsb (fun c => bool_decide (c = e)) caught then Ok v else Raise e
  end.

(** ** Python string built-ins *)

Module PyStr.

Definition code (c : ascii) : N := N_of_ascii c.

(** [str.isspace] on one character. *)
Definition isspace (c : ascii) : bool :=
  let n := code c in
  ((9 <=? n) && (n <=? 13) || (28 <=? n) && (n <=? 32)
   || (n =? 133) || (n =? 160))%N.

(** [str.lower] on one character. *)
Definition lower_char (c : ascii) : ascii :=
  let n := code c in
  if ((65 <=? n) && (n <=? 90)
      || (192 <=? n) && (n <=? 222) && negb (n =? 215))%N
  then ascii_of_N (n + 32) else c.

Fixpoint lower (s : string) : string :=
  match s with
  | EmptyString => EmptyString
  | String c s' => String (lower_char c) (lower s')
  end.

(** [s.lstrip(chars)] and [s.rstrip(chars)], the set of characters given
    as a predicate. *)
Fixpoint lstrip (p : ascii -> bool) (s : string) : string :=
  match s with
  | EmptyString => EmptyString
  | String c s' => if p c then lstrip p s' else s
  end.

Fixpoint rstrip (p : ascii -> bool) (s : string) : string :=
  match s with
  | EmptyString => EmptyString
  | String c s' =>
      match rstrip p s' with
      | EmptyString => if p c then EmptyString else String c EmptyString
      | r => String c r
      end
  end.

(** [s.strip()] *)
Definition strip (s : string) : string := rstrip isspace (lstrip isspace s).

(** [s.removeprefix(p)] when [s.startswith(p)], [None] otherwise. *)
Fixpoint strip_prefix (p s : string) : option string :=
  match p, s with
  | EmptyString, _ => Some s
  | String _ _, EmptyString => None
  | String a p', String b s' =>
      if Ascii.eqb a b then strip_prefix p' s' else None
  end.

(** [s.partition(sep)] without the middle component; [None] when [sep]
    does not occur. *)
Fixpoint find_split (sep s : string) : option (string * string) :=
  match strip_prefix sep s with
  | Some r => Some (EmptyString, r)
  | None =>
      match s with
      | EmptyString => None
      | String c s' =>
          match find_split sep s' with
          | Some (a, b) => Some (String c a, b)
          | None => None
          end
      end
  end.

(** [sep in s] *)
Definition contains (sep s : string) : bool :=
  match find_split sep s with Some _ => true | None => false end.

Fixpoint split_fuel (n : nat) (sep s : string) : list string :=
  match n with
  | O => [s]
  | S n' =>
      match find_split sep s with
      | None => [s]
      | Some (a, b) => a :: split_fuel n' sep b
      end
  end.

(** [s.split(sep)] for a non-empty [sep] (every call site passes a
    literal; Python rejects the empty separator). *)
Definition split (sep s : string) : list string :=
  split_fuel (String.length s) sep s.

(** [sep.join(l)] *)
Fixpoint join (sep : string) (l : list string) : string :=
  match l with
  | [] => EmptyString
  | [x] => x
  | x :: l' => x +:+ sep +:+ join sep l'
  end.

(** [s[i:]] and [s[:n]] for in-range and out-of-range indices alike. *)
Fixpoint drop (i : nat) (s : string) : string :=
  match i, s with
  | O, _ => s
  | S _, EmptyString => EmptyString
  | S i', String _ s' => drop i' s'
  end.

Fixpoint take (n : nat) (s : string) : string :=
  match n, s with
  | O, _ => EmptyString
  | S _, EmptyString => EmptyString
  | S n', String c s' => String c (take n' s')
  end.

(** [s[i:j]] *)
Definition slice (i j : nat) (s : string) : string := take (j - i) (drop i s).

(** Number of positions of [s] at which [sep] starts. *)
Fixpoint count_occ (sep s : string) : nat :=
  ((match strip_prefix sep s with Some _ => 1 | None => 0 end) +
   match s with
   | EmptyString => 0
   | String _ s' => count_occ sep s'
   end)%nat.

(** [sep] occurs in [s]. *)
Definition occurs (sep s : string) : Prop := ∃ a b, s = a +:+ sep +:+ b.

(** All suffixes of [s], longest first. *)
Fixpoint suffixes (s : string) : list string :=
  s :: match s with
       | EmptyString => []
       | String _ s' => suffixes s'
       end.

End PyStr.

(** [l[i]] *)
Definition index {A} (l : list A) (i : nat) : result A :=
  match l !! i with
  | Some a => Ok a
  | None => Raise IndexError
  end.

(** ** schemas/brand.py *)

Module BrandColors.
Record t : Type := mk {
  primary : string;
  secondary : option string;
  accent : option string;
  background : option string;
  text : option string;
  palette : list string
}.
End BrandColors.

Module BrandTypography.
Record t : Type := mk {
  headings : string;
  body : string;
  weights : list Z;
  base_size : option string;
  line_height : option string
}.
End BrandTypography.

Module BrandSpacing.
Record t : Type := mk {
  grid : string;
  margins : gmap string string;
  padding : gmap string string;
  gap : option string
}.
(** [BrandSpacing()] *)
Definition default : t := mk "8px" ∅ ∅ None.
End BrandSpacing.

Module ButtonStyle.
Record t : Type := mk {
  bg : string;
  text : string;
  border_radius : string;
  padding : string;
  border : option string;
  hover_bg : option string
}.
End ButtonStyle.

Module BrandButtons.
Record t : Type := mk {
  primary : option ButtonStyle.t;
  secondary : option ButtonStyle.t;
  outline : option ButtonStyle.t
}.
(** [BrandButtons()] *)
Definition default : t := mk None None None.
End BrandButtons.

Module BrandData.
Record t : Type := mk {
  url : string;
  colors : BrandColors.t;
  typography : BrandTypography.t;
  spacing : BrandSpacing.t;
  buttons : BrandButtons.t;
  logo_url : option string;
  favicon_url : option string;
  screenshots : list string
}.
End BrandData.

Module GeneratedCode.
(** [preview_url] is the base64 data URL of [preview_html]; the record
    keeps the document itself. *)
Record t : Type := mk {
  html : string;
  css : string;
  preview_html : string;
  component_type : option string
}.
End GeneratedCode.

Module ComparisonMetrics.
(** [color_similarity] in thousandths. *)
Record t : Type := mk {
  color_similarity : Z;
  typography_match : bool;
  font_overlap : list string;
  differences : list string
}.
End ComparisonMetrics.

Module BrandComparison.
Record t : Type := mk {
  site1 : BrandData.t;
  site2 : BrandData.t;
  comparison : ComparisonMetrics.t
}.
End BrandComparison.

(** ** services/gemini.py: [generate_replica] and
       [calculate_color_similarity] *)

Module Gemini.
Import PyStr.

Definition nl : string := String (ascii_of_N 10) EmptyString.
Definition quoted (s : string) : string :=
  String (ascii_of_N 34) s +:+ String (ascii_of_N 34) EmptyString.

(** The truth value of an [Optional[str]]. *)
Definition truthy_str (o : option string) : bool :=
  match o with
  | Some s => negb (String.eqb s EmptyString)
  | None => false
  end.

Definition str_of (o : option string) : string := default EmptyString o.

(** Lines 28-50. *)
Definition _brand_to_css_variables (brand : BrandData.t) : string :=
  let colors := BrandData.colors brand in
  let css_vars : list string := [] in
  let css_vars :=
    css_vars ++ ["  --color-primary: " +:+ BrandColors.primary colors +:+ ";"] in
  let css_vars :=
    if truthy_str (BrandColors.secondary colors) then
      css_vars ++ ["  --color-secondary: "
                     +:+ str_of (BrandColors.secondary colors) +:+ ";"]
    else css_vars in
  let css_vars :=
    if truthy_str (BrandColors.accent colors) then
      css_vars ++ ["  --color-accent: "
                     +:+ str_of (BrandColors.accent colors) +:+ ";"]
    else css_vars in
  let css_vars :=
    if truthy_str (BrandColors.background colors) then
      css_vars ++ ["  --color-background: "
                     +:+ str_of (BrandColors.background colors) +:+ ";"]
    else css_vars in
  let css_vars :=
    if truthy_str (BrandColors.text colors) then
      css_vars ++ ["  --color-text: "
                     +:+ str_of (BrandColors.text colors) +:+ ";"]
    else css_vars in
  let typo := BrandData.typography brand in
  let css_vars :=
    css_vars ++ ["  --font-heading: " +:+ BrandTypography.headings typo +:+ ";"] in
  let css_vars :=
    css_vars ++ ["  --font-body: " +:+ BrandTypography.body typo +:+ ";"] in
  let css_vars :=
    css_vars ++ ["  --spacing-grid: "
                   +:+ BrandSpacing.grid (BrandData.spacing brand) +:+ ";"] in
  let css_vars :=
    match BrandButtons.primary (BrandData.buttons brand) with
    | Some btn =>
        let css_vars :=
          css_vars ++ ["  --btn-primary-bg: " +:+ ButtonStyle.bg btn +:+ ";"] in
        let css_vars :=
          css_vars ++ ["  --btn-primary-text: " +:+ ButtonStyle.text btn +:+ ";"] in
        css_vars ++ ["  --btn-primary-radius: "
                       +:+ ButtonStyle.border_radius btn +:+ ";"]
    | None => css_vars
    end in
  join nl css_vars.

Definition HTML_MARK : string := "---HTML---".
Definition CSS_MARK : string := "---CSS---".
Definition END_MARK : string := "---END---".
Definition HTML_FENCE : string := "```html".
Definition CSS_FENCE : string := "```css".
Definition FENCE : string := "```".

(** Lines 110-130: [html] and [css] as parsed from the response, [css]
    before the [:root] block is put in front of it. *)
Definition parse_response (text : string) : result (string * string) :=
  let html := EmptyString in
  let css := EmptyString in
  if contains HTML_MARK text && contains CSS_MARK text then
    let parts := split HTML_MARK text in
    html ←
      (if bool_decide (1 < length parts)%nat then
         p1 ← index parts 1;
         p10 ← index (split CSS_MARK p1) 0;
         mret (strip p10)
       else mret html);
    css ←
      (if contains CSS_MARK text then
         let css_parts := split CSS_MARK text in
         if bool_decide (1 < length css_parts)%nat then
           c1 ← index css_parts 1;
           c10 ← index (split END_MARK c1) 0;
           mret (strip c10)
         else mret css
       else mret css);
    mret (html, css)
  else
    html ←
      (if contains HTML_FENCE text then
         h1 ← index (split HTML_FENCE text) 1;
         h10 ← index (split FENCE h1) 0;
         mret (strip h10)
       else mret html);
    css ←
      (if contains CSS_FENCE text then
         c1 ← index (split CSS_FENCE text) 1;
         c10 ← index (split FENCE c1) 0;
         mret (strip c10)
       else mret css);
    mret (html, css).

(** Lines 68 and 108-159.  [component_type] and [customization] go into
    the prompt; [text] is the model's response to it. *)
Definition generate_replica (brand_data : BrandData.t)
    (component_type customization : string) (text : string)
  : result GeneratedCode.t :=
  let css_variables := _brand_to_css_variables brand_data in
  '(html, css) ← parse_response text;
  let full_css :=
    ":root {" +:+ nl +:+ css_variables +:+ nl +:+ "}" +:+ nl +:+ nl +:+ css in
  let preview_html :=
    "<!DOCTYPE html>" +:+ nl +:+ "<html>" +:+ nl +:+ "<head>" +:+ nl
    +:+ "    <meta charset=" +:+ quoted "UTF-8" +:+ ">" +:+ nl
    +:+ "    <meta name=" +:+ quoted "viewport" +:+ " content="
    +:+ quoted "width=device-width, initial-scale=1.0" +:+ ">" +:+ nl
    +:+ "    <style>" +:+ full_css +:+ "</style>" +:+ nl
    +:+ "</head>" +:+ nl +:+ "<body>" +:+ nl +:+ html +:+ nl
    +:+ "</body>" +:+ nl +:+ "</html>" in
  mret (GeneratedCode.mk html full_css preview_html (Some component_type)).

(** *** [calculate_color_similarity] *)

(** Whitespace skipped by [int(s, base)] around the number. *)
Definition int_space (c : ascii) : bool :=
  let n := code c in
  ((9 <=? n) && (n <=? 13) || (n =? 32) || (n =? 133) || (n =? 160))%N.

Definition hex_digit (c : ascii) : option Z :=
  let n := code c in
  if ((48 <=? n) && (n <=? 57))%N then Some (Z.of_N n - 48)
  else if ((97 <=? n) && (n <=? 102))%N then Some (Z.of_N n - 87)
  else if ((65 <=? n) && (n <=? 70))%N then Some (Z.of_N n - 55)
  else None.

(** Digits with single underscores between them; [prev_us] tells that
    the previous character was an underscore. *)
Fixpoint int16_digits (acc : Z) (prev_us : bool) (s : string) : option Z :=
  match s with
  | EmptyString => if prev_us then None else Some acc
  | String c s' =>
      if Ascii.eqb c "_" then
        if prev_us then None else int16_digits acc true s'
      else
        match hex_digit c with
        | Some d => int16_digits (16 * acc + d) false s'
        | None => None
        end
  end.

(** [int(s, 16)] *)
Definition int16 (s : string) : result Z :=
  let s := rstrip int_space (lstrip int_space s) in
  let '(neg, s) :=
    match s with
    | String "+" r => (false, r)
    | String "-" r => (true, r)
    | _ => (false, s)
    end in
  let s :=
    match s with
    | String "0" (String x r) =>
        if Ascii.eqb x "x" || Ascii.eqb x "X" then
          match r with String "_" r' => r' | _ => r end
        else s
    | _ => s
    end in
  match s with
  | EmptyString => Raise ValueError
  | String "_" _ => Raise ValueError
  | _ =>
      match int16_digits 0 false s with
      | Some v => Ok (if neg then - v else v)
      | None => Raise ValueError
      end
  end.

(** Lines 200-202. *)
Definition hex_to_rgb (hex_color : string) : result (Z * Z * Z) :=
  let hex_color := lstrip (Ascii.eqb "#") hex_color in
  r ← int16 (slice 0 2 hex_color);
  g ← int16 (slice 2 4 hex_color);
  b ← int16 (slice 4 6 hex_color);
  mret (r, g, b).

(** [sum((a - b) ** 2 for a, b in zip(rgb1, rgb2))] *)
Definition sq_distance (rgb1 rgb2 : Z * Z * Z) : Z :=
  let '(r1, g1, b1) := rgb1 in
  let '(r2, g2, b2) := rgb2 in
  (r1 - r2) ^ 2 + (g1 - g2) ^ 2 + (b1 - b2) ^ 2.

(** [255 ** 2 * 3], the square of [max_distance]. *)
Definition max_sq : Z := 255 ^ 2 * 3.

(** [round(1 - d2 ** 0.5 / max_sq ** 0.5, 3)], in thousandths.  With
    [t = 2000 * sqrt (d2 / max_sq)] the nearest thousandth is
    [1000 - floor ((floor t + 1) / 2)], and [floor t] is the integer
    square root of [floor (4000000 * d2 / max_sq)].  That this is the
    rounding of the exact value is [round3_similarity_rounds]; the exact
    value is never halfway between two thousandths and keeps more than
    [10^-13] away from every halfway point ([similarity_margin]), far
    above the error of the double-precision evaluation, so the thousandth
    computed here is the one [round] returns. *)
Definition round3_similarity (d2 : Z) : Z :=
  1000 - (Z.sqrt (4000000 * d2 / max_sq) + 1) / 2.

(** Lines 204-215; the result in thousandths. *)
Definition calculate_color_similarity (color1 color2 : string) : result Z :=
  try_except
    (rgb1 ← hex_to_rgb color1;
     rgb2 ← hex_to_rgb color2;
     let d2 := sq_distance rgb1 rgb2 in
     mret (round3_similarity d2))
    [ValueError; IndexError]
    0.

End Gemini.

(** ** services/firecrawl.py: building the Brand Record *)

Module Firecrawl.

(** The value of [response.json()]: numbers are integers or other
    rationals. *)
#[warnings="-register-all"]
Inductive json : Type :=
| JNull
| JBool (b : bool)
| JInt (z : Z)
| JFloat (q : Q)
| JStr (s : string)
| JArr (l : list json)
| JObj (m : gmap string json).

(** [bool(v)] *)
Definition truthy (v : json) : bool :=
  match v with
  | JNull => false
  | JBool b => b
  | JInt z => negb (z =? 0)
  | JFloat q => negb (Qnum q =? 0)
  | JStr s => negb (String.eqb s EmptyString)
  | JArr l => negb (bool_decide (l = []))
  | JObj m => negb (bool_decide (dom m = ∅))
  end.

(** [d.get(k, default)] *)
Definition get (d : json) (k : string) (default : json) : result json :=
  match d with
  | JObj m => Ok (match m !! k with Some v => v | None => default end)
  | _ => Raise AttributeError
  end.

(** [d[k]] for a string key. *)
Definition getitem (d : json) (k : string) : result json :=
  match d with
  | JObj m => match m !! k with Some v => Ok v | None => Raise KeyError end
  | _ => Raise TypeError
  end.

(** Field validation of the schema classes: [str], [Optional[str]],
    [list[str]]. *)
Definition as_str (v : json) : result string :=
  match v with JStr s => Ok s | _ => Raise ValidationError end.

Definition as_opt_str (v : json) : result (option string) :=
  match v with
  | JNull => Ok None
  | JStr s => Ok (Some s)
  | _ => Raise ValidationError
  end.

Fixpoint all_ok {A B} (f : A → result B) (l : list A) : result (list B) :=
  match l with
  | [] => Ok []
  | x :: l' => y ← f x; ys ← all_ok f l'; mret (y :: ys)
  end.

Definition as_str_list (v : json) : result (list string) :=
  match v with
  | JArr l => all_ok as_str l
  | _ => Raise ValidationError
  end.

Section Normalizer.
(** The library's validation of one [int] item: integers are accepted
    as they are; which other values are coerced is left to the
    library. *)
Variable validate_int : json → option Z.

Definition as_int (v : json) : result Z :=
  match validate_int v with
  | Some z => Ok z
  | None => Raise ValidationError
  end.

Definition as_int_list (v : json) : result (list Z) :=
  match v with
  | JArr l => all_ok as_int l
  | _ => Raise ValidationError
  end.

(** Lines 146-185: [extracted] is the extraction payload and
    [screenshots] the references collected at lines 140-143. *)
Definition build_brand (extracted : json) (url : string)
    (screenshots : list json) : result BrandData.t :=
  (* Build the brand data structure *)
  colors_data ← get extracted "colors" (JObj ∅);
  c_primary ← get colors_data "primary" (JStr "#000000");
  c_secondary ← get colors_data "secondary" JNull;
  c_accent ← get colors_data "accent" JNull;
  c_background ← get colors_data "background" JNull;
  c_text ← get colors_data "text" JNull;
  c_palette ← get colors_data "palette" (JArr []);
  colors ←
    (primary ← as_str c_primary;
     secondary ← as_opt_str c_secondary;
     accent ← as_opt_str c_accent;
     background ← as_opt_str c_background;
     text ← as_opt_str c_text;
     palette ← as_str_list c_palette;
     mret (BrandColors.mk primary secondary accent background text palette));
  typo_data ← get extracted "typography" (JObj ∅);
  t_headings ← get typo_data "headings" (JStr "sans-serif");
  t_body ← get typo_data "body" (JStr "sans-serif");
  t_weights ← get typo_data "weights" (JArr [JInt 400; JInt 600; JInt 700]);
  typography ←
    (headings ← as_str t_headings;
     body ← as_str t_body;
     weights ← as_int_list t_weights;
     mret (BrandTypography.mk headings body weights
             (Some "16px") (Some "1.5")));
  let spacing := BrandSpacing.default in
  buttons_data ← get extracted "buttons" (JObj ∅);
  let buttons := BrandButtons.default in
  has_primary ← get buttons_data "primary" JNull;
  buttons ←
    (if truthy has_primary then
       btn ← getitem buttons_data "primary";
       b_bg ← get btn "bg" (JStr (BrandColors.primary colors));
       b_text ← get btn "text" (JStr "#ffffff");
       b_radius ← get btn "border_radius" (JStr "4px");
       b_padding ← get btn "padding" (JStr "12px 24px");
       style ←
         (bg ← as_str b_bg;
          text ← as_str b_text;
          border_radius ← as_str b_radius;
          padding ← as_str b_padding;
          mret (ButtonStyle.mk bg text border_radius padding None None));
       mret (BrandButtons.mk (Some style)
               (BrandButtons.secondary buttons)
               (BrandButtons.outline buttons))
     else mret buttons);
  j_logo ← get extracted "logo_url" JNull;
  j_favicon ← get extracted "favicon_url" JNull;
  logo_url ← as_opt_str j_logo;
  favicon_url ← as_opt_str j_favicon;
  shots ← all_ok as_str screenshots;
  mret (BrandData.mk url colors typography spacing buttons
          logo_url favicon_url shots).

(** Lines 138-185: [data] is the decoded response body. *)
Definition extract_brand (data : json) (url : string)
    (include_screenshots : bool) : result BrandData.t :=
  d ← get data "data" (JObj ∅);
  extracted ← get d "extract" (JObj ∅);
  let screenshots : list json := [] in
  screenshots ←
    (if include_screenshots then
       match d with
       | JObj m =>
           match m !! "screenshot" with
           | Some shot => mret (screenshots ++ [shot])
           | None => mret screenshots
           end
       | _ => Raise AttributeError
       end
     else mret screenshots);
  build_brand extracted url screenshots.

End Normalizer.

(** An instance of the item validation: integers only. *)
Definition int_only (v : json) : option Z :=
  match v with
  | JInt z => Some z
  | _ => None
  end.

(** The payload of the specification's example. *)
Definition example_payload : json :=
  JObj (<["colors" := JObj {["primary" := JStr "#FF0000"]}]>
        (<["typography" := JObj (<["headings" := JStr "Arial"]>
                                   {["body" := JStr "Helvetica"]})]> ∅)).

(** [extracted] at a path of keys, [None] where a key is absent. *)
Fixpoint at_path (v : json) (path : list string) : option json :=
  match path with
  | [] => Some v
  | k :: path' =>
      match v with
      | JObj m => match m !! k with Some v' => at_path v' path' | None => None end
      | _ => None
      end
  end.

End Firecrawl.

(** ** tools.py: [compare_brands] *)

Module Tools.
Import PyStr.

Section Compare.
Variables brand1 brand2 : BrandData.t.

Let p1 := BrandColors.primary (BrandData.colors brand1).
Let p2 := BrandColors.primary (BrandData.colors brand2).
Let h1 := BrandTypography.headings (BrandData.typography brand1).
Let h2 := BrandTypography.headings (BrandData.typography brand2).
Let b1 := BrandTypography.body (BrandData.typography brand1).
Let b2 := BrandTypography.body (BrandData.typography brand2).

(** Lines 125-128. *)
Definition typography_match : bool :=
  String.eqb (lower h1) (lower h2) || String.eqb (lower b1) (lower b2).

(** Lines 131-133.  The order in which Python lists the elements of a set
    is unspecified; [elements] fixes one, and the theorems state the
    overlap up to order. *)
Definition font_overlap : list string :=
  let fonts1 : gset string := {[ lower h1; lower b1 ]} in
  let fonts2 : gset string := {[ lower h2; lower b2 ]} in
  elements (fonts1 ∩ fonts2).

(** Lines 136-142. *)
Definition differences : list string :=
  let differences : list string := [] in
  let differences :=
    if negb (String.eqb p1 p2) then
      differences ++ ["Primary color: " +:+ p1 +:+ " vs " +:+ p2]
    else differences in
  let differences :=
    if negb (String.eqb (lower h1) (lower h2)) then
      differences ++ ["Heading font: " +:+ h1 +:+ " vs " +:+ h2]
    else differences in
  let differences :=
    if negb (String.eqb (lower b1) (lower b2)) then
      differences ++ ["Body font: " +:+ b1 +:+ " vs " +:+ b2]
    else differences in
  differences.

(** Lines 118-155, the two brands already extracted.  The fields of
    [ComparisonMetrics] are validated on construction: [color_similarity]
    is declared [ge=0, le=1]. *)
Definition compare_brands : result BrandComparison.t :=
  color_similarity ← Gemini.calculate_color_similarity p1 p2;
  if (0 <=? color_similarity) && (color_similarity <=? 1000) then
    mret (BrandComparison.mk brand1 brand2
            (ComparisonMetrics.mk color_similarity typography_match
               font_overlap differences))
  else Raise ValidationError.

End Compare.

End Tools.

(** ** Sample data *)

Module Samples.

(** Two brands whose heading fonts differ in case only. *)
Definition site_a : BrandData.t :=
  BrandData.mk "https://a.example"
    (BrandColors.mk "#FF0000" None None None None [])
    (BrandTypography.mk "Arial" "Helvetica" [400; 600; 700]
       (Some "16px") (Some "1.5"))
    BrandSpacing.default BrandButtons.default None None [].

Definition site_b : BrandData.t :=
  BrandData.mk "https://b.example"
    (BrandColors.mk "#FF0000" None None None None [])
    (BrandTypography.mk "arial" "Georgia" [400; 600; 700]
       (Some "16px") (Some "1.5"))
    BrandSpacing.default BrandButtons.default None None [].

Definition comparison_ab : BrandComparison.t :=
  BrandComparison.mk site_a site_b
    (ComparisonMetrics.mk 1000 true ["arial"]
       ["Body font: Helvetica vs Georgia"]).

(** The brand of the test fixtures. *)
Definition sample_brand : BrandData.t :=
  BrandData.mk "https://example.com"
    (BrandColors.mk "#FF5A5F" (Some "#00A699") (Some "#FC642D")
       (Some "#FFFFFF") (Some "#484848")
       ["#FF5A5F"; "#00A699"; "#FC642D"; "#FFFFFF"; "#484848"])
    (BrandTypography.mk "Circular" "Circular" [400; 500; 700]
       (Some "16px") (Some "1.5"))
    (BrandSpacing.mk "8px"
       (<["sm" := "8px"]> (<["md" := "16px"]> {["lg" := "24px"]}))
       (<["sm" := "8px"]> (<["md" := "16px"]> {["lg" := "24px"]}))
       None)
    (BrandButtons.mk
       (Some (ButtonStyle.mk "#FF5A5F" "#FFFFFF" "8px" "14px 24px" None None))
       None None)
    None None [].

End Samples.

(** ** The wording of the specification, for comparison with the code *)

Module Spec.
Import PyStr.

(** One custom-property declaration, as a line of the [:root] block. *)
Definition declaration (name value : string) : string :=
  "  --" +:+ name +:+ ": " +:+ value +:+ ";".

(** The line of an optional colour; a colour that is absent has none (nor
    has a colour set to the empty string). *)
Definition optional_declaration (name : string) (value : option string)
  : list string :=
  match value with
  | Some v => if decide (v = "") then [] else [declaration name v]
  | None => []
  end.

(** The declarations of a brand, in the fixed order. *)
Definition declarations (brand : BrandData.t) : list string :=
  let colors := BrandData.colors brand in
  let typo := BrandData.typography brand in
  [declaration "color-primary" (BrandColors.primary colors)]
  ++ optional_declaration "color-secondary" (BrandColors.secondary colors)
  ++ optional_declaration "color-accent" (BrandColors.accent colors)
  ++ optional_declaration "color-background" (BrandColors.background colors)
  ++ optional_declaration "color-text" (BrandColors.text colors)
  ++ [declaration "font-heading" (BrandTypography.headings typo);
      declaration "font-body" (BrandTypography.body typo);
      declaration "spacing-grid" (BrandSpacing.grid (BrandData.spacing brand))]
  ++ match BrandButtons.primary (BrandData.buttons brand) with
     | Some btn =>
         [declaration "btn-primary-bg" (ButtonStyle.bg btn);
          declaration "btn-primary-text" (ButtonStyle.text btn);
          declaration "btn-primary-radius" (ButtonStyle.border_radius btn)]
     | None => []
     end.

(** A hexadecimal digit and its value. *)
Definition hex_digits : list (ascii * Z) :=
  [("0", 0); ("1", 1); ("2", 2); ("3", 3); ("4", 4); ("5", 5); ("6", 6);
   ("7", 7); ("8", 8); ("9", 9);
   ("a", 10); ("b", 11); ("c", 12); ("d", 13); ("e", 14); ("f", 15);
   ("A", 10); ("B", 11); ("C", 12); ("D", 13); ("E", 14); ("F", 15)]%char.

Definition hex_value (c : ascii) : option Z :=
  snd <$> List.find (λ p, Ascii.eqb (fst p) c) hex_digits.

(** A channel: two hexadecimal digits, most significant first. *)
Definition channel (hi lo : ascii) : option Z :=
  h ← hex_value hi; l ← hex_value lo; Some (16 * h + l).

(** The RGB triple of six hexadecimal digits. *)
Definition rgb_of_digits (d : string) : option (Z * Z * Z) :=
  match d with
  | String r1 (String r0 (String g1 (String g0 (String b1 (String b0 "")))))
    => r ← channel r1 r0; g ← channel g1 g0; b ← channel b1 b0; Some (r, g, b)
  | _ => None
  end.

(** The RGB triple of a valid colour: six hexadecimal digits, with or
    without a leading [#]; [None] for any other string. *)
Definition rgb_of_color (c : string) : option (Z * Z * Z) :=
  match c with
  | String "#" d => rgb_of_digits d
  | d => rgb_of_digits d
  end.

Definition valid_color (c : string) : Prop := is_Some (rgb_of_color c).


Definition all_ascii : list ascii := map ascii_of_nat (seq 0 256).

(** [k] thousandths is [x] rounded to three decimal places. *)
Definition rounds_to (x : R) (k : Z) : Prop :=
  (Rabs (x - IZR k / 1000) < 1 / 2000)%R.

(** The Euclidean distance of two RGB triples, and their similarity
    before rounding. *)
Definition distance (rgb1 rgb2 : Z * Z * Z) : R :=
  let '(r1, g1, b1) := rgb1 in
  let '(r2, g2, b2) := rgb2 in
  sqrt (IZR ((r1 - r2) ^ 2 + (g1 - g2) ^ 2 + (b1 - b2) ^ 2)).

Definition similarity (rgb1 rgb2 : Z * Z * Z) : R :=
  (1 - distance rgb1 rgb2 / sqrt (IZR (255 ^ 2 * 3)))%R.

End Spec.

(** * Facts about the string built-ins *)

Section StringFacts.
Import PyStr.

Lemma sapp_nil_r (a : string) : a +:+ "" = a.
Proof. induction a as [|c a IH]; simpl; [done | by rewrite IH]. Qed.

Lemma sapp_assoc (a b c : string) : (a +:+ b) +:+ c = a +:+ b +:+ c.
Proof. induction a as [|x a IH]; simpl; [done | by rewrite IH]. Qed.

Lemma slength_app (a b : string) :
  String.length (a +:+ b) = (String.length a + String.length b)%nat.
Proof. induction a as [|x a IH]; simpl; [done | by rewrite IH]. Qed.

Lemma sapp_inv_head (a b c : string) : a +:+ b = a +:+ c → b = c.
Proof. induction a as [|x a IH]; simpl; [done | intros [=]; auto]. Qed.

Lemma strip_prefix_app (p r : string) : strip_prefix p (p +:+ r) = Some r.
Proof.
  induction p as [|c p IH]; simpl; [by destruct r |].
  by rewrite Ascii.eqb_refl.
Qed.

Lemma strip_prefix_Some (p s r : string) :
  strip_prefix p s = Some r → s = p +:+ r.
Proof.
  revert s; induction p as [|c p IH]; intros s; simpl.
  - destruct s; intros [=]; by subst.
  - destruct s as [|d s]; [done |].
    destruct (Ascii.eqb_spec c d) as [->|]; [| done].
    intros H; by rewrite (IH _ H).
Qed.

Lemma strip_prefix_shorter (p u v r : string) :
  strip_prefix p (u +:+ v) = Some r →
  (String.length p ≤ String.length u)%nat →
  ∃ r', strip_prefix p u = Some r'.
Proof.
  revert u; induction p as [|c p IH]; intros u; simpl.
  - intros _ _. destruct u; eauto.
  - destruct u as [|d u]; simpl; [lia |].
    destruct (Ascii.eqb c d); [| done].
    intros H Hl. apply IH; [done | lia].
Qed.

Lemma find_split_Some (sep s a b : string) :
  find_split sep s = Some (a, b) → s = a +:+ sep +:+ b.
Proof.
  revert a; induction s as [|c s IH]; intros a; simpl.
  - destruct (strip_prefix sep "") eqn:E; [| done].
    intros [= <- <-]. simpl. by apply strip_prefix_Some.
  - destruct (strip_prefix sep (String c s)) eqn:E.
    + intros [= <- <-]. simpl. by apply strip_prefix_Some.
    + destruct (find_split sep s) as [[a' b']|]; [| done].
      intros [= <- <-]. simpl. by rewrite <- (IH a').
Qed.

Lemma find_split_occurs (sep a b : string) :
  ∃ a' b', find_split sep (a +:+ sep +:+ b) = Some (a', b').
Proof.
  induction a as [|c a (a' & b' & IH)]; simpl.
  - destruct (sep +:+ b) eqn:E; simpl; rewrite <- ?E, strip_prefix_app; eauto.
  - destruct (strip_prefix sep _); [eauto |]. rewrite IH; eauto.
Qed.

Lemma contains_occurs (sep s : string) : contains sep s = true ↔ occurs sep s.
Proof.
  unfold contains, occurs; split.
  - destruct (find_split sep s) as [[a b]|] eqn:E; [| done].
    intros _. exists a, b. by apply find_split_Some.
  - intros (a & b & ->).
    by destruct (find_split_occurs sep a b) as (a' & b' & ->).
Qed.

Lemma not_contains_occurs (sep s : string) :
  contains sep s = false ↔ ¬ occurs sep s.
Proof.
  rewrite <- contains_occurs. destruct (contains sep s); split; done.
Qed.

Lemma count_occ_zero (sep s : string) :
  count_occ sep s = 0%nat ↔ find_split sep s = None.
Proof.
  induction s as [|c s IH]; simpl.
  - destruct (strip_prefix sep ""); split; (done || lia).
  - destruct (strip_prefix sep (String c s)); [split; (done || lia) |].
    simpl. rewrite IH. destruct (find_split sep s) as [[??]|]; by split.
Qed.

Lemma count_occ_suffix (sep a b : string) :
  (count_occ sep b ≤ count_occ sep (a +:+ b))%nat.
Proof.
  induction a as [|c a IH]; simpl; [done |].
  destruct (strip_prefix sep _); lia.
Qed.

Lemma count_occ_occurs (sep a b : string) :
  (1 ≤ count_occ sep (a +:+ sep +:+ b))%nat.
Proof.
  destruct (count_occ sep (a +:+ sep +:+ b)) eqn:E; [| lia].
  apply count_occ_zero in E.
  destruct (find_split_occurs sep a b) as (? & ? & H). congruence.
Qed.

(** Occurrences after a non-empty separator are counted on top of it. *)
Lemma count_occ_after (c : ascii) (sep' a b : string) :
  let sep := String c sep' in
  (1 + count_occ sep b ≤ count_occ sep (a +:+ sep +:+ b))%nat.
Proof.
  intros sep. induction a as [|x a IH].
  - change ("" +:+ sep +:+ b) with (String c (sep' +:+ b)).
    change (count_occ sep (String c (sep' +:+ b))) with
      ((match strip_prefix sep (sep +:+ b) with Some _ => 1 | None => 0 end
        + count_occ sep (sep' +:+ b))%nat).
    rewrite strip_prefix_app. pose proof (count_occ_suffix sep sep' b). lia.
  - change (count_occ sep (String x a +:+ sep +:+ b)) with
      ((match strip_prefix sep (String x (a +:+ sep +:+ b)) with
        | Some _ => 1 | None => 0 end
        + count_occ sep (a +:+ sep +:+ b))%nat).
    destruct (strip_prefix sep _); lia.
Qed.

(** The only occurrence is the one [find_split] finds. *)
Lemma find_split_unique (sep a b : string) :
  count_occ sep (a +:+ sep +:+ b) = 1%nat →
  find_split sep (a +:+ sep +:+ b) = Some (a, b).
Proof.
  induction a as [|x a IH]; intros H.
  - simpl. destruct (sep +:+ b) eqn:E; simpl;
      rewrite <- ?E, strip_prefix_app; done.
  - pose proof (count_occ_occurs sep a b) as H1.
    simpl in H |- *.
    destruct (strip_prefix sep (String x (a +:+ sep +:+ b))); [lia |].
    rewrite IH; [done | lia].
Qed.

(** An occurrence with none starting before it is the one found. *)
Lemma find_split_first (sep c post : string) :
  count_occ sep (c +:+ sep) = 1%nat →
  find_split sep (c +:+ sep +:+ post) = Some (c, post).
Proof.
  induction c as [|x c IH]; intros H.
  - simpl. destruct (sep +:+ post) eqn:E; simpl;
      rewrite <- ?E, strip_prefix_app; done.
  - pose proof (count_occ_occurs sep c "") as H1.
    rewrite sapp_nil_r in H1. simpl in H |- *.
    destruct (strip_prefix sep (String x (c +:+ sep))) eqn:E1; [lia |].
    destruct (strip_prefix sep (String x (c +:+ sep +:+ post))) eqn:E2.
    + change (String x (c +:+ sep +:+ post))
        with (String x c +:+ sep +:+ post) in E2.
      rewrite <- sapp_assoc in E2.
      apply strip_prefix_shorter in E2 as [r' E2].
      * simpl in E2. simpl in E1. congruence.
      * rewrite slength_app. lia.
    + rewrite IH; [done | lia].
Qed.

Lemma split_fuel_enough (c : ascii) (sep' : string) (n m : nat) (s : string) :
  let sep := String c sep' in
  (String.length s ≤ n)%nat → (String.length s ≤ m)%nat →
  split_fuel n sep s = split_fuel m sep s.
Proof.
  intros sep. revert m s.
  induction n as [|n IH]; intros m s Hn Hm.
  - destruct s; [| simpl in Hn; lia]. by destruct m.
  - destruct m as [|m].
    { destruct s; [done | simpl in Hm; lia]. }
    simpl. destruct (find_split sep s) as [[a b]|] eqn:E; [| done].
    apply find_split_Some in E. subst s.
    rewrite !slength_app in Hn, Hm. simpl in Hn, Hm.
    f_equal. apply IH; lia.
Qed.

Lemma split_unfold (c : ascii) (sep' s : string) :
  let sep := String c sep' in
  split sep s =
    match find_split sep s with
    | None => [s]
    | Some (a, b) => a :: split sep b
    end.
Proof.
  intros sep. unfold split.
  destruct s as [|x s].
  { simpl. by destruct (strip_prefix sep ""). }
  change (String.length (String x s)) with (S (String.length s)).
  change (split_fuel (S (String.length s)) sep (String x s))
    with (match find_split sep (String x s) with
          | None => [String x s]
          | Some (a, b) => a :: split_fuel (String.length s) sep b
          end).
  destruct (find_split sep (String x s)) as [[a b]|] eqn:E; [| done].
  f_equal. apply find_split_Some in E.
  apply (split_fuel_enough c sep'); [| done].
  apply (f_equal String.length) in E.
  rewrite !slength_app in E. simpl in E. lia.
Qed.

Lemma split_absent (c : ascii) (sep' s : string) :
  let sep := String c sep' in
  count_occ sep s = 0%nat → split sep s = [s].
Proof.
  intros sep H. rewrite (split_unfold c sep').
  apply count_occ_zero in H. fold sep. by rewrite H.
Qed.

End StringFacts.

(** ** Further definitions

    Sample data for the further properties, then the rest of the
    sources: the standard library functions behind the preview URL and
    the prompt, [model_dump] and [model_validate], the two services with
    their constructors and requests, and the five tools.  Here the calls
    to the outside are part of the embedding: a computation is a step on
    the log of calls, and what the outside answers is a function of that
    log and of the request. *)

(** [site_a] with its primary colour in lower case. *)
Definition site_a_lower : BrandData.t :=
  BrandData.mk "https://a.example"
    (BrandColors.mk "#ff0000" None None None None [])
    (BrandTypography.mk "Arial" "Helvetica" [400; 600; 700]
       (Some "16px") (Some "1.5"))
    BrandSpacing.default BrandButtons.default None None [].


(** Equality test on the results of [int]. *)
Definition result_Z_eqb (r1 r2 : result Z) : bool :=
  match r1, r2 with
  | Ok v1, Ok v2 => v1 =? v2
  | Raise e1, Raise e2 => bool_decide (e1 = e2)
  | _, _ => false
  end.


(** An extraction payload with every section, and the record the
    normaliser builds from it. *)
Definition full_payload : Firecrawl.json :=
  Firecrawl.JObj
    (<["colors" := Firecrawl.JObj
         (<["primary" := Firecrawl.JStr "#FF0000"]>
          (<["secondary" := Firecrawl.JStr "#00FF00"]>
           (<["accent" := Firecrawl.JStr "#0000FF"]>
            (<["background" := Firecrawl.JStr "#FFFFFF"]>
             {["text" := Firecrawl.JStr "#111111"]}))))]>
     (<["typography" := Firecrawl.JObj
          (<["headings" := Firecrawl.JStr "Arial"]>
           (<["body" := Firecrawl.JStr "Helvetica"]>
            {["weights" := Firecrawl.JArr (Firecrawl.JInt <$> [300; 500])]}))]>
      (<["buttons" := Firecrawl.JObj
           {["primary" := Firecrawl.JObj {["bg" := Firecrawl.JStr "#FF0000"]}]}]>
       (<["logo_url" := Firecrawl.JStr "/logo.png"]>
        {["favicon_url" := Firecrawl.JStr "/favicon.ico"]})))).

Definition full_brand : BrandData.t :=
  BrandData.mk "https://example.com"
    (BrandColors.mk "#FF0000" (Some "#00FF00") (Some "#0000FF")
       (Some "#FFFFFF") (Some "#111111") [])
    (BrandTypography.mk "Arial" "Helvetica" [300; 500]
       (Some "16px") (Some "1.5"))
    BrandSpacing.default
    (BrandButtons.mk
       (Some (ButtonStyle.mk "#FF0000" "#ffffff" "4px" "12px 24px" None None))
       None None)
    (Some "/logo.png") (Some "/favicon.ico") ["shot.png"].

(** A response body around [full_payload], with a screenshot. *)
Definition full_response : Firecrawl.json :=
  Firecrawl.JObj
    {["data" := Firecrawl.JObj
        (<["extract" := full_payload]>
         {["screenshot" := Firecrawl.JStr "shot.png"]})]}.

(** The record built when nothing was extracted. *)
Definition default_brand (url : string) : BrandData.t :=
  BrandData.mk url
    (BrandColors.mk "#000000" None None None None [])
    (BrandTypography.mk "sans-serif" "sans-serif" [400; 600; 700]
       (Some "16px") (Some "1.5"))
    BrandSpacing.default BrandButtons.default None None [].

(** ** The standard library functions behind the preview URL and the
       prompt *)

Module Codec.
Import PyStr.

(** [str.encode()]: UTF-8, on code points up to U+00FF. *)
Definition encode_char (c : ascii) : list N :=
  let n := code c in
  if (n <? 128)%N then [n] else [(192 + n / 64)%N; (128 + n mod 64)%N].

Fixpoint encode (s : string) : list N :=
  match s with
  | EmptyString => []
  | String c s' => encode_char c ++ encode s'
  end.

Definition b64_alphabet : list ascii :=
  list_ascii_of_string
    "ABCDEFGHIJKLMNOPQRSTUVWXYZabcdefghijklmnopqrstuvwxyz0123456789+/".

Definition b64_char (n : N) : ascii :=
  nth (N.to_nat n) b64_alphabet "="%char.

(** [base64.b64encode(bs).decode()], the bytes as numbers below 256. *)
Fixpoint b64encode (bs : list N) : string :=
  match bs with
  | [] => EmptyString
  | [a] =>
      String (b64_char (a / 4))
        (String (b64_char (a mod 4 * 16)) "==")
  | [a; b] =>
      String (b64_char (a / 4))
        (String (b64_char (a mod 4 * 16 + b / 16))
           (String (b64_char (b mod 16 * 4)) "="))
  | a :: b :: c :: rest =>
      String (b64_char (a / 4))
        (String (b64_char (a mod 4 * 16 + b / 16))
           (String (b64_char (b mod 16 * 4 + c / 64))
              (String (b64_char (c mod 64)) (b64encode rest))))
  end%N.

(** Line 152 of [services/gemini.py]. *)
Definition preview_url (generated : GeneratedCode.t) : string :=
  "data:text/html;base64,"
  +:+ b64encode (encode (GeneratedCode.preview_html generated)).

Definition hex_char (n : N) : ascii :=
  nth (N.to_nat n) (list_ascii_of_string "0123456789abcdef") "0"%char.

(** [str.isprintable] on one character. *)
Definition isprintable (c : ascii) : bool :=
  let n := code c in
  negb ((n <? 32) || (127 <=? n) && (n <=? 160) || (n =? 173))%N.

Fixpoint has_char (c : ascii) (s : string) : bool :=
  match s with
  | EmptyString => false
  | String c' s' => Ascii.eqb c c' || has_char c s'
  end.

Definition squote : ascii := "'"%char.
Definition dquote : ascii := ascii_of_N 34.
Definition backslash : ascii := ascii_of_N 92.

(** One character of [repr(s)] between the quotes [quote]. *)
Definition repr_char (quote c : ascii) : string :=
  let n := code c in
  if Ascii.eqb c quote || Ascii.eqb c backslash then
    String backslash (String c EmptyString)
  else if (n =? 9)%N then String backslash "t"
  else if (n =? 10)%N then String backslash "n"
  else if (n =? 13)%N then String backslash "r"
  else if isprintable c then String c EmptyString
  else String backslash
         (String "x" (String (hex_char (n / 16))
                        (String (hex_char (n mod 16)) EmptyString))).

Fixpoint repr_chars (quote : ascii) (s : string) : string :=
  match s with
  | EmptyString => EmptyString
  | String c s' => repr_char quote c +:+ repr_chars quote s'
  end.

(** [repr(s)] of a [str]. *)
Definition repr_str (s : string) : string :=
  let quote :=
    if has_char squote s && negb (has_char dquote s) then dquote else squote in
  String quote (repr_chars quote s) +:+ String quote EmptyString.

(** [repr(v)] of an [Optional[str]]. *)
Definition repr_opt_str (v : option string) : string :=
  match v with
  | Some s => repr_str s
  | None => "None"
  end.

(** [repr(d)] of a [dict] from [str] to [Optional[str]], its items in
    the order of insertion. *)
Definition repr_dict (items : list (string * option string)) : string :=
  "{" +:+ join ", " (map (fun kv => repr_str kv.1 +:+ ": " +:+ repr_opt_str kv.2)
                       items)
  +:+ "}".

(** The indices of the base64 alphabet. *)
Definition below_64 : list N := N.of_nat <$> seq 0 64.

End Codec.

(** ** [schemas/brand.py]: [model_dump] and [model_validate] *)

Module Schema.
Import Firecrawl.

(** A [dict] literal, its items in the order written. *)
Definition obj (items : list (string * json)) : json :=
  JObj (list_to_map items).

Definition dump_opt_str (v : option string) : json :=
  match v with
  | Some s => JStr s
  | None => JNull
  end.

Definition dump_str_list (l : list string) : json := JArr (JStr <$> l).

Definition dump_str_dict (m : gmap string string) : json := JObj (JStr <$> m).

(** The items of [ButtonStyle.model_dump()], in the order of the fields. *)
Definition ButtonStyle_items (b : ButtonStyle.t)
  : list (string * option string) :=
  [("bg", Some (ButtonStyle.bg b));
   ("text", Some (ButtonStyle.text b));
   ("border_radius", Some (ButtonStyle.border_radius b));
   ("padding", Some (ButtonStyle.padding b));
   ("border", ButtonStyle.border b);
   ("hover_bg", ButtonStyle.hover_bg b)].

Definition dump_ButtonStyle (b : ButtonStyle.t) : json :=
  obj (map (fun kv => (kv.1, dump_opt_str kv.2)) (ButtonStyle_items b)).

Definition dump_opt_ButtonStyle (v : option ButtonStyle.t) : json :=
  match v with
  | Some b => dump_ButtonStyle b
  | None => JNull
  end.

Definition dump_BrandColors (c : BrandColors.t) : json :=
  obj [("primary", JStr (BrandColors.primary c));
       ("secondary", dump_opt_str (BrandColors.secondary c));
       ("accent", dump_opt_str (BrandColors.accent c));
       ("background", dump_opt_str (BrandColors.background c));
       ("text", dump_opt_str (BrandColors.text c));
       ("palette", dump_str_list (BrandColors.palette c))].

Definition dump_BrandTypography (t : BrandTypography.t) : json :=
  obj [("headings", JStr (BrandTypography.headings t));
       ("body", JStr (BrandTypography.body t));
       ("weights", JArr (JInt <$> BrandTypography.weights t));
       ("base_size", dump_opt_str (BrandTypography.base_size t));
       ("line_height", dump_opt_str (BrandTypography.line_height t))].

Definition dump_BrandSpacing (s : BrandSpacing.t) : json :=
  obj [("grid", JStr (BrandSpacing.grid s));
       ("margins", dump_str_dict (BrandSpacing.margins s));
       ("padding", dump_str_dict (BrandSpacing.padding s));
       ("gap", dump_opt_str (BrandSpacing.gap s))].

Definition dump_BrandButtons (b : BrandButtons.t) : json :=
  obj [("primary", dump_opt_ButtonStyle (BrandButtons.primary b));
       ("secondary", dump_opt_ButtonStyle (BrandButtons.secondary b));
       ("outline", dump_opt_ButtonStyle (BrandButtons.outline b))].

(** [BrandData.model_dump()] *)
Definition dump_BrandData (b : BrandData.t) : json :=
  obj [("url", JStr (BrandData.url b));
       ("colors", dump_BrandColors (BrandData.colors b));
       ("typography", dump_BrandTypography (BrandData.typography b));
       ("spacing", dump_BrandSpacing (BrandData.spacing b));
       ("buttons", dump_BrandButtons (BrandData.buttons b));
       ("logo_url", dump_opt_str (BrandData.logo_url b));
       ("favicon_url", dump_opt_str (BrandData.favicon_url b));
       ("screenshots", dump_str_list (BrandData.screenshots b))].

(** [GeneratedCode.model_dump()] *)
Definition dump_GeneratedCode (g : GeneratedCode.t) : json :=
  obj [("html", JStr (GeneratedCode.html g));
       ("css", JStr (GeneratedCode.css g));
       ("preview_url", JStr (Codec.preview_url g));
       ("component_type", dump_opt_str (GeneratedCode.component_type g))].

Definition dump_ComparisonMetrics (m : ComparisonMetrics.t) : json :=
  obj [("color_similarity",
        JFloat (Qmake (ComparisonMetrics.color_similarity m) 1000));
       ("typography_match", JBool (ComparisonMetrics.typography_match m));
       ("font_overlap", dump_str_list (ComparisonMetrics.font_overlap m));
       ("differences", dump_str_list (ComparisonMetrics.differences m))].

(** [BrandComparison.model_dump()] *)
Definition dump_BrandComparison (c : BrandComparison.t) : json :=
  obj [("site1", dump_BrandData (BrandComparison.site1 c));
       ("site2", dump_BrandData (BrandComparison.site2 c));
       ("comparison", dump_ComparisonMetrics (BrandComparison.comparison c))].

(** Validation of a [dict] against a model.  A field that is absent
    takes its default, or is an error when it has none; keys that are no
    field are ignored; every error is a [ValidationError]. *)
Definition field {A} (m : gmap string json) (k : string)
    (validate : json → result A) (default : option A) : result A :=
  match m !! k with
  | Some v => validate v
  | None =>
      match default with
      | Some a => Ok a
      | None => Raise ValidationError
      end
  end.

Definition str_of_json (v : json) : option string :=
  match v with
  | JStr s => Some s
  | _ => None
  end.

(** [dict[str, str]] *)
Definition as_str_dict (v : json) : result (gmap string string) :=
  match v with
  | JObj m =>
      if decide (map_Forall (fun _ x => is_Some (str_of_json x)) m)
      then Ok (omap str_of_json m)
      else Raise ValidationError
  | _ => Raise ValidationError
  end.

Definition validate_ButtonStyle (v : json) : result ButtonStyle.t :=
  match v with
  | JObj m =>
      bg ← field m "bg" as_str None;
      text ← field m "text" as_str None;
      border_radius ← field m "border_radius" as_str (Some "4px");
      padding ← field m "padding" as_str (Some "12px 24px");
      border ← field m "border" as_opt_str (Some None);
      hover_bg ← field m "hover_bg" as_opt_str (Some None);
      mret (ButtonStyle.mk bg text border_radius padding border hover_bg)
  | _ => Raise ValidationError
  end.

Definition validate_opt_ButtonStyle (v : json)
  : result (option ButtonStyle.t) :=
  match v with
  | JNull => Ok None
  | _ => b ← validate_ButtonStyle v; mret (Some b)
  end.

Definition validate_BrandColors (v : json) : result BrandColors.t :=
  match v with
  | JObj m =>
      primary ← field m "primary" as_str None;
      secondary ← field m "secondary" as_opt_str (Some None);
      accent ← field m "accent" as_opt_str (Some None);
      background ← field m "background" as_opt_str (Some None);
      text ← field m "text" as_opt_str (Some None);
      palette ← field m "palette" as_str_list (Some []);
      mret (BrandColors.mk primary secondary accent background text palette)
  | _ => Raise ValidationError
  end.

Definition validate_BrandSpacing (v : json) : result BrandSpacing.t :=
  match v with
  | JObj m =>
      grid ← field m "grid" as_str (Some "8px");
      margins ← field m "margins" as_str_dict (Some ∅);
      padding ← field m "padding" as_str_dict (Some ∅);
      gap ← field m "gap" as_opt_str (Some None);
      mret (BrandSpacing.mk grid margins padding gap)
  | _ => Raise ValidationError
  end.

Definition validate_BrandButtons (v : json) : result BrandButtons.t :=
  match v with
  | JObj m =>
      primary ← field m "primary" validate_opt_ButtonStyle (Some None);
      secondary ← field m "secondary" validate_opt_ButtonStyle (Some None);
      outline ← field m "outline" validate_opt_ButtonStyle (Some None);
      mret (BrandButtons.mk primary secondary outline)
  | _ => Raise ValidationError
  end.

Section Validate.
Variable validate_int : json → option Z.

Definition validate_BrandTypography (v : json) : result BrandTypography.t :=
  match v with
  | JObj m =>
      headings ← field m "headings" as_str None;
      body ← field m "body" as_str None;
      weights ← field m "weights" (as_int_list validate_int)
                  (Some [400; 600; 700]);
      base_size ← field m "base_size" as_opt_str (Some (Some "16px"));
      line_height ← field m "line_height" as_opt_str (Some (Some "1.5"));
      mret (BrandTypography.mk headings body weights base_size line_height)
  | _ => Raise ValidationError
  end.

(** [BrandData.model_validate(v)] *)
Definition validate_BrandData (v : json) : result BrandData.t :=
  match v with
  | JObj m =>
      url ← field m "url" as_str None;
      colors ← field m "colors" validate_BrandColors None;
      typography ← field m "typography" validate_BrandTypography None;
      spacing ← field m "spacing" validate_BrandSpacing
                  (Some BrandSpacing.default);
      buttons ← field m "buttons" validate_BrandButtons
                  (Some BrandButtons.default);
      logo_url ← field m "logo_url" as_opt_str (Some None);
      favicon_url ← field m "favicon_url" as_opt_str (Some None);
      screenshots ← field m "screenshots" as_str_list (Some []);
      mret (BrandData.mk url colors typography spacing buttons
              logo_url favicon_url screenshots)
  | _ => Raise ValidationError
  end.

End Validate.

End Schema.

(** ** The outside world

    A service call is a step on the log of what the program did to the
    outside: the HTTP client it opened, the requests it sent, the model
    it asked.  What the outside answers is given by two functions of the
    log so far and the request. *)

Inductive failure : Type :=
| Builtin (e : exn)
| Foreign (name : string).

Inductive outcome (A : Type) : Type :=
| Returned (a : A)
| Failed (f : failure).
Arguments Returned {A} a.
Arguments Failed {A} f.

Inductive event : Type :=
| AsyncClient (base_url : string) (headers : list (string * string))
| Post (path : string) (payload : Firecrawl.json)
| Aclose
| Configure (api_key : string)
| GenerateContent (model prompt : string).

Definition io (A : Type) : Type := list event → outcome A * list event.

#[global] Instance io_ret : MRet io := fun _ a log => (Returned a, log).
#[global] Instance io_bind : MBind io := fun _ _ f m log =>
  match m log with
  | (Returned a, log') => f a log'
  | (Failed e, log') => (Failed e, log')
  end.

Definition emit (e : event) : io unit := fun log => (Returned (), log ++ [e]).

Definition raise {A} (e : exn) : io A := fun log => (Failed (Builtin e), log).

Definition lift {A} (r : result A) : io A :=
  match r with
  | Ok a => mret a
  | Raise e => raise e
  end.

(** [try: body finally: cleanup] *)
Definition finally {A} (body : io A) (cleanup : io unit) : io A := fun log =>
  let '(r, log1) := body log in
  match cleanup log1 with
  | (Returned _, log2) => (r, log2)
  | (Failed e, log2) => (Failed e, log2)
  end.

(** [api_key or os.getenv(name)], then [if not self.api_key: raise]. *)
Definition resolve_key (env : gmap string string) (api_key : option string)
    (name : string) : result string :=
  let api_key :=
    if Gemini.truthy_str api_key then api_key else env !! name in
  if negb (Gemini.truthy_str api_key) then Raise ValueError
  else Ok (Gemini.str_of api_key).

(** ** services/firecrawl.py: the service *)

Module FirecrawlService.
Import Firecrawl Schema.

Record t : Type := mk { api_key : string }.

Definition BASE_URL : string := "https://api.firecrawl.dev/v1".

(** Lines 75-129, without the formats. *)
Definition string_property (description : string) : json :=
  obj [("type", JStr "string"); ("description", JStr description)].

Definition extract_schema : json :=
  obj [("type", JStr "object");
       ("properties",
        obj [("colors",
              obj [("type", JStr "object");
                   ("properties",
                    obj [("primary",
                          string_property "Primary brand color in hex");
                         ("secondary",
                          string_property "Secondary brand color in hex");
                         ("accent", string_property "Accent color in hex");
                         ("background",
                          string_property "Background color in hex");
                         ("text",
                          string_property "Primary text color in hex");
                         ("palette",
                          obj [("type", JStr "array");
                               ("items", obj [("type", JStr "string")]);
                               ("description",
                                JStr "All colors found on the page")])])]);
             ("typography",
              obj [("type", JStr "object");
                   ("properties",
                    obj [("headings",
                          string_property "Font family for headings");
                         ("body",
                          string_property "Font family for body text");
                         ("weights",
                          obj [("type", JStr "array");
                               ("items", obj [("type", JStr "integer")]);
                               ("description", JStr "Font weights used")])])]);
             ("buttons",
              obj [("type", JStr "object");
                   ("properties",
                    obj [("primary",
                          obj [("type", JStr "object");
                               ("properties",
                                obj [("bg", obj [("type", JStr "string")]);
                                     ("text", obj [("type", JStr "string")]);
                                     ("border_radius",
                                      obj [("type", JStr "string")]);
                                     ("padding",
                                      obj [("type", JStr "string")])])])])]);
             ("logo_url", string_property "URL to the website logo");
             ("favicon_url", string_property "URL to the favicon")])].

Definition extract_prompt : string :=
  "Extract the brand identity including colors, typography, and button styles from this website. For colors, provide hex values. For typography, identify the font families used for headings and body text.".

(** Lines 35-38. *)
Definition headers (api_key : string) : list (string * string) :=
  [("Authorization", "Bearer " +:+ api_key);
   ("Content-Type", "application/json")].

Definition with_screenshot (formats : list string) (include : bool)
  : list string :=
  if include then formats ++ ["screenshot"] else formats.

Definition scrape_payload (url : string) (include_screenshot : bool) : json :=
  obj [("url", JStr url);
       ("formats",
        dump_str_list (with_screenshot ["html"; "markdown"] include_screenshot))].

Definition extract_payload (url : string) (include_screenshots : bool)
  : json :=
  obj [("url", JStr url);
       ("formats",
        dump_str_list (with_screenshot ["extract"] include_screenshots));
       ("extract",
        obj [("schema", extract_schema); ("prompt", JStr extract_prompt)])].

Section World.
Variable env : gmap string string.
(** [client.post], [raise_for_status] and [response.json()]. *)
Variable post : list event → string → json → outcome json.
Variable validate_int : json → option Z.

Definition request (path : string) (payload : json) : io json := fun log =>
  (post log path payload, log ++ [Post path payload]).

(** Lines 23-40. *)
Definition __init__ (api_key : option string) : io t :=
  api_key ← lift (resolve_key env api_key "FIRECRAWL_API_KEY");
  _ ← emit (AsyncClient BASE_URL (headers api_key));
  mret (mk api_key).

(** Lines 42-62. *)
Definition scrape (self : t) (url : string) (include_screenshot : bool)
  : io json :=
  request "/scrape" (scrape_payload url include_screenshot).

(** Lines 64-185. *)
Definition extract_brand (self : t) (url : string)
    (include_screenshots : bool) : io BrandData.t :=
  data ← request "/scrape" (extract_payload url include_screenshots);
  lift (Firecrawl.extract_brand validate_int data url include_screenshots).

(** Lines 187-189. *)
Definition close (self : t) : io unit := emit Aclose.

End World.
End FirecrawlService.

(** ** services/gemini.py: the service *)

Module GeminiService.
Import PyStr Gemini Schema.

Record t : Type := mk { api_key : string; model : string }.

Definition or_else (v : option string) (default : string) : string :=
  if truthy_str v then str_of v else default.

(** Lines 70-105. *)
Definition prompt (brand_data : BrandData.t)
    (component_type customization : string) : string :=
  let css_variables := _brand_to_css_variables brand_data in
  let colors := BrandData.colors brand_data in
  let typography := BrandData.typography brand_data in
  join nl
    ["Generate a " +:+ component_type
       +:+ " component using these brand specifications:";
     "";
     "BRAND DATA:";
     "- Primary Color: " +:+ BrandColors.primary colors;
     "- Secondary Color: " +:+ or_else (BrandColors.secondary colors) "N/A";
     "- Accent Color: " +:+ or_else (BrandColors.accent colors) "N/A";
     "- Background: " +:+ or_else (BrandColors.background colors) "#ffffff";
     "- Text Color: " +:+ or_else (BrandColors.text colors) "#000000";
     "- Heading Font: " +:+ BrandTypography.headings typography;
     "- Body Font: " +:+ BrandTypography.body typography;
     "- Button Style: "
       +:+ match BrandButtons.primary (BrandData.buttons brand_data) with
           | Some primary => Codec.repr_dict (ButtonStyle_items primary)
           | None => "Default"
           end;
     "";
     "CSS VARIABLES (use these):";
     ":root {";
     css_variables;
     "}";
     "";
     "COMPONENT TYPE: " +:+ component_type;
     "";
     if negb (String.eqb customization "")
     then "ADDITIONAL INSTRUCTIONS: " +:+ customization else "";
     "";
     "REQUIREMENTS:";
     "1. Generate clean, semantic HTML5";
     "2. Generate CSS that uses the provided CSS variables";
     "3. Make the component responsive";
     "4. Use modern CSS (flexbox/grid)";
     "5. Include hover states for interactive elements";
     "";
     "OUTPUT FORMAT:";
     "Return the response in this exact format:";
     "---HTML---";
     "[Your HTML code here]";
     "---CSS---";
     "[Your CSS code here]";
     "---END---";
     ""].

(** Lines 175-181. *)
Definition template_prompts : list (string * string) :=
  [("hero_section",
    "Create a hero section with a headline, subheadline, CTA button, and optional image placeholder");
   ("pricing_table",
    "Create a 3-tier pricing table with features, prices, and CTA buttons");
   ("feature_grid",
    "Create a 3-column feature grid with icons (use emoji placeholders), titles, and descriptions");
   ("testimonial",
    "Create a testimonial section with quote, author name, role, and company");
   ("cta",
    "Create a call-to-action section with headline, description, and primary button")].

Fixpoint lookup_item (k : string) (items : list (string * string))
  : option string :=
  match items with
  | [] => None
  | (k', v) :: items' => if String.eqb k k' then Some v else lookup_item k items'
  end.

(** Lines 183-186. *)
Definition template_customization (template_type : string) : string :=
  match lookup_item template_type template_prompts with
  | Some v => v
  | None => "Create a " +:+ template_type +:+ " component"
  end.

Section World.
Variable env : gmap string string.
(** [model.generate_content_async(prompt)] and [response.text]. *)
Variable generate_content : list event → string → string → outcome string.

Definition ask (model prompt : string) : io string := fun log =>
  (generate_content log model prompt, log ++ [GenerateContent model prompt]).

(** Lines 15-26. *)
Definition __init__ (api_key : option string) : io t :=
  api_key ← lift (resolve_key env api_key "GOOGLE_API_KEY");
  _ ← emit (Configure api_key);
  mret (mk api_key "gemini-2.0-flash-lite").

(** Lines 52-159. *)
Definition generate_replica (self : t) (brand_data : BrandData.t)
    (component_type customization : string) : io GeneratedCode.t :=
  text ← ask (model self) (prompt brand_data component_type customization);
  lift (Gemini.generate_replica brand_data component_type customization text).

(** Lines 161-188. *)
Definition generate_from_template (self : t) (brand_data : BrandData.t)
    (template_type : string) : io GeneratedCode.t :=
  let customization := template_customization template_type in
  generate_replica self brand_data template_type customization.

(** Lines 190-215. *)
Definition calculate_color_similarity (self : t) (color1 color2 : string)
  : io Z :=
  lift (Gemini.calculate_color_similarity color1 color2).

End World.
End GeminiService.

(** ** tools.py: the five tools *)

Module McpTools.
Import Firecrawl Schema.

Section World.
Variable env : gmap string string.
Variable post : list event → string → json → outcome json.
Variable generate_content : list event → string → string → outcome string.
Variable validate_int : json → option Z.

(** Lines 15-34. *)
Definition extract_brand (url : string) (include_screenshots : bool)
  : io json :=
  firecrawl ← FirecrawlService.__init__ env None;
  finally
    (brand_data ← FirecrawlService.extract_brand post validate_int
                    firecrawl url include_screenshots;
     mret (dump_BrandData brand_data))
    (FirecrawlService.close firecrawl).

(** Lines 36-59. *)
Definition generate_replica (brand_data : json)
    (component_type customization : string) : io json :=
  brand ← lift (validate_BrandData validate_int brand_data);
  gemini ← GeminiService.__init__ env None;
  result ← GeminiService.generate_replica generate_content gemini brand
             component_type customization;
  mret (dump_GeneratedCode result).

(** Lines 61-92. *)
Definition replicate_website (url component_type customization : string)
  : io json :=
  firecrawl ← FirecrawlService.__init__ env None;
  brand_data ←
    finally
      (FirecrawlService.extract_brand post validate_int firecrawl url false)
      (FirecrawlService.close firecrawl);
  gemini ← GeminiService.__init__ env None;
  generated ← GeminiService.generate_replica generate_content gemini
                brand_data component_type customization;
  mret (obj [("brand_data", dump_BrandData brand_data);
             ("generated", dump_GeneratedCode generated)]).

(** Lines 94-155. *)
Definition compare_brands (url1 url2 : string) : io json :=
  firecrawl ← FirecrawlService.__init__ env None;
  gemini ← GeminiService.__init__ env None;
  brands ←
    finally
      (brand1 ← FirecrawlService.extract_brand post validate_int
                  firecrawl url1 false;
       brand2 ← FirecrawlService.extract_brand post validate_int
                  firecrawl url2 false;
       mret (brand1, brand2))
      (FirecrawlService.close firecrawl);
  comparison ← lift (Tools.compare_brands brands.1 brands.2);
  mret (dump_BrandComparison comparison).

(** Lines 157-186. *)
Definition apply_brand_to_template (url template_type : string) : io json :=
  firecrawl ← FirecrawlService.__init__ env None;
  brand_data ←
    finally
      (FirecrawlService.extract_brand post validate_int firecrawl url false)
      (FirecrawlService.close firecrawl);
  gemini ← GeminiService.__init__ env None;
  result ← GeminiService.generate_from_template generate_content gemini
             brand_data template_type;
  mret (obj [("html", JStr (GeneratedCode.html result));
             ("css", JStr (GeneratedCode.css result));
             ("preview_url", JStr (Codec.preview_url result));
             ("template_type", JStr template_type);
             ("source_url", JStr url)]).

End World.
End McpTools.

(** ** Further sample data *)

(** Two brands whose primary colours are further apart than black and
    white: the channels of the first carry a sign. *)
Definition site_signed : BrandData.t :=
  BrandData.mk "https://signed.example"
    (BrandColors.mk "-f-f-f" None None None None [])
    (BrandTypography.mk "Arial" "Helvetica" [400; 600; 700]
       (Some "16px") (Some "1.5"))
    BrandSpacing.default BrandButtons.default None None [].

Definition site_white : BrandData.t :=
  BrandData.mk "https://white.example"
    (BrandColors.mk "ffffff" None None None None [])
    (BrandTypography.mk "Arial" "Helvetica" [400; 600; 700]
       (Some "16px") (Some "1.5"))
    BrandSpacing.default BrandButtons.default None None [].

(** ** Counting on the log *)

Definition is_open (e : event) : bool :=
  match e with
  | AsyncClient _ _ => true
  | _ => false
  end.

Definition is_close (e : event) : bool :=
  match e with
  | Aclose => true
  | _ => false
  end.

(** The clients opened and the clients closed. *)
Definition opened (log : list event) : nat := length (List.filter is_open log).
Definition closed (log : list event) : nat := length (List.filter is_close log).

(** What a computation adds to the log opens as many clients as it
    closes, and at most one. *)
Definition balanced {A} (m : io A) : Prop :=
  ∀ log, ∃ added,
    (m log).2 = log ++ added ∧ opened added = closed added ∧
    (opened added ≤ 1)%nat.

(** ** A sample world *)

Definition sample_env : gmap string string :=
  <["FIRECRAWL_API_KEY" := "fc-key"]> {["GOOGLE_API_KEY" := "g-key"]}.

(** An environment with the scraping key only. *)
Definition scraping_env : gmap string string :=
  {["FIRECRAWL_API_KEY" := "fc-key"]}.

Definition sample_post (log : list event) (path : string)
    (payload : Firecrawl.json) : outcome Firecrawl.json :=
  Returned full_response.

Definition failing_post (log : list event) (path : string)
    (payload : Firecrawl.json) : outcome Firecrawl.json :=
  Failed (Foreign "httpx.HTTPStatusError").

Definition sample_generate (log : list event) (model prompt : string)
  : outcome string :=
  Returned "---HTML---<p>hi</p>---CSS---p { color: red }---END---".

(** * The response parser *)

Ltac parse_step :=
  cbn -[PyStr.split PyStr.strip String.append];
  rewrite ?bool_decide_eq_true_2 by (cbn; lia);
  cbn -[PyStr.split PyStr.strip String.append].

Section ParserFacts.
Import PyStr Gemini.

Lemma count_occ_zero_occurs (sep s : string) :
  count_occ sep s = 0%nat ↔ ¬ occurs sep s.
Proof. by rewrite count_occ_zero, <- not_contains_occurs; unfold contains;
  destruct (find_split sep s). Qed.

Lemma split_once (c : ascii) (sep' a b : string) :
  let sep := String c sep' in
  count_occ sep (a +:+ sep +:+ b) = 1%nat →
  split sep (a +:+ sep +:+ b) = [a; b].
Proof.
  intros sep H. rewrite (split_unfold c sep'). fold sep.
  rewrite (find_split_unique _ _ _ H).
  pose proof (count_occ_after c sep' a b) as H1. cbv zeta in H1. fold sep in H1.
  rewrite (split_absent c sep'); [done | fold sep; lia].
Qed.

Lemma split_nonempty (c : ascii) (sep' s : string) :
  ∃ x l, split (String c sep') s = x :: l.
Proof.
  rewrite split_unfold.
  destruct (find_split _ s) as [[a b]|]; eauto.
Qed.

Lemma split_head_first (c : ascii) (sep' x post : string) :
  let sep := String c sep' in
  count_occ sep (x +:+ sep) = 1%nat →
  ∃ l, split sep (x +:+ sep +:+ post) = x :: l.
Proof.
  intros sep H. rewrite (split_unfold c sep'). fold sep.
  rewrite (find_split_first _ _ _ H). eauto.
Qed.

Lemma split_two (c : ascii) (sep' s : string) :
  let sep := String c sep' in
  contains sep s = true → ∃ a b l, split sep s = a :: b :: l.
Proof.
  intros sep H. subst sep. unfold contains in H. rewrite split_unfold.
  destruct (find_split _ s) as [[a b]|]; [| done].
  destruct (split_nonempty c sep' b) as (x & l & ->). eauto.
Qed.

(** The parser returns on every response. *)
Lemma parse_response_total (text : string) :
  ∃ html css, parse_response text = Ok (html, css).
Proof.
  unfold parse_response.
  unfold HTML_MARK, CSS_MARK, END_MARK, HTML_FENCE, CSS_FENCE, FENCE.
  destruct (contains "---HTML---" text && contains "---CSS---" text) eqn:Hm.
  - apply andb_prop in Hm as [Hh Hc]. rewrite Hc.
    destruct (split_two "-" "--HTML---" text Hh) as (a & b & l & ->).
    destruct (split_two "-" "--CSS---" text Hc) as (a' & b' & l' & ->).
    parse_step.
    destruct (split_nonempty "-" "--CSS---" b) as (x & lx & ->).
    destruct (split_nonempty "-" "--END---" b') as (y & ly & ->).
    parse_step. eauto.
  - destruct (contains "```html" text) eqn:Hh;
      destruct (contains "```css" text) eqn:Hc.
    + destruct (split_two "`" "``html" text Hh) as (a & b & l & ->).
      destruct (split_two "`" "``css" text Hc) as (a' & b' & l' & ->).
      parse_step.
      destruct (split_nonempty "`" "``" b) as (x & lx & ->).
      destruct (split_nonempty "`" "``" b') as (y & ly & ->).
      parse_step. eauto.
    + destruct (split_two "`" "``html" text Hh) as (a & b & l & ->).
      parse_step.
      destruct (split_nonempty "`" "``" b) as (x & lx & ->).
      parse_step. eauto.
    + destruct (split_two "`" "``css" text Hc) as (a' & b' & l' & ->).
      parse_step.
      destruct (split_nonempty "`" "``" b') as (y & ly & ->).
      parse_step. eauto.
    + parse_step. eauto.
Qed.

Lemma in_suffixes (p q : string) : In q (suffixes (p +:+ q)).
Proof.
  induction p as [|c p IH]; simpl.
  - destruct q; simpl; auto.
  - auto.
Qed.

(** A property checked at every occurrence of [sep] in [s]. *)
Lemma occurrences_check (sep s : string) (f : string → bool) :
  forallb (λ suf, match strip_prefix sep suf with
                  | Some r => f r
                  | None => true
                  end) (suffixes s) = true →
  ∀ p rest, s = p +:+ sep +:+ rest → f rest = true.
Proof.
  intros H p rest ->. rewrite forallb_forall in H.
  specialize (H _ (in_suffixes p (sep +:+ rest))).
  by rewrite strip_prefix_app in H.
Qed.

(** The html and css of a response laid out as
    [pre ---HTML--- h ---CSS--- rest], each of the two markers occurring
    once. *)
Lemma parse_layout (pre h rest : string) :
  let text := pre +:+ HTML_MARK +:+ h +:+ CSS_MARK +:+ rest in
  count_occ HTML_MARK text = 1%nat →
  count_occ CSS_MARK text = 1%nat →
  ∃ body l,
    split END_MARK rest = body :: l ∧
    parse_response text = Ok (strip h, strip body).
Proof.
  intros text Hh Hc. unfold HTML_MARK, CSS_MARK, END_MARK in *.
  assert (Ht : text = (pre +:+ "---HTML---" +:+ h) +:+ "---CSS---" +:+ rest).
  { unfold text. by rewrite !sapp_assoc. }
  assert (Hc' : count_occ "---CSS---" (h +:+ "---CSS---" +:+ rest) = 1%nat).
  { pose proof (count_occ_suffix "---CSS---" (pre +:+ "---HTML---")
                  (h +:+ "---CSS---" +:+ rest)) as H1.
    rewrite sapp_assoc in H1. fold text in H1.
    pose proof (count_occ_occurs "---CSS---" h rest). lia. }
  unfold parse_response, HTML_MARK, CSS_MARK, END_MARK.
  assert (contains "---HTML---" text = true) as ->.
  { apply contains_occurs. by exists pre, (h +:+ "---CSS---" +:+ rest). }
  assert (contains "---CSS---" text = true) as ->.
  { apply contains_occurs. by exists (pre +:+ "---HTML---" +:+ h), rest. }
  rewrite (split_once "-" "--HTML---" _ _ Hh : split "---HTML---" text = _).
  rewrite Ht in Hc |- *.
  rewrite (split_once "-" "--CSS---" _ _ Hc).
  parse_step.
  rewrite (split_once "-" "--CSS---" _ _ Hc').
  destruct (split_nonempty "-" "--END---" rest) as (body & l & Hb).
  exists body, l. split; [done |].
  rewrite Hb. done.
Qed.

End ParserFacts.

Section ParserTheorems.
Import PyStr Gemini.

Lemma fence_extract (c : ascii) (F' text a b x : string) (l lx : list string) :
  split (String c F') text = a :: b :: l →
  split FENCE b = x :: lx →
  ∀ a0 body tail,
    text = a0 +:+ String c F' +:+ body +:+ FENCE +:+ tail →
    count_occ (String c F') text = 1%nat →
    count_occ FENCE (body +:+ FENCE) = 1%nat →
    x = body.
Proof.
  intros Hs Hx a0 body tail -> H1 H2.
  rewrite (split_once c F' _ _ H1) in Hs. injection Hs as <- <- <-.
  destruct (split_head_first "`" "``" body tail H2) as [l' Hl].
  assert (E : x :: lx = body :: l')
    by (etrans; [symmetry; exact Hx | exact Hl]).
  by injection E.
Qed.

(** C1 (as amended): in a response of the form
    [pre ---HTML--- h ---CSS--- rest], where [---HTML---] and [---CSS---]
    each occur exactly once in the whole text, the html is [h] trimmed,
    the text strictly between the two markers; the css is the trimmed
    text after [---CSS---], through the end of the text when no
    [---END---] follows and up to the first [---END---] otherwise; the
    parse returns. *)
Theorem parse_markers_once (pre h rest : string) :
  let text := pre +:+ HTML_MARK +:+ h +:+ CSS_MARK +:+ rest in
  count_occ HTML_MARK text = 1%nat →
  count_occ CSS_MARK text = 1%nat →
  ∃ css,
    parse_response text = Ok (strip h, css) ∧
    (¬ occurs END_MARK rest → css = strip rest) ∧
    (∀ c post,
       rest = c +:+ END_MARK +:+ post →
       count_occ END_MARK (c +:+ END_MARK) = 1%nat →
       css = strip c).
Proof.
  intros text Hh Hc.
  destruct (parse_layout pre h rest Hh Hc) as (body & l & Hb & Hp).
  exists (strip body). split; [exact Hp |]. split.
  - intros Hn. apply count_occ_zero_occurs in Hn.
    pose proof (split_absent "-" "--END---" rest Hn) as Hr.
    assert (E : body :: l = [rest])
      by (etrans; [symmetry; exact Hb | exact Hr]).
    by injection E as -> _.
  - intros c post -> H1.
    destruct (split_head_first "-" "--END---" c post H1) as [l' Hl].
    assert (E : body :: l = c :: l')
      by (etrans; [symmetry; exact Hb | exact Hl]).
    by injection E as -> _.
Qed.

Lemma parse_markers_once_witness :
  ∃ css,
    parse_response
      ("" +:+ HTML_MARK +:+ (nl +:+ "<div>Hi</div>" +:+ nl) +:+ CSS_MARK
       +:+ (nl +:+ ".x{color:red}" +:+ nl +:+ "---END---"))
    = Ok (strip (nl +:+ "<div>Hi</div>" +:+ nl), css) ∧
    (¬ occurs END_MARK (nl +:+ ".x{color:red}" +:+ nl +:+ "---END---") →
     css = strip (nl +:+ ".x{color:red}" +:+ nl +:+ "---END---")) ∧
    (∀ c post,
       nl +:+ ".x{color:red}" +:+ nl +:+ "---END---" = c +:+ END_MARK +:+ post →
       count_occ END_MARK (c +:+ END_MARK) = 1%nat →
       css = strip c).
Proof.
  apply (parse_markers_once ""
           (nl +:+ "<div>Hi</div>" +:+ nl)
           (nl +:+ ".x{color:red}" +:+ nl +:+ "---END---"));
    vm_compute; reflexivity.
Defined.

(** The example of the specification, by evaluation. *)
Example parse_spec_example :
  parse_response
    ("---HTML---" +:+ nl +:+ "<div>Hi</div>" +:+ nl +:+ "---CSS---" +:+ nl
     +:+ ".x{color:red}" +:+ nl +:+ "---END---")
  = Ok ("<div>Hi</div>", ".x{color:red}").
Proof. vm_compute. reflexivity. Qed.

(** C1, the claim as stated, fails: with the css marker repeated and no
    end marker, the css is cut at the second [---CSS---]; it is not the
    trimmed text from after a [---CSS---] through the end of the text. *)
Lemma parse_repeated_css_marker :
  let text := "---HTML---a---CSS---b---CSS---c" in
  occurs HTML_MARK text ∧ occurs CSS_MARK text ∧ ¬ occurs END_MARK text ∧
  parse_response text = Ok ("a", "b") ∧
  ∀ p rest, text = p +:+ CSS_MARK +:+ rest → strip rest ≠ "b".
Proof.
  intros text. repeat split.
  - apply contains_occurs. vm_compute. reflexivity.
  - apply contains_occurs. vm_compute. reflexivity.
  - apply not_contains_occurs. vm_compute. reflexivity.
  - intros p rest H.
    apply (occurrences_check CSS_MARK text
             (λ r, negb (String.eqb (strip r) "b"))) in H.
    + intros E. rewrite E in H. discriminate H.
    + vm_compute. reflexivity.
Qed.

(** Two markers that share their dashes are not a text of that form:
    each occurs once, [---HTML---] first, and nothing lies between them;
    the html runs to the end of the text. *)
Example parse_overlapping_markers :
  let text := "---HTML---CSS---x" in
  count_occ HTML_MARK text = 1%nat ∧ count_occ CSS_MARK text = 1%nat ∧
  parse_response text = Ok ("CSS---x", "x").
Proof. vm_compute. done. Qed.



(** C8, the claim as stated, fails: a response with [---HTML---] and no
    [---CSS---] goes through the fenced-block branch, and its fenced html
    is extracted. *)
Lemma parse_html_marker_fenced :
  let text := "---HTML---```html<p>x</p>```" in
  occurs HTML_MARK text ∧ ¬ occurs CSS_MARK text ∧
  parse_response text = Ok ("<p>x</p>", "") ∧
  parse_response text ≠ Ok ("", "").
Proof.
  intros text. repeat split.
  - apply contains_occurs. vm_compute. reflexivity.
  - apply not_contains_occurs. vm_compute. reflexivity.
  - vm_compute. discriminate.
Qed.

(** C8 (as amended): a response with [---HTML---] and no [---CSS---] is
    parsed by the fenced-block branch.  Html (css) is empty when the text
    has no [```html] ([```css]) fence, and is the trimmed body of the
    fenced block when the text has one such fence and the body is closed
    by the first [```] after it. *)
Theorem parse_html_marker_only (text : string) :
  occurs HTML_MARK text →
  ¬ occurs CSS_MARK text →
  ∃ html css,
    parse_response text = Ok (html, css) ∧
    (¬ occurs HTML_FENCE text → html = "") ∧
    (¬ occurs CSS_FENCE text → css = "") ∧
    (∀ a body tail,
       text = a +:+ HTML_FENCE +:+ body +:+ FENCE +:+ tail →
       count_occ HTML_FENCE text = 1%nat →
       count_occ FENCE (body +:+ FENCE) = 1%nat →
       html = strip body) ∧
    (∀ a body tail,
       text = a +:+ CSS_FENCE +:+ body +:+ FENCE +:+ tail →
       count_occ CSS_FENCE text = 1%nat →
       count_occ FENCE (body +:+ FENCE) = 1%nat →
       css = strip body).
Proof.
  intros _ Hc. apply not_contains_occurs in Hc.
  unfold parse_response. rewrite Hc, andb_false_r.
  unfold HTML_FENCE, CSS_FENCE.
  destruct (contains "```html" text) eqn:Eh;
    destruct (contains "```css" text) eqn:Ec.
  - destruct (split_two "`" "``html" text Eh) as (a & b & l & Hs).
    destruct (split_two "`" "``css" text Ec) as (a' & b' & l' & Hs').
    destruct (split_nonempty "`" "``" b) as (x & lx & Hx).
    destruct (split_nonempty "`" "``" b') as (y & ly & Hy).
    rewrite Hs, Hs'. parse_step. unfold FENCE. rewrite Hx, Hy. parse_step.
    exists (strip x), (strip y). split; [done |].
    apply contains_occurs in Eh, Ec. repeat split; try tauto.
    + intros a0 body tail E H1 H2. f_equal.
      exact (fence_extract _ _ _ _ _ _ _ _ Hs Hx _ _ _ E H1 H2).
    + intros a0 body tail E H1 H2. f_equal.
      exact (fence_extract _ _ _ _ _ _ _ _ Hs' Hy _ _ _ E H1 H2).
  - destruct (split_two "`" "``html" text Eh) as (a & b & l & Hs).
    destruct (split_nonempty "`" "``" b) as (x & lx & Hx).
    rewrite Hs. parse_step. unfold FENCE. rewrite Hx. parse_step.
    exists (strip x), "". split; [done |].
    apply contains_occurs in Eh. apply not_contains_occurs in Ec.
    repeat split; try tauto.
    + intros a0 body tail E H1 H2. f_equal.
      exact (fence_extract _ _ _ _ _ _ _ _ Hs Hx _ _ _ E H1 H2).
    + intros a0 body tail E H1 H2. exfalso. apply Ec.
      exists a0, (body +:+ FENCE +:+ tail). exact E.
  - destruct (split_two "`" "``css" text Ec) as (a' & b' & l' & Hs').
    destruct (split_nonempty "`" "``" b') as (y & ly & Hy).
    rewrite Hs'. parse_step. unfold FENCE. rewrite Hy. parse_step.
    exists "", (strip y). split; [done |].
    apply contains_occurs in Ec. apply not_contains_occurs in Eh.
    repeat split; try tauto.
    + intros a0 body tail E H1 H2. exfalso. apply Eh.
      exists a0, (body +:+ FENCE +:+ tail). exact E.
    + intros a0 body tail E H1 H2. f_equal.
      exact (fence_extract _ _ _ _ _ _ _ _ Hs' Hy _ _ _ E H1 H2).
  - exists "", "". split; [done |].
    apply not_contains_occurs in Eh, Ec.
    repeat split; try tauto.
    + intros a0 body tail E H1 H2. exfalso. apply Eh.
      exists a0, (body +:+ FENCE +:+ tail). exact E.
    + intros a0 body tail E H1 H2. exfalso. apply Ec.
      exists a0, (body +:+ FENCE +:+ tail). exact E.
Qed.

Lemma parse_html_marker_only_witness :
  ∃ html css,
    parse_response "---HTML---```html<p>x</p>```" = Ok (html, css) ∧
    html = "<p>x</p>" ∧ css = "".
Proof.
  destruct (parse_html_marker_only "---HTML---```html<p>x</p>```")
    as (html & css & Hp & _ & Hcss & Hhtml & _).
  - apply contains_occurs. vm_compute. reflexivity.
  - apply not_contains_occurs. vm_compute. reflexivity.
  - exists html, css. split; [exact Hp |]. split.
    + apply (Hhtml "---HTML---" "<p>x</p>" ""); vm_compute; reflexivity.
    + apply Hcss. apply not_contains_occurs. vm_compute. reflexivity.
Defined.

End ParserTheorems.

(** * The [:root] block *)

Section CssVariables.
Import PyStr Gemini.

Lemma truthy_optional (name : string) (o : option string) (l : list string) :
  (if truthy_str o
   then l ++ ["  --" +:+ name +:+ ": " +:+ str_of o +:+ ";"]
   else l)
  = l ++ Spec.optional_declaration name o.
Proof.
  unfold truthy_str, Spec.optional_declaration, Spec.declaration.
  destruct o as [v|]; simpl; [| by rewrite app_nil_r].
  destruct (String.eqb_spec v ""); destruct (decide (v = "")); simpl;
    try done; by rewrite app_nil_r.
Qed.

Lemma brand_to_css_variables_spec (brand : BrandData.t) :
  _brand_to_css_variables brand = join nl (Spec.declarations brand).
Proof.
  unfold _brand_to_css_variables, Spec.declarations.
  cbv zeta.
  rewrite (truthy_optional "color-secondary"), (truthy_optional "color-accent"),
    (truthy_optional "color-background"), (truthy_optional "color-text").
  f_equal. unfold Spec.declaration.
  destruct (BrandButtons.primary (BrandData.buttons brand));
    rewrite <- ?app_assoc; simpl; rewrite ?app_nil_r; reflexivity.
Qed.

(** C3: the css returned by [generate_replica] is the [:root {] line, the
    declarations one per line in the fixed order (primary colour; the
    optional colours that are set; heading font, body font, grid unit; the
    three primary-button properties when a primary button exists), the
    closing brace, a blank line, and the parsed css body. *)
Theorem generate_replica_css (brand : BrandData.t)
    (component customization text : string) :
  ∃ html body r,
    parse_response text = Ok (html, body) ∧
    generate_replica brand component customization text = Ok r ∧
    GeneratedCode.html r = html ∧
    GeneratedCode.css r
    = ":root {" +:+ nl +:+ join nl (Spec.declarations brand) +:+ nl
      +:+ "}" +:+ nl +:+ nl +:+ body.
Proof.
  destruct (parse_response_total text) as (html & body & Hp).
  exists html, body. unfold generate_replica. rewrite Hp.
  eexists. split; [done |]. split; [reflexivity |].
  cbn -[String.append join]. by rewrite brand_to_css_variables_spec.
Qed.

(** The end-to-end scenario of the specification. *)
Example generate_replica_example :
  GeneratedCode.css <$>
    (match generate_replica Samples.sample_brand "landing_page" ""
             "---HTML---<p>Hi</p>---CSS---p{margin:0}---END---" with
     | Ok r => Some r
     | Raise _ => None
     end)
  = Some (":root {" +:+ nl
          +:+ "  --color-primary: #FF5A5F;" +:+ nl
          +:+ "  --color-secondary: #00A699;" +:+ nl
          +:+ "  --color-accent: #FC642D;" +:+ nl
          +:+ "  --color-background: #FFFFFF;" +:+ nl
          +:+ "  --color-text: #484848;" +:+ nl
          +:+ "  --font-heading: Circular;" +:+ nl
          +:+ "  --font-body: Circular;" +:+ nl
          +:+ "  --spacing-grid: 8px;" +:+ nl
          +:+ "  --btn-primary-bg: #FF5A5F;" +:+ nl
          +:+ "  --btn-primary-text: #FFFFFF;" +:+ nl
          +:+ "  --btn-primary-radius: 8px;" +:+ nl
          +:+ "}" +:+ nl +:+ nl +:+ "p{margin:0}").
Proof. vm_compute. reflexivity. Qed.

End CssVariables.

(** * The colour scorer *)

Section Scorer.
Import PyStr Gemini.

Lemma int16_raises (s : string) (e : exn) : int16 s = Raise e → e = ValueError.
Proof.
  unfold int16. repeat case_match; congruence.
Qed.

Lemma hex_to_rgb_raises (c : string) (e : exn) :
  hex_to_rgb c = Raise e → e = ValueError.
Proof.
  unfold hex_to_rgb. set (h := lstrip (Ascii.eqb "#") c).
  destruct (int16 (slice 0 2 h)) eqn:E1; cbn -[slice];
    [| intros [= <-]; by apply int16_raises in E1].
  destruct (int16 (slice 2 4 h)) eqn:E2; cbn -[slice];
    [| intros [= <-]; by apply int16_raises in E2].
  destruct (int16 (slice 4 6 h)) eqn:E3; cbn -[slice];
    [done | intros [= <-]; by apply int16_raises in E3].
Qed.

(** The scorer returns on every pair of strings. *)
Lemma calculate_color_similarity_total (c1 c2 : string) :
  ∃ k, calculate_color_similarity c1 c2 = Ok k.
Proof.
  unfold calculate_color_similarity.
  destruct (hex_to_rgb c1) as [rgb1|e1] eqn:E1; cbn.
  - destruct (hex_to_rgb c2) as [rgb2|e2] eqn:E2; cbn; [eauto |].
    apply hex_to_rgb_raises in E2 as ->. cbn. eauto.
  - apply hex_to_rgb_raises in E1 as ->. cbn. eauto.
Qed.

Lemma hex_value_in (c : ascii) (v : Z) :
  Spec.hex_value c = Some v → In (c, v) Spec.hex_digits.
Proof.
  unfold Spec.hex_value.
  destruct (List.find _ Spec.hex_digits) as [[c' v']|] eqn:E; [| done].
  apply find_some in E as [Hin Heq]. simpl in Heq.
  apply Ascii.eqb_eq in Heq as ->. by intros [= <-].
Qed.

(** [int] reads two hexadecimal digits as the channel they denote. *)
Lemma int16_channel (hi lo : ascii) (v : Z) :
  Spec.channel hi lo = Some v →
  int16 (String hi (String lo "")) = Ok v ∧ 0 ≤ v ≤ 255.
Proof.
  unfold Spec.channel.
  destruct (Spec.hex_value hi) as [h|] eqn:Eh; [| done].
  destruct (Spec.hex_value lo) as [l|] eqn:El; [| done].
  cbn. intros [= <-].
  apply hex_value_in in Eh, El.
  assert (Hall : forallb
            (λ p, forallb
               (λ q, match int16 (String (fst p) (String (fst q) "")) with
                     | Ok v => (v =? 16 * snd p + snd q)
                               && (0 <=? v) && (v <=? 255)
                     | Raise _ => false
                     end) Spec.hex_digits) Spec.hex_digits = true)
    by (vm_compute; reflexivity).
  rewrite forallb_forall in Hall. specialize (Hall _ Eh).
  rewrite forallb_forall in Hall. specialize (Hall _ El). simpl in Hall.
  destruct (int16 _) as [v|]; [| done].
  apply andb_prop in Hall as [Hall H3]. apply andb_prop in Hall as [H1 H2].
  apply Z.eqb_eq in H1. apply Z.leb_le in H2, H3. split; [congruence | lia].
Qed.

Lemma hex_value_not_hash (v : Z) : Spec.hex_value "#" ≠ Some v.
Proof. vm_compute. done. Qed.

Lemma hex_to_rgb_digits (d : string) (rgb : Z * Z * Z) :
  Spec.rgb_of_digits d = Some rgb →
  lstrip (Ascii.eqb "#") d = d ∧
  int16 (slice 0 2 d) = Ok rgb.1.1 ∧
  int16 (slice 2 4 d) = Ok rgb.1.2 ∧
  int16 (slice 4 6 d) = Ok rgb.2 ∧
  0 ≤ rgb.1.1 ≤ 255 ∧ 0 ≤ rgb.1.2 ≤ 255 ∧ 0 ≤ rgb.2 ≤ 255.
Proof.
  unfold Spec.rgb_of_digits.
  destruct d as [|r1 [|r0 [|g1 [|g0 [|b1 [|b0 [|]]]]]]]; try done.
  destruct (Spec.channel r1 r0) as [r|] eqn:Er; [| done].
  destruct (Spec.channel g1 g0) as [g|] eqn:Eg; [| done].
  destruct (Spec.channel b1 b0) as [b|] eqn:Eb; [| done].
  intros H. cbn in H. injection H as <-. split.
  { set (s := String r0 _).
    change (lstrip (Ascii.eqb "#") (String r1 s))
      with (if Ascii.eqb "#" r1 then lstrip (Ascii.eqb "#") s else String r1 s).
    destruct (Ascii.eqb_spec "#" r1) as [<-|]; [| done].
    unfold Spec.channel in Er. destruct (Spec.hex_value "#") eqn:E; [| done].
    by apply hex_value_not_hash in E. }
  change (slice 0 2 _) with (String r1 (String r0 "")).
  change (slice 2 4 _) with (String g1 (String g0 "")).
  change (slice 4 6 _) with (String b1 (String b0 "")).
  apply int16_channel in Er as [-> ?], Eg as [-> ?], Eb as [-> ?].
  cbn. repeat split; lia.
Qed.

(** On a valid colour the code's parse is the RGB triple it denotes. *)
Lemma hex_to_rgb_valid (c : string) (rgb : Z * Z * Z) :
  Spec.rgb_of_color c = Some rgb →
  hex_to_rgb c = Ok rgb ∧
  0 ≤ rgb.1.1 ≤ 255 ∧ 0 ≤ rgb.1.2 ≤ 255 ∧ 0 ≤ rgb.2 ≤ 255.
Proof.
  intros H.
  assert (∃ d, Spec.rgb_of_digits d = Some rgb ∧
               lstrip (Ascii.eqb "#") c = lstrip (Ascii.eqb "#") d)
    as (d & Hd & Hl).
  { unfold Spec.rgb_of_color in H.
    destruct c as [|x c']; [by exists "" |].
    destruct (Ascii.eqb_spec "#" x) as [<-|Hx].
    - exists c'. split; [exact H |]. reflexivity.
    - exists (String x c'). split; [| done].
      destruct x as [[] [] [] [] [] [] [] []]; try exact H. by destruct Hx. }
  destruct (hex_to_rgb_digits d rgb Hd) as (E0 & E1 & E2 & E3 & B).
  unfold hex_to_rgb. rewrite Hl, E0, E1, E2, E3. cbn.
  by destruct rgb as [[r g] b].
Qed.

Lemma round3_similarity_bounds (d2 : Z) :
  0 ≤ d2 ≤ max_sq → 0 ≤ round3_similarity d2 ≤ 1000.
Proof.
  intros [H0 H1]. unfold round3_similarity, max_sq in *.
  change (255 ^ 2 * 3) with 195075 in *.
  assert (Hq : 0 ≤ 4000000 * d2 / 195075 ≤ 4000000).
  { split; [apply Z.div_pos; lia |]. apply Z.div_le_upper_bound; lia. }
  set (q := 4000000 * d2 / 195075) in *.
  pose proof (Z.sqrt_nonneg q) as Hs0.
  assert (Hs1 : Z.sqrt q ≤ 2000).
  { change 2000 with (Z.sqrt 4000000). apply Z.sqrt_le_mono. lia. }
  assert (0 ≤ (Z.sqrt q + 1) / 2 < 1001); [| lia].
  split; [apply Z.div_pos; lia |]. apply Z.div_lt_upper_bound; lia.
Qed.

(** The integer form of "nearest thousandth": with [j = 1000 - k],
    [(2j-1)^2 * max_sq < 4000000 * d2 < (2j+1)^2 * max_sq]. *)
Lemma round3_similarity_bracket (d2 : Z) :
  0 ≤ d2 →
  let j := 1000 - round3_similarity d2 in
  0 ≤ j ∧
  (0 < j → (2 * j - 1) ^ 2 * max_sq < 4000000 * d2) ∧
  4000000 * d2 < (2 * j + 1) ^ 2 * max_sq.
Proof.
  intros H0 j. unfold round3_similarity, max_sq in *.
  change (255 ^ 2 * 3) with 195075 in *.
  set (n := 4000000 * d2) in *.
  assert (Hn : 0 ≤ n) by (unfold n; lia).
  pose proof (Z.div_mod n 195075 ltac:(lia)) as Hdm.
  pose proof (Z.mod_pos_bound n 195075 ltac:(lia)) as Hmod.
  set (q := n / 195075) in *.
  assert (Hq : 0 ≤ q) by (apply Z.div_pos; lia).
  pose proof (Z.sqrt_spec q Hq) as Hs. cbv zeta in Hs.
  pose proof (Z.sqrt_nonneg q) as Hs0.
  set (s := Z.sqrt q) in *.
  pose proof (Z.div_mod (s + 1) 2 ltac:(lia)) as Hj.
  pose proof (Z.mod_pos_bound (s + 1) 2 ltac:(lia)) as Hjm.
  assert (Ej : j = (s + 1) / 2) by (unfold j; lia).
  rewrite <- Ej in Hj. clearbody j s q. clear Ej.
  assert (Hlo : 2 * j - 1 ≤ s) by lia.
  assert (Hhi : s + 1 ≤ 2 * j + 1) by lia.
  split; [lia |]. split.
  - intros Hpos.
    assert (H1 : (2 * j - 1) ^ 2 ≤ s ^ 2) by (apply Z.pow_le_mono_l; lia).
    assert (H2 : (2 * j - 1) ^ 2 * 195075 ≤ n) by nia.
    assert (H3 : (2 * j - 1) ^ 2 * 195075 ≠ n).
    { unfold n. replace ((2 * j - 1) ^ 2) with (4 * (j * j - j) + 1) by ring.
      lia. }
    lia.
  - assert (H1 : (s + 1) ^ 2 ≤ (2 * j + 1) ^ 2) by (apply Z.pow_le_mono_l; lia).
    nia.
Qed.

Lemma round3_similarity_rounds (d2 : Z) :
  0 ≤ d2 →
  Spec.rounds_to (1 - sqrt (IZR d2) / sqrt (IZR max_sq)) (round3_similarity d2).
Proof.
  intros H0.
  destruct (round3_similarity_bracket d2 H0) as (Hj0 & Hlo & Hhi).
  set (k := round3_similarity d2) in *.
  set (j := 1000 - k) in *.
  assert (Ek : k = 1000 - j) by (unfold j; lia). rewrite Ek. clearbody j k.
  clear Ek. unfold Spec.rounds_to, max_sq in *.
  change (255 ^ 2 * 3) with 195075 in *.
  rewrite minus_IZR.
  set (J := IZR j). set (X := IZR d2).
  assert (HX : (0 <= X)%R) by (apply IZR_le; exact H0).
  assert (HJ : (0 <= J)%R) by (apply IZR_le; exact Hj0).
  assert (Hhi' : (4000000 * X < (2 * J + 1) * (2 * J + 1) * 195075)%R).
  { rewrite Z.pow_2_r in Hhi. apply IZR_lt in Hhi.
    rewrite !mult_IZR, !plus_IZR, !mult_IZR in Hhi. exact Hhi. }
  rewrite <- sqrt_div_alt by lra.
  set (u := sqrt (X / 195075)).
  assert (Hu0 : (0 <= u)%R) by apply sqrt_pos.
  assert (Hup : (u < (2 * J + 1) / 2000)%R).
  { rewrite <- (sqrt_square ((2 * J + 1) / 2000)) by lra.
    apply sqrt_lt_1_alt. split; [lra |]. nra. }
  assert (Hdn : ((2 * J - 1) / 2000 < u)%R).
  { destruct (Z.eq_dec j 0) as [->|Hne].
    - unfold J. lra.
    - assert (Hlo' : ((2 * J - 1) * (2 * J - 1) * 195075 < 4000000 * X)%R).
      { specialize (Hlo ltac:(lia)). rewrite Z.pow_2_r in Hlo.
        apply IZR_lt in Hlo.
        rewrite !mult_IZR, !minus_IZR, !mult_IZR in Hlo. exact Hlo. }
      assert (HJ1 : (1 <= J)%R) by (apply (IZR_le 1); lia).
      rewrite <- (sqrt_square ((2 * J - 1) / 2000)) by lra.
      apply sqrt_lt_1_alt. split; [nra | nra]. }
  apply Rabs_def1; lra.
Qed.

(** The exact similarity keeps a distance of more than [10^-13] from every
    point halfway between two thousandths: an evaluation whose error is
    below that rounds to the same thousandth. *)
Lemma similarity_margin (d2 j : Z) :
  0 ≤ d2 ≤ max_sq →
  (Rabs (1 - sqrt (IZR d2) / sqrt (IZR max_sq) - (2 * IZR j + 1) / 2000)
   > 1 / 10 ^ 13)%R.
Proof.
  intros [H0 H1]. unfold max_sq in *. change (255 ^ 2 * 3) with 195075 in *.
  rewrite <- sqrt_div_alt by lra.
  set (X := IZR d2). set (u := sqrt (X / 195075)).
  assert (HX0 : (0 <= X)%R) by (apply IZR_le; exact H0).
  assert (HX1 : (X <= 195075)%R) by (apply IZR_le; exact H1).
  assert (Hu0 : (0 <= u)%R) by apply sqrt_pos.
  assert (Huu : (u * u = X / 195075)%R) by (apply sqrt_sqrt; lra).
  assert (Hu1 : (u <= 1)%R) by nra.
  (* p = 1999 - 2j is odd; the difference is (p - 2000 u) / 2000 *)
  set (p := 1999 - 2 * j).
  assert (Ep : (1 - u - (2 * IZR j + 1) / 2000 = (IZR p - 2000 * u) / 2000)%R).
  { unfold p. rewrite minus_IZR, mult_IZR. lra. }
  rewrite Ep.
  assert (Hne : 195075 * (p * p) - 4000000 * d2 ≠ 0).
  { unfold p. replace ((1999 - 2 * j) * (1999 - 2 * j))
      with (4 * ((999 - j) * (1000 - j)) + 1) by ring. lia. }
  assert (Hint : (195075 * (IZR p * IZR p) - 4000000 * X <= -1
                  ∨ 1 <= 195075 * (IZR p * IZR p) - 4000000 * X)%R).
  { destruct (Z_lt_le_dec (195075 * (p * p) - 4000000 * d2) 0) as [Hlt|Hge].
    - left. assert (Hz : 195075 * (p * p) - 4000000 * d2 ≤ -1) by lia.
      apply IZR_le in Hz.
      rewrite minus_IZR, !mult_IZR in Hz. exact Hz.
    - right. assert (Hz : 1 ≤ 195075 * (p * p) - 4000000 * d2) by lia.
      apply IZR_le in Hz.
      rewrite minus_IZR, !mult_IZR in Hz. exact Hz. }
  set (P := IZR p) in *.
  destruct (Rle_or_lt P (-1)) as [Hneg|Hpos].
  { rewrite Rabs_left by lra. lra. }
  destruct (Rle_or_lt 4003 P) as [Hbig|Hsmall].
  { rewrite Rabs_right by lra. lra. }
  assert (HP1 : (1 <= P)%R).
  { apply lt_IZR in Hpos. apply (IZR_le 1). unfold p in *. lia. }
  set (D := (P - 2000 * u)%R).
  assert (HD : (D * (P + 2000 * u) = P * P - 4000000 * (X / 195075))%R).
  { unfold D. rewrite <- Huu. ring. }
  assert (HS : (0 <= P + 2000 * u <= 6003)%R) by lra.
  unfold Rabs. destruct (Rcase_abs (D / 2000)) as [Hd|Hd].
  - destruct Hint as [Hi|Hi]; nra.
  - destruct Hint as [Hi|Hi]; nra.
Qed.

Lemma rounds_to_unique (x : R) (k k' : Z) :
  Spec.rounds_to x k → Spec.rounds_to x k' → k = k'.
Proof.
  unfold Spec.rounds_to. intros H1 H2.
  apply Rabs_def2 in H1 as [H1a H1b]. apply Rabs_def2 in H2 as [H2a H2b].
  assert (Ha : (IZR k - IZR k' < 1)%R) by lra.
  assert (Hb : (IZR k' - IZR k < 1)%R) by lra.
  rewrite <- minus_IZR in Ha, Hb.
  apply lt_IZR in Ha, Hb. lia.
Qed.

Lemma channel_sq_bounds (x y : Z) :
  0 ≤ x ≤ 255 → 0 ≤ y ≤ 255 → 0 ≤ (x - y) ^ 2 ≤ 65025.
Proof.
  intros Hx Hy. rewrite Z.pow_2_r.
  assert (H : -255 ≤ x - y ≤ 255) by lia.
  generalize dependent (x - y). intros d Hd. nia.
Qed.

Lemma sq_distance_bounds (rgb1 rgb2 : Z * Z * Z) :
  0 ≤ rgb1.1.1 ≤ 255 → 0 ≤ rgb1.1.2 ≤ 255 → 0 ≤ rgb1.2 ≤ 255 →
  0 ≤ rgb2.1.1 ≤ 255 → 0 ≤ rgb2.1.2 ≤ 255 → 0 ≤ rgb2.2 ≤ 255 →
  0 ≤ sq_distance rgb1 rgb2 ≤ max_sq.
Proof.
  destruct rgb1 as [[r1 g1] b1], rgb2 as [[r2 g2] b2]. simpl.
  unfold max_sq. change (255 ^ 2 * 3) with 195075. intros Hr1 Hg1 Hb1 Hr2 Hg2 Hb2.
  pose proof (channel_sq_bounds r1 r2 Hr1 Hr2).
  pose proof (channel_sq_bounds g1 g2 Hg1 Hg2).
  pose proof (channel_sq_bounds b1 b2 Hb1 Hb2). lia.
Qed.

Lemma sq_distance_sym (rgb1 rgb2 : Z * Z * Z) :
  sq_distance rgb1 rgb2 = sq_distance rgb2 rgb1.
Proof.
  destruct rgb1 as [[r1 g1] b1], rgb2 as [[r2 g2] b2]. simpl. ring.
Qed.

Lemma sq_distance_diag (rgb : Z * Z * Z) : sq_distance rgb rgb = 0.
Proof. destruct rgb as [[r g] b]. simpl. ring. Qed.

Lemma similarity_parsed (c1 c2 : string) (rgb1 rgb2 : Z * Z * Z) :
  hex_to_rgb c1 = Ok rgb1 → hex_to_rgb c2 = Ok rgb2 →
  calculate_color_similarity c1 c2
  = Ok (round3_similarity (sq_distance rgb1 rgb2)).
Proof. intros H1 H2. unfold calculate_color_similarity. by rewrite H1, H2. Qed.

Lemma similarity_valid_range (c1 c2 : string) (rgb1 rgb2 : Z * Z * Z) :
  Spec.rgb_of_color c1 = Some rgb1 →
  Spec.rgb_of_color c2 = Some rgb2 →
  let k := round3_similarity (sq_distance rgb1 rgb2) in
  calculate_color_similarity c1 c2 = Ok k ∧ 0 ≤ k ≤ 1000 ∧
  Spec.rounds_to (Spec.similarity rgb1 rgb2) k.
Proof.
  intros H1 H2 k.
  destruct (hex_to_rgb_valid c1 rgb1 H1) as (P1 & B1 & B2 & B3).
  destruct (hex_to_rgb_valid c2 rgb2 H2) as (P2 & B4 & B5 & B6).
  pose proof (sq_distance_bounds rgb1 rgb2 B1 B2 B3 B4 B5 B6) as Hd.
  split; [by apply similarity_parsed |].
  split; [by apply round3_similarity_bounds |].
  unfold Spec.similarity, Spec.distance.
  destruct rgb1 as [[r1 g1] b1], rgb2 as [[r2 g2] b2].
  apply (round3_similarity_rounds (sq_distance (r1, g1, b1) (r2, g2, b2))).
  lia.
Qed.

(** C2: on two valid colours the scorer returns a value in [0, 1], which
    is [1 - distance / sqrt (255^2 * 3)] rounded to three decimal places,
    [distance] the Euclidean distance of the RGB triples the colours
    denote; a valid colour compared with itself scores 1.0; black against
    white scores 0.0. *)
Theorem calculate_color_similarity_valid (c1 c2 : string) :
  Spec.valid_color c1 → Spec.valid_color c2 →
  (∃ rgb1 rgb2 k,
     Spec.rgb_of_color c1 = Some rgb1 ∧
     Spec.rgb_of_color c2 = Some rgb2 ∧
     calculate_color_similarity c1 c2 = Ok k ∧
     0 ≤ k ≤ 1000 ∧
     Spec.rounds_to (Spec.similarity rgb1 rgb2) k) ∧
  calculate_color_similarity c1 c1 = Ok 1000 ∧
  calculate_color_similarity "#000000" "#FFFFFF" = Ok 0.
Proof.
  intros [rgb1 H1] [rgb2 H2].
  destruct (hex_to_rgb_valid c1 rgb1 H1) as (P1 & _).
  split; [| split].
  - exists rgb1, rgb2, (round3_similarity (sq_distance rgb1 rgb2)).
    split; [done |]. split; [done |].
    apply (similarity_valid_range c1 c2 rgb1 rgb2 H1 H2).
  - rewrite (similarity_parsed c1 c1 rgb1 rgb1 P1 P1), sq_distance_diag.
    reflexivity.
  - vm_compute. reflexivity.
Qed.

Lemma calculate_color_similarity_valid_witness :
  (∃ rgb1 rgb2 k,
     Spec.rgb_of_color "#FF0000" = Some rgb1 ∧
     Spec.rgb_of_color "ff1111" = Some rgb2 ∧
     calculate_color_similarity "#FF0000" "ff1111" = Ok k ∧
     0 ≤ k ≤ 1000 ∧
     Spec.rounds_to (Spec.similarity rgb1 rgb2) k) ∧
  calculate_color_similarity "#FF0000" "#FF0000" = Ok 1000 ∧
  calculate_color_similarity "#000000" "#FFFFFF" = Ok 0.
Proof.
  apply calculate_color_similarity_valid.
  - exists (255, 0, 0). vm_compute. reflexivity.
  - exists (255, 17, 17). vm_compute. reflexivity.
Defined.

(** The test of the repository: similar colours score above 0.9. *)
Example calculate_color_similarity_close :
  calculate_color_similarity "#FF0000" "#FF1111" = Ok 946.
Proof. vm_compute. reflexivity. Qed.



Lemma in_all_ascii (c : ascii) : In c Spec.all_ascii.
Proof.
  unfold Spec.all_ascii. apply in_map_iff. exists (nat_of_ascii c).
  split; [apply ascii_nat_embedding |].
  apply in_seq. pose proof (nat_ascii_bounded c). lia.
Qed.




Lemma length_take (n : nat) (s : string) : (String.length (take n s) ≤ n)%nat.
Proof.
  revert s; induction n as [|n IH]; intros s; [simpl; lia |].
  destruct s as [|c s]; simpl; [lia |]. specialize (IH s). lia.
Qed.








(** C10: the scorer is symmetric in its two arguments, on all strings. *)
Theorem calculate_color_similarity_sym (a b : string) :
  calculate_color_similarity a b = calculate_color_similarity b a.
Proof.
  unfold calculate_color_similarity.
  destruct (hex_to_rgb a) as [rgb1|e1] eqn:E1;
    destruct (hex_to_rgb b) as [rgb2|e2] eqn:E2; cbn;
    try (apply hex_to_rgb_raises in E1 as ->);
    try (apply hex_to_rgb_raises in E2 as ->); try reflexivity.
  by rewrite sq_distance_sym.
Qed.

End Scorer.

(** * The normaliser *)

(** From [m ≫= f = Ok b]: the value [x] of [m], with its equation [E],
    and the equation for [f x]. *)
Tactic Notation "bind_ok" hyp(H) "as" ident(x) ident(E) :=
  match type of H with
  | mbind _ ?r = Ok _ =>
      destruct r as [x|] eqn:E; cbn [mbind result_bind mret result_ret] in H;
      [| discriminate H]
  end.

Section NormalizerFacts.
Import Firecrawl.

Variable validate_int : json → option Z.
Hypothesis validate_int_JInt : ∀ z, validate_int (JInt z) = Some z.

Lemma get_absent (v sub w : json) (k1 k2 : string) (d : json) :
  get v k1 (JObj ∅) = Ok sub →
  get sub k2 d = Ok w →
  at_path v [k1; k2] = None →
  w = d.
Proof.
  destruct v as [| | | | | |m]; try done. simpl.
  destruct (m !! k1) as [v'|].
  - intros [= ->]. destruct sub as [| | | | | |m']; try done. simpl.
    destruct (m' !! k2); [done |]. by intros [= ->].
  - intros [= <-]. simpl. rewrite lookup_empty. by intros [= ->].
Qed.

Lemma get_present (v sub w x : json) (k1 k2 : string) (d : json) :
  get v k1 (JObj ∅) = Ok sub →
  get sub k2 d = Ok w →
  at_path v [k1; k2] = Some x →
  w = x.
Proof.
  destruct v as [| | | | | |m]; try done. simpl.
  destruct (m !! k1) as [v'|]; [| done].
  intros [= ->]. destruct sub as [| | | | | |m']; try done. simpl.
  destruct (m' !! k2); [| done]. by intros [= ->] [= ->].
Qed.

Lemma as_int_list_default :
  as_int_list validate_int (JArr [JInt 400; JInt 600; JInt 700])
  = Ok [400; 600; 700].
Proof. unfold as_int_list, as_int. simpl. by rewrite !validate_int_JInt. Qed.

(** What a successful run of [build_brand] went through. *)
Lemma build_brand_inv (extracted : json) (url : string) (shots : list json)
    (b : BrandData.t) :
  build_brand validate_int extracted url shots = Ok b →
  ∃ colors_data c_primary typo_data t_headings t_body t_weights
    buttons_data has_primary,
    get extracted "colors" (JObj ∅) = Ok colors_data ∧
    get colors_data "primary" (JStr "#000000") = Ok c_primary ∧
    as_str c_primary = Ok (BrandColors.primary (BrandData.colors b)) ∧
    get extracted "typography" (JObj ∅) = Ok typo_data ∧
    get typo_data "headings" (JStr "sans-serif") = Ok t_headings ∧
    as_str t_headings = Ok (BrandTypography.headings (BrandData.typography b)) ∧
    get typo_data "body" (JStr "sans-serif") = Ok t_body ∧
    as_str t_body = Ok (BrandTypography.body (BrandData.typography b)) ∧
    get typo_data "weights" (JArr [JInt 400; JInt 600; JInt 700]) = Ok t_weights ∧
    as_int_list validate_int t_weights
    = Ok (BrandTypography.weights (BrandData.typography b)) ∧
    BrandData.spacing b = BrandSpacing.default ∧
    get extracted "buttons" (JObj ∅) = Ok buttons_data ∧
    get buttons_data "primary" JNull = Ok has_primary ∧
    if truthy has_primary then
      ∃ b_bg b_text b_radius b_padding style,
        get has_primary "bg" (JStr (BrandColors.primary (BrandData.colors b)))
        = Ok b_bg ∧
        get has_primary "text" (JStr "#ffffff") = Ok b_text ∧
        get has_primary "border_radius" (JStr "4px") = Ok b_radius ∧
        get has_primary "padding" (JStr "12px 24px") = Ok b_padding ∧
        as_str b_bg = Ok (ButtonStyle.bg style) ∧
        as_str b_text = Ok (ButtonStyle.text style) ∧
        as_str b_radius = Ok (ButtonStyle.border_radius style) ∧
        as_str b_padding = Ok (ButtonStyle.padding style) ∧
        BrandButtons.primary (BrandData.buttons b) = Some style
    else BrandButtons.primary (BrandData.buttons b) = None.
Proof.
  intros H. unfold build_brand in H.
  bind_ok H as colors_data Ecd. bind_ok H as c_primary Ecp.
  bind_ok H as c_secondary Ecs. bind_ok H as c_accent Eca.
  bind_ok H as c_background Ecb. bind_ok H as c_text Ect.
  bind_ok H as c_palette Ecl. bind_ok H as colors Ecolors.
  bind_ok H as typo_data Etd. bind_ok H as t_headings Eth.
  bind_ok H as t_body Etb. bind_ok H as t_weights Etw.
  bind_ok H as typography Etypo.
  bind_ok H as buttons_data Ebd. bind_ok H as has_primary Ehp.
  bind_ok H as buttons Ebuttons.
  bind_ok H as j_logo Ejl. bind_ok H as j_favicon Ejf.
  bind_ok H as logo_url Elu. bind_ok H as favicon_url Efu.
  bind_ok H as shots' Eshots.
  injection H as <-. cbn.
  bind_ok Ecolors as primary Ep. bind_ok Ecolors as secondary Es.
  bind_ok Ecolors as accent Ea. bind_ok Ecolors as background Eb.
  bind_ok Ecolors as text Et. bind_ok Ecolors as palette Epl.
  injection Ecolors as <-. cbn in *.
  bind_ok Etypo as headings Eh. bind_ok Etypo as body Ebo.
  bind_ok Etypo as weights Ew. injection Etypo as <-. cbn.
  exists colors_data, c_primary, typo_data, t_headings, t_body, t_weights,
    buttons_data, has_primary.
  repeat (split; [done |]).
  destruct (truthy has_primary) eqn:Etr.
  - bind_ok Ebuttons as btn Ebtn. bind_ok Ebuttons as b_bg Ebg.
    bind_ok Ebuttons as b_text Ebt. bind_ok Ebuttons as b_radius Ebr.
    bind_ok Ebuttons as b_padding Ebp. bind_ok Ebuttons as style Est.
    injection Ebuttons as <-. cbn.
    bind_ok Est as bg Esbg. bind_ok Est as stext Estx.
    bind_ok Est as radius Esr. bind_ok Est as spadding Esp.
    injection Est as <-. cbn.
    assert (btn = has_primary) as ->.
    { destruct buttons_data as [| | | | | |m]; try done. simpl in *.
      destruct (m !! "primary"); [congruence |].
      injection Ehp as <-. done. }
    exists b_bg, b_text, b_radius, b_padding,
      (ButtonStyle.mk bg stext radius spadding None None). cbn.
    repeat (split; [done |]). done.
  - injection Ebuttons as <-. done.
Qed.

(** C5: normalisation applies the field defaults.  The example payload of
    the specification yields weights [400, 600, 700], grid ["8px"] and no
    primary button; and in every record built, a primary colour absent
    from the payload is ["#000000"], an absent heading or body font is
    ["sans-serif"], absent weights are [400, 600, 700], the grid is
    ["8px"]. *)
Theorem build_brand_defaults :
  (∃ b, build_brand validate_int example_payload "https://example.com" [] = Ok b ∧
        BrandTypography.weights (BrandData.typography b) = [400; 600; 700] ∧
        BrandSpacing.grid (BrandData.spacing b) = "8px" ∧
        BrandButtons.primary (BrandData.buttons b) = None) ∧
  (∀ extracted url shots b,
     build_brand validate_int extracted url shots = Ok b →
     (at_path extracted ["colors"; "primary"] = None →
      BrandColors.primary (BrandData.colors b) = "#000000") ∧
     (at_path extracted ["typography"; "headings"] = None →
      BrandTypography.headings (BrandData.typography b) = "sans-serif") ∧
     (at_path extracted ["typography"; "body"] = None →
      BrandTypography.body (BrandData.typography b) = "sans-serif") ∧
     (at_path extracted ["typography"; "weights"] = None →
      BrandTypography.weights (BrandData.typography b) = [400; 600; 700]) ∧
     BrandSpacing.grid (BrandData.spacing b) = "8px").
Proof.
  split.
  - eexists. split.
    + vm_compute. rewrite !validate_int_JInt. reflexivity.
    + vm_compute. done.
  - intros extracted url shots b H.
    destruct (build_brand_inv _ _ _ _ H)
      as (colors_data & c_primary & typo_data & t_headings & t_body & t_weights
          & buttons_data & has_primary & Ecd & Ecp & Ep & Etd & Eth & Eh & Etb
          & Ebo & Etw & Ew & Esp & _).
    repeat split.
    + intros Hn. rewrite (get_absent _ _ _ _ _ _ Ecd Ecp Hn) in Ep.
      by injection Ep.
    + intros Hn. rewrite (get_absent _ _ _ _ _ _ Etd Eth Hn) in Eh.
      by injection Eh.
    + intros Hn. rewrite (get_absent _ _ _ _ _ _ Etd Etb Hn) in Ebo.
      by injection Ebo.
    + intros Hn. rewrite (get_absent _ _ _ _ _ _ Etd Etw Hn) in Ew.
      rewrite as_int_list_default in Ew. by injection Ew.
    + by rewrite Esp.
Qed.

(** C6 (as amended): when the payload supplies a non-empty
    [buttons.primary] object, the record has a primary button style whose
    background defaults to the brand's primary colour, whose text colour
    defaults to ["#ffffff"], border radius to ["4px"] and padding to
    ["12px 24px"], each when its key is missing from the object. *)
Theorem build_brand_primary_button (extracted : json) (url : string)
    (shots : list json) (b : BrandData.t) (btn : gmap string json) :
  build_brand validate_int extracted url shots = Ok b →
  at_path extracted ["buttons"; "primary"] = Some (JObj btn) →
  btn ≠ ∅ →
  ∃ style,
    BrandButtons.primary (BrandData.buttons b) = Some style ∧
    (btn !! "bg" = None →
     ButtonStyle.bg style = BrandColors.primary (BrandData.colors b)) ∧
    (btn !! "text" = None → ButtonStyle.text style = "#ffffff") ∧
    (btn !! "border_radius" = None → ButtonStyle.border_radius style = "4px") ∧
    (btn !! "padding" = None → ButtonStyle.padding style = "12px 24px").
Proof.
  intros H Hp Hne.
  destruct (build_brand_inv _ _ _ _ H)
    as (colors_data & c_primary & typo_data & t_headings & t_body & t_weights
        & buttons_data & has_primary & _ & _ & _ & _ & _ & _ & _ & _ & _ & _
        & _ & Ebd & Ehp & Hb).
  rewrite (get_present _ _ _ _ _ _ _ Ebd Ehp Hp) in Hb.
  assert (Ht : truthy (JObj btn) = true).
  { simpl. apply negb_true_iff, bool_decide_eq_false.
    by rewrite dom_empty_iff_L. }
  rewrite Ht in Hb.
  destruct Hb as (b_bg & b_text & b_radius & b_padding & style
                  & Gbg & Gt & Gr & Gp & Sbg & St & Sr & Sp & Hs).
  exists style. split; [exact Hs |]. simpl in Gbg, Gt, Gr, Gp.
  repeat split; intros Hk; rewrite Hk in *.
  - injection Gbg as <-. by injection Sbg.
  - injection Gt as <-. by injection St.
  - injection Gr as <-. by injection Sr.
  - injection Gp as <-. by injection Sp.
Qed.

End NormalizerFacts.

Section NormalizerInstances.
Import Firecrawl.

Lemma build_brand_defaults_witness :
  (∃ b, build_brand int_only example_payload "https://example.com" [] = Ok b ∧
        BrandTypography.weights (BrandData.typography b) = [400; 600; 700] ∧
        BrandSpacing.grid (BrandData.spacing b) = "8px" ∧
        BrandButtons.primary (BrandData.buttons b) = None) ∧
  (∀ extracted url shots b,
     build_brand int_only extracted url shots = Ok b →
     (at_path extracted ["colors"; "primary"] = None →
      BrandColors.primary (BrandData.colors b) = "#000000") ∧
     (at_path extracted ["typography"; "headings"] = None →
      BrandTypography.headings (BrandData.typography b) = "sans-serif") ∧
     (at_path extracted ["typography"; "body"] = None →
      BrandTypography.body (BrandData.typography b) = "sans-serif") ∧
     (at_path extracted ["typography"; "weights"] = None →
      BrandTypography.weights (BrandData.typography b) = [400; 600; 700]) ∧
     BrandSpacing.grid (BrandData.spacing b) = "8px").
Proof.
  apply (build_brand_defaults int_only). intros z. reflexivity.
Defined.

(** A payload with no section at all: every default applies. *)
Example build_brand_empty_payload :
  build_brand int_only (JObj ∅) "https://example.com" []
  = Ok (BrandData.mk "https://example.com"
          (BrandColors.mk "#000000" None None None None [])
          (BrandTypography.mk "sans-serif" "sans-serif" [400; 600; 700]
             (Some "16px") (Some "1.5"))
          BrandSpacing.default BrandButtons.default None None []).
Proof. vm_compute. reflexivity. Qed.

(** C6, the claim as stated, fails: an empty [buttons.primary] object is
    an object with every key missing, and the record built from it has no
    primary button style at all. *)
Lemma build_brand_empty_primary_button :
  let payload := JObj {["buttons" := JObj {["primary" := JObj ∅]}]} in
  at_path payload ["buttons"; "primary"] = Some (JObj ∅) ∧
  ∃ b, build_brand int_only payload "https://example.com" [] = Ok b ∧
       BrandButtons.primary (BrandData.buttons b) = None.
Proof.
  split; [vm_compute; reflexivity |].
  eexists. split; [vm_compute; reflexivity | reflexivity].
Qed.

Lemma build_brand_primary_button_witness :
  ∃ style,
    BrandButtons.primary
      (BrandData.buttons
         (BrandData.mk "https://example.com"
            (BrandColors.mk "#000000" None None None None [])
            (BrandTypography.mk "sans-serif" "sans-serif" [400; 600; 700]
               (Some "16px") (Some "1.5"))
            BrandSpacing.default
            (BrandButtons.mk
               (Some (ButtonStyle.mk "#000000" "red" "4px" "12px 24px"
                        None None))
               None None)
            None None []))
    = Some style ∧
    (({["text" := JStr "red"]} : gmap string json) !! "bg" = None →
     ButtonStyle.bg style = "#000000") ∧
    (({["text" := JStr "red"]} : gmap string json) !! "text" = None →
     ButtonStyle.text style = "#ffffff") ∧
    (({["text" := JStr "red"]} : gmap string json) !! "border_radius" = None →
     ButtonStyle.border_radius style = "4px") ∧
    (({["text" := JStr "red"]} : gmap string json) !! "padding" = None →
     ButtonStyle.padding style = "12px 24px").
Proof.
  apply (build_brand_primary_button int_only
           (JObj {["buttons" := JObj {["primary" := JObj {["text" := JStr "red"]}]}]})
           "https://example.com" []).
  - vm_compute. reflexivity.
  - vm_compute. reflexivity.
  - intros E. apply (f_equal (λ m : gmap string json, m !! "text")) in E.
    vm_compute in E. discriminate E.
Defined.

End NormalizerInstances.

(** * The comparator *)

Section Comparator.
Import PyStr Tools.

(** The comparator returns when both primary colours are valid. *)
Lemma compare_brands_returns (a b : BrandData.t) :
  Spec.valid_color (BrandColors.primary (BrandData.colors a)) →
  Spec.valid_color (BrandColors.primary (BrandData.colors b)) →
  ∃ r, compare_brands a b = Ok r.
Proof.
  intros Ha Hb.
  destruct Ha as [rgb1 Ha], Hb as [rgb2 Hb].
  destruct (similarity_valid_range _ _ _ _ Ha Hb) as (Hk & Hr & _).
  unfold compare_brands. rewrite Hk. cbn [mbind result_bind].
  destruct Hr as [H0 H1].
  apply Z.leb_le in H0, H1. rewrite H0, H1. cbn. eauto.
Qed.

(** C4: the metrics of [compare_brands].  The fonts match when the heading
    fonts or the body fonts are equal up to case; the overlap lists,
    without repetition, the lower-cased names that are a font of both
    brands; the differences are, in this order and each only when the
    values differ, the primary colours (compared as they are), the heading
    fonts and the body fonts (compared up to case, reported as written);
    these are the metrics of the comparison returned. *)
Theorem compare_brands_metrics (a b : BrandData.t) :
  let pa := BrandColors.primary (BrandData.colors a) in
  let pb := BrandColors.primary (BrandData.colors b) in
  let ha := BrandTypography.headings (BrandData.typography a) in
  let hb := BrandTypography.headings (BrandData.typography b) in
  let ba := BrandTypography.body (BrandData.typography a) in
  let bb := BrandTypography.body (BrandData.typography b) in
  (typography_match a b = true
   ↔ lower ha = lower hb ∨ lower ba = lower bb) ∧
  (∀ x, x ∈ font_overlap a b
        ↔ (x = lower ha ∨ x = lower ba) ∧ (x = lower hb ∨ x = lower bb)) ∧
  NoDup (font_overlap a b) ∧
  differences a b
  = (if decide (pa = pb) then []
     else ["Primary color: " +:+ pa +:+ " vs " +:+ pb])
    ++ (if decide (lower ha = lower hb) then []
        else ["Heading font: " +:+ ha +:+ " vs " +:+ hb])
    ++ (if decide (lower ba = lower bb) then []
        else ["Body font: " +:+ ba +:+ " vs " +:+ bb]) ∧
  (∀ r, compare_brands a b = Ok r →
        let m := BrandComparison.comparison r in
        ComparisonMetrics.typography_match m = typography_match a b ∧
        ComparisonMetrics.font_overlap m = font_overlap a b ∧
        ComparisonMetrics.differences m = differences a b).
Proof.
  intros pa pb ha hb ba bb.
  split; [| split; [| split; [| split]]].
  - unfold typography_match. rewrite orb_true_iff, !String.eqb_eq. reflexivity.
  - intros x. unfold font_overlap. cbv zeta. rewrite elem_of_elements.
    fold ha hb ba bb. set_solver.
  - apply NoDup_elements.
  - unfold differences. fold pa pb ha hb ba bb.
    destruct (String.eqb_spec pa pb); destruct (decide (pa = pb)); try done;
      destruct (String.eqb_spec (lower ha) (lower hb));
      destruct (decide (lower ha = lower hb)); try done;
      destruct (String.eqb_spec (lower ba) (lower bb));
      destruct (decide (lower ba = lower bb)); try done.
  - intros r H. unfold compare_brands in H.
    destruct (Gemini.calculate_color_similarity _ _) as [k|];
      cbn [mbind result_bind] in H; [| discriminate H].
    destruct ((0 <=? k) && (k <=? 1000)); [| discriminate H].
    by injection H as <-.
Qed.

(** The example of the specification: ["Arial"] against ["arial"]. *)
Lemma compare_brands_metrics_witness :
  compare_brands Samples.site_a Samples.site_b = Ok Samples.comparison_ab ∧
  typography_match Samples.site_a Samples.site_b = true ∧
  "arial" ∈ font_overlap Samples.site_a Samples.site_b ∧
  differences Samples.site_a Samples.site_b = ["Body font: Helvetica vs Georgia"].
Proof.
  split; [vm_compute; reflexivity |].
  split; [reflexivity |]. split; [| reflexivity].
  apply (compare_brands_metrics Samples.site_a Samples.site_b).
  vm_compute. tauto.
Defined.

End Comparator.

(** * Further properties of the parser *)

Section ParserMore.
Import PyStr Gemini.

Lemma occurs_refl (s : string) : occurs s s.
Proof. exists "", "". simpl. by rewrite sapp_nil_r. Qed.

Lemma occurs_empty (s : string) : occurs "" s.
Proof. by exists "", s. Qed.

Lemma occurs_trans (x y z : string) : occurs x y → occurs y z → occurs x z.
Proof.
  intros (a & b & ->) (c & d & ->). exists (c +:+ a), (b +:+ d).
  by rewrite !sapp_assoc.
Qed.

Lemma lstrip_suffix (p : ascii → bool) (s : string) :
  ∃ a, s = a +:+ lstrip p s.
Proof.
  induction s as [|c s [a IH]]; [by exists "" |]. simpl.
  destruct (p c); [| by exists ""]. exists (String c a). simpl. by rewrite <- IH.
Qed.

Lemma rstrip_prefix (p : ascii → bool) (s : string) :
  ∃ b, s = rstrip p s +:+ b.
Proof.
  induction s as [|c s [b IH]]; [by exists "" |]. simpl.
  destruct (rstrip p s) as [|d r] eqn:E.
  - destruct (p c); [by exists (String c s) |]. exists s. done.
  - exists b. simpl in IH |- *. by f_equal.
Qed.

Lemma strip_occurs (s : string) : occurs (strip s) s.
Proof.
  unfold strip. destruct (lstrip_suffix isspace s) as [a Ha].
  destruct (rstrip_prefix isspace (lstrip isspace s)) as [b Hb].
  exists a, b. by rewrite <- Hb.
Qed.

Lemma lstrip_head (p : ascii → bool) (s : string) :
  match lstrip p s with
  | EmptyString => True
  | String c _ => p c = false
  end.
Proof.
  induction s as [|c s IH]; [done |]. simpl.
  destruct (p c) eqn:E; [exact IH | exact E].
Qed.

Lemma rstrip_head (p : ascii → bool) (s : string) :
  match s with
  | EmptyString => True
  | String c _ => p c = false
  end →
  match rstrip p s with
  | EmptyString => s = ""
  | String c _ => p c = false
  end.
Proof.
  destruct s as [|c s]; [done |]. simpl. intros Hc.
  destruct (rstrip p s); rewrite ?Hc; done.
Qed.

Lemma lstrip_fixed (p : ascii → bool) (s : string) :
  match s with
  | EmptyString => True
  | String c _ => p c = false
  end →
  lstrip p s = s.
Proof. destruct s as [|c s]; [done |]. simpl. by intros ->. Qed.

Lemma rstrip_idem (p : ascii → bool) (s : string) :
  rstrip p (rstrip p s) = rstrip p s.
Proof.
  induction s as [|c s IH]; [done |]. simpl.
  destruct (rstrip p s) as [|d r] eqn:E.
  - destruct (p c) eqn:Ec; [done |]. simpl. by rewrite Ec.
  - change (rstrip p (String c (String d r)))
      with (match rstrip p (String d r) with
            | EmptyString => if p c then EmptyString else String c EmptyString
            | String x y => String c (String x y)
            end).
    by rewrite IH.
Qed.

Lemma strip_idem (s : string) : strip (strip s) = strip s.
Proof.
  unfold strip.
  pose proof (lstrip_head isspace s) as H1.
  pose proof (rstrip_head isspace (lstrip isspace s) H1) as H2.
  rewrite (lstrip_fixed isspace (rstrip isspace (lstrip isspace s))).
  - apply rstrip_idem.
  - destruct (rstrip isspace (lstrip isspace s)); done.
Qed.

Lemma split_first_occurs (c : ascii) (sep' s x : string) (l : list string) :
  split (String c sep') s = x :: l → occurs x s.
Proof.
  rewrite split_unfold.
  destruct (find_split _ s) as [[a b]|] eqn:E.
  - intros [= <- _]. apply find_split_Some in E. by exists "", (String c sep' +:+ b).
  - intros [= <- _]. apply occurs_refl.
Qed.

Lemma split_second_occurs (c : ascii) (sep' s x y : string) (l : list string) :
  split (String c sep') s = x :: y :: l → occurs y s.
Proof.
  rewrite split_unfold.
  destruct (find_split _ s) as [[a b]|] eqn:E; [| done].
  intros [= <- H]. apply split_first_occurs in H.
  apply find_split_Some in E. apply (occurs_trans _ b); [done |].
  exists (a +:+ String c sep'), "". by rewrite sapp_nil_r, sapp_assoc.
Qed.

(** The two results are trimmed pieces of the response. *)
Lemma parse_response_pieces (text : string) :
  ∃ x y, parse_response text = Ok (strip x, strip y) ∧
         occurs x text ∧ occurs y text.
Proof.
  unfold parse_response.
  unfold HTML_MARK, CSS_MARK, END_MARK, HTML_FENCE, CSS_FENCE, FENCE.
  destruct (contains "---HTML---" text && contains "---CSS---" text) eqn:Hm.
  - apply andb_prop in Hm as [Hh Hc]. rewrite Hc.
    destruct (split_two "-" "--HTML---" text Hh) as (a & b & l & Hs).
    destruct (split_two "-" "--CSS---" text Hc) as (a' & b' & l' & Hs').
    rewrite Hs, Hs'. parse_step.
    destruct (split_nonempty "-" "--CSS---" b) as (x & lx & Hx).
    destruct (split_nonempty "-" "--END---" b') as (y & ly & Hy).
    rewrite Hx, Hy. parse_step. exists x, y. split; [done |].
    apply split_second_occurs in Hs, Hs'.
    apply split_first_occurs in Hx, Hy. split; by eapply occurs_trans.
  - destruct (contains "```html" text) eqn:Hh;
      destruct (contains "```css" text) eqn:Hc.
    + destruct (split_two "`" "``html" text Hh) as (a & b & l & Hs).
      destruct (split_two "`" "``css" text Hc) as (a' & b' & l' & Hs').
      rewrite Hs, Hs'. parse_step.
      destruct (split_nonempty "`" "``" b) as (x & lx & Hx).
      destruct (split_nonempty "`" "``" b') as (y & ly & Hy).
      rewrite Hx, Hy. parse_step. exists x, y. split; [done |].
      apply split_second_occurs in Hs, Hs'.
      apply split_first_occurs in Hx, Hy. split; by eapply occurs_trans.
    + destruct (split_two "`" "``html" text Hh) as (a & b & l & Hs).
      rewrite Hs. parse_step.
      destruct (split_nonempty "`" "``" b) as (x & lx & Hx).
      rewrite Hx. parse_step. exists x, "". split; [done |].
      apply split_second_occurs in Hs. apply split_first_occurs in Hx.
      split; [by eapply occurs_trans | apply occurs_empty].
    + destruct (split_two "`" "``css" text Hc) as (a' & b' & l' & Hs').
      rewrite Hs'. parse_step.
      destruct (split_nonempty "`" "``" b') as (y & ly & Hy).
      rewrite Hy. parse_step. exists "", y. split; [done |].
      apply split_second_occurs in Hs'. apply split_first_occurs in Hy.
      split; [apply occurs_empty | by eapply occurs_trans].
    + parse_step. exists "", "". split; [done |]. split; apply occurs_empty.
Qed.

(** X1: [generate_replica] returns on every response of the model,
    whatever the brand: the indices [[1]] and [[0]] taken by the parser are
    always in range.  The record echoes the component type, its html is
    the parsed html, and its css is the [:root] block of the brand's
    variables followed by the parsed css. *)
Theorem generate_replica_returns (brand : BrandData.t)
    (component customization text : string) :
  ∃ r html css,
    generate_replica brand component customization text = Ok r ∧
    parse_response text = Ok (html, css) ∧
    GeneratedCode.html r = html ∧
    GeneratedCode.css r
    = ":root {" +:+ nl +:+ _brand_to_css_variables brand +:+ nl +:+ "}"
      +:+ nl +:+ nl +:+ css ∧
    GeneratedCode.component_type r = Some component.
Proof.
  destruct (parse_response_pieces text) as (x & y & Hp & _).
  unfold generate_replica. rewrite Hp. cbn [mbind result_bind].
  eexists _, (strip x), (strip y).
  split; [reflexivity |]. split; [reflexivity |].
  split; [reflexivity |]. split; reflexivity.
Qed.

(** X2: the html and the css the parser returns are trimmed: stripping
    them again changes nothing. *)
Theorem parse_response_trimmed (text html css : string) :
  parse_response text = Ok (html, css) →
  strip html = html ∧ strip css = css.
Proof.
  destruct (parse_response_pieces text) as (x & y & Hp & _).
  rewrite Hp. intros [= <- <-]. split; apply strip_idem.
Qed.

Lemma parse_response_trimmed_witness :
  strip "<p>Hi</p>" = "<p>Hi</p>" ∧ strip "p{}" = "p{}".
Proof.
  apply (parse_response_trimmed "---HTML--- <p>Hi</p> ---CSS--- p{} ---END---").
  vm_compute. reflexivity.
Defined.

(** X3: the parser invents nothing: the html and the css it returns are
    contiguous pieces of the response. *)
Theorem parse_response_substrings (text html css : string) :
  parse_response text = Ok (html, css) →
  occurs html text ∧ occurs css text.
Proof.
  destruct (parse_response_pieces text) as (x & y & Hp & Hx & Hy).
  rewrite Hp. intros [= <- <-].
  split; (eapply occurs_trans; [apply strip_occurs | done]).
Qed.

Lemma parse_response_substrings_witness :
  occurs "<p>Hi</p>" "```html <p>Hi</p> ``` and ```css p{} ```" ∧
  occurs "p{}" "```html <p>Hi</p> ``` and ```css p{} ```".
Proof.
  apply parse_response_substrings. vm_compute. reflexivity.
Defined.

(** X4: with the two markers in the wrong order, [---CSS---] before
    [---HTML---] and each once, the html is everything after [---HTML---]
    and the css runs from [---CSS---] over the html marker and the html,
    up to the first [---END---] or to the end of the text. *)
Theorem parse_markers_reversed (pre mid rest : string) :
  let text := pre +:+ CSS_MARK +:+ mid +:+ HTML_MARK +:+ rest in
  count_occ HTML_MARK text = 1%nat →
  count_occ CSS_MARK text = 1%nat →
  ∃ css,
    parse_response text = Ok (strip rest, css) ∧
    (¬ occurs END_MARK (mid +:+ HTML_MARK +:+ rest) →
     css = strip (mid +:+ HTML_MARK +:+ rest)) ∧
    (∀ c post,
       mid +:+ HTML_MARK +:+ rest = c +:+ END_MARK +:+ post →
       count_occ END_MARK (c +:+ END_MARK) = 1%nat →
       css = strip c).
Proof.
  intros text Hh Hc. unfold HTML_MARK, CSS_MARK, END_MARK in *.
  assert (Ht : text = (pre +:+ "---CSS---" +:+ mid) +:+ "---HTML---" +:+ rest).
  { unfold text. by rewrite !sapp_assoc. }
  assert (Hc0 : count_occ "---CSS---" rest = 0%nat).
  { pose proof (count_occ_after "-" "--CSS---" pre
                  (mid +:+ "---HTML---" +:+ rest)) as H1. cbv zeta in H1.
    pose proof (count_occ_suffix "---CSS---" (mid +:+ "---HTML---") rest) as H2.
    rewrite sapp_assoc in H2. fold text in H1. lia. }
  unfold parse_response, HTML_MARK, CSS_MARK, END_MARK.
  assert (contains "---HTML---" text = true) as ->.
  { apply contains_occurs. exists (pre +:+ "---CSS---" +:+ mid), rest.
    exact Ht. }
  assert (contains "---CSS---" text = true) as ->.
  { apply contains_occurs.
    by exists pre, (mid +:+ "---HTML---" +:+ rest). }
  rewrite (split_once "-" "--CSS---" _ _ Hc : split "---CSS---" text = _).
  rewrite Ht in Hh |- *.
  rewrite (split_once "-" "--HTML---" _ _ Hh).
  parse_step.
  rewrite (split_absent "-" "--CSS---" rest Hc0). parse_step.
  destruct (split_nonempty "-" "--END---" (mid +:+ "---HTML---" +:+ rest))
    as (body & l & Hb).
  rewrite Hb. parse_step. exists (strip body). split; [done |]. split.
  - intros Hn. apply count_occ_zero_occurs in Hn.
    pose proof (split_absent "-" "--END---" _ Hn) as Hr.
    assert (E : body :: l = [mid +:+ "---HTML---" +:+ rest])
      by (etrans; [symmetry; exact Hb | exact Hr]).
    by injection E as -> _.
  - intros c post E1 H1.
    destruct (split_head_first "-" "--END---" c post H1) as [l' Hl].
    rewrite <- E1 in Hl.
    assert (E : body :: l = c :: l')
      by (etrans; [symmetry; exact Hb | exact Hl]).
    by injection E as -> _.
Qed.

Lemma parse_markers_reversed_witness :
  ∃ css,
    parse_response ("" +:+ CSS_MARK +:+ "p{}" +:+ HTML_MARK +:+ "<p>Hi</p>")
    = Ok (strip "<p>Hi</p>", css) ∧
    (¬ occurs END_MARK ("p{}" +:+ HTML_MARK +:+ "<p>Hi</p>") →
     css = strip ("p{}" +:+ HTML_MARK +:+ "<p>Hi</p>")) ∧
    (∀ c post,
       "p{}" +:+ HTML_MARK +:+ "<p>Hi</p>" = c +:+ END_MARK +:+ post →
       count_occ END_MARK (c +:+ END_MARK) = 1%nat →
       css = strip c).
Proof.
  apply (parse_markers_reversed "" "p{}" "<p>Hi</p>"); vm_compute; reflexivity.
Defined.

(** The fenced-block branch, taken when the two markers are not both
    present. *)
Lemma parse_fallback (text : string) :
  ¬ (occurs HTML_MARK text ∧ occurs CSS_MARK text) →
  ∃ html css,
    parse_response text = Ok (html, css) ∧
    (if contains HTML_FENCE text
     then ∃ a b l x lx, split HTML_FENCE text = a :: b :: l ∧
                        split FENCE b = x :: lx ∧ html = strip x
     else html = "") ∧
    (if contains CSS_FENCE text
     then ∃ a b l x lx, split CSS_FENCE text = a :: b :: l ∧
                        split FENCE b = x :: lx ∧ css = strip x
     else css = "").
Proof.
  intros Hm. unfold parse_response.
  assert (contains HTML_MARK text && contains CSS_MARK text = false) as ->.
  { destruct (contains HTML_MARK text) eqn:E1;
      destruct (contains CSS_MARK text) eqn:E2; try done.
    apply contains_occurs in E1, E2. tauto. }
  unfold HTML_FENCE, CSS_FENCE, FENCE.
  destruct (contains "```html" text) eqn:Eh;
    destruct (contains "```css" text) eqn:Ec.
  - destruct (split_two "`" "``html" text Eh) as (a & b & l & Hs).
    destruct (split_two "`" "``css" text Ec) as (a' & b' & l' & Hs').
    destruct (split_nonempty "`" "``" b) as (x & lx & Hx).
    destruct (split_nonempty "`" "``" b') as (y & ly & Hy).
    rewrite Hs, Hs'. parse_step. rewrite Hx, Hy. parse_step.
    exists (strip x), (strip y). split; [done |]. split.
    + by exists a, b, l, x, lx.
    + by exists a', b', l', y, ly.
  - destruct (split_two "`" "``html" text Eh) as (a & b & l & Hs).
    destruct (split_nonempty "`" "``" b) as (x & lx & Hx).
    rewrite Hs. parse_step. rewrite Hx. parse_step.
    exists (strip x), "". split; [done |]. split; [| done].
    by exists a, b, l, x, lx.
  - destruct (split_two "`" "``css" text Ec) as (a' & b' & l' & Hs').
    destruct (split_nonempty "`" "``" b') as (y & ly & Hy).
    rewrite Hs'. parse_step. rewrite Hy. parse_step.
    exists "", (strip y). split; [done |]. split; [done |].
    by exists a', b', l', y, ly.
  - by exists "", "".
Qed.

(** X5: a fence that is never closed.  When the two markers are not both
    present and the only [```html] fence of the text has no [```] after
    it, the html is everything after the fence, trimmed. *)
Theorem parse_unterminated_fence (a body : string) :
  let text := a +:+ HTML_FENCE +:+ body in
  ¬ (occurs HTML_MARK text ∧ occurs CSS_MARK text) →
  count_occ HTML_FENCE text = 1%nat →
  ¬ occurs FENCE body →
  ∃ css, parse_response text = Ok (strip body, css).
Proof.
  intros text Hm H1 Hn.
  destruct (parse_fallback text Hm) as (html & css & Hp & Hh & _).
  assert (contains HTML_FENCE text = true) as E.
  { apply contains_occurs. by exists a, body. }
  rewrite E in Hh. destruct Hh as (a1 & b1 & l & x & lx & Hs & Hx & ->).
  exists css. rewrite Hp. do 2 f_equal.
  unfold HTML_FENCE, FENCE in *.
  rewrite (split_once "`" "``html" _ _ H1 : split "```html" text = _) in Hs.
  injection Hs as <- <- <-.
  apply count_occ_zero_occurs in Hn.
  rewrite (split_absent "`" "``" body Hn) in Hx. by injection Hx as <- <-.
Qed.

Lemma parse_unterminated_fence_witness :
  ∃ css, parse_response ("Here it is: " +:+ HTML_FENCE +:+ " <p>Hi</p>")
         = Ok (strip " <p>Hi</p>", css).
Proof.
  apply (parse_unterminated_fence "Here it is: " " <p>Hi</p>").
  - intros [H _]. apply contains_occurs in H. vm_compute in H. discriminate H.
  - vm_compute. reflexivity.
  - apply not_contains_occurs. vm_compute. reflexivity.
Defined.

(** X6: the fenced-block convention.  When the two markers are not both
    present and the text holds one [```html] block and one [```css]
    block, each closed by the first [```] after its opening fence, the
    html and the css are the trimmed contents of the two blocks. *)
Theorem parse_fenced_blocks (a A m B z : string) :
  let text := a +:+ HTML_FENCE +:+ A +:+ FENCE +:+ m
              +:+ CSS_FENCE +:+ B +:+ FENCE +:+ z in
  ¬ (occurs HTML_MARK text ∧ occurs CSS_MARK text) →
  count_occ HTML_FENCE text = 1%nat →
  count_occ CSS_FENCE text = 1%nat →
  count_occ FENCE (A +:+ FENCE) = 1%nat →
  count_occ FENCE (B +:+ FENCE) = 1%nat →
  parse_response text = Ok (strip A, strip B).
Proof.
  intros text Hm H1 H2 HA HB.
  destruct (parse_fallback text Hm) as (html & css & Hp & Hh & Hc).
  assert (contains HTML_FENCE text = true) as Eh.
  { apply contains_occurs.
    by exists a, (A +:+ FENCE +:+ m +:+ CSS_FENCE +:+ B +:+ FENCE +:+ z). }
  assert (Et : text = (a +:+ HTML_FENCE +:+ A +:+ FENCE +:+ m)
                      +:+ CSS_FENCE +:+ B +:+ FENCE +:+ z).
  { unfold text. by rewrite !sapp_assoc. }
  assert (contains CSS_FENCE text = true) as Ec.
  { apply contains_occurs.
    by exists (a +:+ HTML_FENCE +:+ A +:+ FENCE +:+ m), (B +:+ FENCE +:+ z). }
  rewrite Eh in Hh. rewrite Ec in Hc.
  destruct Hh as (a1 & b1 & l1 & x & lx & Hs & Hx & ->).
  destruct Hc as (a2 & b2 & l2 & y & ly & Hs' & Hy & ->).
  rewrite Hp. do 2 f_equal.
  - f_equal.
    exact (fence_extract "`" "``html" text a1 b1 x l1 lx Hs Hx
             a A (m +:+ CSS_FENCE +:+ B +:+ FENCE +:+ z) eq_refl H1 HA).
  - f_equal.
    exact (fence_extract "`" "``css" text a2 b2 y l2 ly Hs' Hy
             (a +:+ HTML_FENCE +:+ A +:+ FENCE +:+ m) B z Et H2 HB).
Qed.

Lemma parse_fenced_blocks_witness :
  parse_response
    ("Sure. " +:+ HTML_FENCE +:+ " <p>Hi</p> " +:+ FENCE +:+ " and "
     +:+ CSS_FENCE +:+ " p{} " +:+ FENCE +:+ " Done.")
  = Ok (strip " <p>Hi</p> ", strip " p{} ").
Proof.
  apply (parse_fenced_blocks "Sure. " " <p>Hi</p> " " and " " p{} " " Done.").
  - intros [H _]. apply contains_occurs in H. vm_compute in H. discriminate H.
  - vm_compute. reflexivity.
  - vm_compute. reflexivity.
  - vm_compute. reflexivity.
  - vm_compute. reflexivity.
Defined.

End ParserMore.

(** * Further properties of the colour scorer *)

Section ScorerMore.
Import PyStr Gemini.

Lemma round3_similarity_antitone (d d' : Z) :
  0 ≤ d ≤ d' → round3_similarity d' ≤ round3_similarity d.
Proof.
  intros [H0 H1]. unfold round3_similarity, max_sq.
  change (255 ^ 2 * 3) with 195075.
  assert (Hq : 4000000 * d / 195075 ≤ 4000000 * d' / 195075)
    by (apply Z.div_le_mono; lia).
  apply Z.sqrt_le_mono in Hq.
  assert ((Z.sqrt (4000000 * d / 195075) + 1) / 2
          ≤ (Z.sqrt (4000000 * d' / 195075) + 1) / 2)
    by (apply Z.div_le_mono; lia).
  lia.
Qed.

Lemma sq_distance_nonneg (rgb1 rgb2 : Z * Z * Z) : 0 ≤ sq_distance rgb1 rgb2.
Proof.
  destruct rgb1 as [[r1 g1] b1], rgb2 as [[r2 g2] b2]. simpl.
  rewrite !Z.pow_2_r.
  pose proof (Z.square_nonneg (r1 - r2)).
  pose proof (Z.square_nonneg (g1 - g2)).
  pose proof (Z.square_nonneg (b1 - b2)). lia.
Qed.

Lemma sq_distance_zero (rgb1 rgb2 : Z * Z * Z) :
  sq_distance rgb1 rgb2 = 0 → rgb1 = rgb2.
Proof.
  destruct rgb1 as [[r1 g1] b1], rgb2 as [[r2 g2] b2]. simpl.
  rewrite !Z.pow_2_r. intros H.
  pose proof (Z.square_nonneg (r1 - r2)).
  pose proof (Z.square_nonneg (g1 - g2)).
  pose proof (Z.square_nonneg (b1 - b2)).
  assert (Hr : (r1 - r2) * (r1 - r2) = 0) by lia.
  assert (Hg : (g1 - g2) * (g1 - g2) = 0) by lia.
  assert (Hb : (b1 - b2) * (b1 - b2) = 0) by lia.
  apply Z.eq_mul_0 in Hr, Hg, Hb.
  repeat f_equal; lia.
Qed.

(** What [int] returns on at most two characters lies between -15 and
    255. *)
Lemma int16_range (s : string) (v : Z) :
  (String.length s ≤ 2)%nat → int16 s = Ok v → -15 ≤ v ≤ 255.
Proof.
  assert (Hall : forallb
            (λ a, match int16 (String a "") with
                  | Ok v => (-15 <=? v) && (v <=? 255)
                  | Raise _ => true
                  end
                  && forallb
                       (λ b, match int16 (String a (String b "")) with
                             | Ok v => (-15 <=? v) && (v <=? 255)
                             | Raise _ => true
                             end) Spec.all_ascii) Spec.all_ascii = true)
    by (vm_compute; reflexivity).
  rewrite forallb_forall in Hall.
  destruct s as [|a [|b [|c s]]]; simpl; intros Hl Hv; try lia.
  - vm_compute in Hv. discriminate Hv.
  - specialize (Hall a (in_all_ascii a)). apply andb_prop in Hall as [H1 _].
    rewrite Hv in H1. lia.
  - specialize (Hall a (in_all_ascii a)). apply andb_prop in Hall as [_ H2].
    rewrite forallb_forall in H2. specialize (H2 b (in_all_ascii b)).
    rewrite Hv in H2. lia.
Qed.

Lemma slice_length (k : nat) (h : string) :
  (String.length (slice k (k + 2) h) ≤ 2)%nat.
Proof.
  unfold slice. replace (k + 2 - k)%nat with 2%nat by lia. apply length_take.
Qed.

Lemma hex_to_rgb_range (c : string) (rgb : Z * Z * Z) :
  hex_to_rgb c = Ok rgb →
  -15 ≤ rgb.1.1 ≤ 255 ∧ -15 ≤ rgb.1.2 ≤ 255 ∧ -15 ≤ rgb.2 ≤ 255.
Proof.
  unfold hex_to_rgb. set (h := lstrip (Ascii.eqb "#") c).
  destruct (int16 (slice 0 2 h)) as [r|] eqn:E0; cbn -[slice]; [| done].
  destruct (int16 (slice 2 4 h)) as [g|] eqn:E2; cbn -[slice]; [| done].
  destruct (int16 (slice 4 6 h)) as [b|] eqn:E4; cbn -[slice]; [| done].
  intros [= <-]. cbn.
  apply int16_range in E0; [| apply (slice_length 0)].
  apply int16_range in E2; [| apply (slice_length 2)].
  apply int16_range in E4; [| apply (slice_length 4)]. done.
Qed.

Lemma sq_distance_wide (rgb1 rgb2 : Z * Z * Z) :
  -15 ≤ rgb1.1.1 ≤ 255 → -15 ≤ rgb1.1.2 ≤ 255 → -15 ≤ rgb1.2 ≤ 255 →
  -15 ≤ rgb2.1.1 ≤ 255 → -15 ≤ rgb2.1.2 ≤ 255 → -15 ≤ rgb2.2 ≤ 255 →
  sq_distance rgb1 rgb2 ≤ 218700.
Proof.
  destruct rgb1 as [[r1 g1] b1], rgb2 as [[r2 g2] b2]. simpl.
  intros Hr1 Hg1 Hb1 Hr2 Hg2 Hb2. rewrite !Z.pow_2_r.
  assert (Hsq : ∀ d, -270 ≤ d ≤ 270 → d * d ≤ 72900) by (intros d Hd; nia).
  pose proof (Hsq (r1 - r2) ltac:(lia)).
  pose proof (Hsq (g1 - g2) ltac:(lia)).
  pose proof (Hsq (b1 - b2) ltac:(lia)). lia.
Qed.

(** X7: on every pair of strings the score lies between -0.059 and 1.0.
    The lower bound is met: a channel written with a sign can be negative,
    which puts two colours further apart than black and white. *)
Theorem calculate_color_similarity_range :
  (∀ c1 c2, ∃ k, calculate_color_similarity c1 c2 = Ok k ∧ -59 ≤ k ≤ 1000) ∧
  calculate_color_similarity "-f-f-f" "ffffff" = Ok (-59).
Proof.
  split; [| vm_compute; reflexivity].
  intros c1 c2.
  destruct (hex_to_rgb c1) as [rgb1|e1] eqn:E1.
  - destruct (hex_to_rgb c2) as [rgb2|e2] eqn:E2.
    + exists (round3_similarity (sq_distance rgb1 rgb2)).
      split; [by apply similarity_parsed |].
      destruct (hex_to_rgb_range _ _ E1) as (? & ? & ?).
      destruct (hex_to_rgb_range _ _ E2) as (? & ? & ?).
      pose proof (sq_distance_nonneg rgb1 rgb2) as Hn.
      pose proof (sq_distance_wide rgb1 rgb2) as Hw.
      pose proof (round3_similarity_antitone 0 (sq_distance rgb1 rgb2)) as Ha.
      pose proof (round3_similarity_antitone (sq_distance rgb1 rgb2) 218700)
        as Hb.
      change (round3_similarity 0) with 1000 in Ha.
      change (round3_similarity 218700) with (-59) in Hb. lia.
    + exists 0. split; [| lia]. unfold calculate_color_similarity.
      rewrite E1, E2. apply hex_to_rgb_raises in E2 as ->. reflexivity.
  - exists 0. split; [| lia]. unfold calculate_color_similarity.
    rewrite E1. apply hex_to_rgb_raises in E1 as ->. reflexivity.
Qed.

(** X8: colours further apart never score higher: for parsed colours the
    score is antitone in the squared distance of the triples. *)
Theorem calculate_color_similarity_antitone
    (a b c d : string) (ra rb rc rd : Z * Z * Z) :
  hex_to_rgb a = Ok ra → hex_to_rgb b = Ok rb →
  hex_to_rgb c = Ok rc → hex_to_rgb d = Ok rd →
  sq_distance ra rb ≤ sq_distance rc rd →
  ∃ k k', calculate_color_similarity a b = Ok k ∧
          calculate_color_similarity c d = Ok k' ∧ k' ≤ k.
Proof.
  intros Ha Hb Hc Hd Hle.
  exists (round3_similarity (sq_distance ra rb)),
    (round3_similarity (sq_distance rc rd)).
  split; [by apply similarity_parsed |].
  split; [by apply similarity_parsed |].
  apply round3_similarity_antitone.
  pose proof (sq_distance_nonneg ra rb). lia.
Qed.

Lemma calculate_color_similarity_antitone_witness :
  ∃ k k', calculate_color_similarity "#FF0000" "#FF1111" = Ok k ∧
          calculate_color_similarity "#FF0000" "#00FF00" = Ok k' ∧ k' ≤ k.
Proof.
  apply (calculate_color_similarity_antitone
           "#FF0000" "#FF1111" "#FF0000" "#00FF00"
           (255, 0, 0) (255, 17, 17) (255, 0, 0) (0, 255, 0));
    vm_compute; (reflexivity || discriminate).
Defined.

(** X9: the score is 1.0 exactly when both colours parse and parse to the
    same triple; colours one unit apart already score 0.998. *)
Theorem calculate_color_similarity_one (c1 c2 : string) :
  calculate_color_similarity c1 c2 = Ok 1000
  ↔ ∃ rgb, hex_to_rgb c1 = Ok rgb ∧ hex_to_rgb c2 = Ok rgb.
Proof.
  split.
  - destruct (hex_to_rgb c1) as [rgb1|e1] eqn:E1.
    + destruct (hex_to_rgb c2) as [rgb2|e2] eqn:E2.
      * rewrite (similarity_parsed _ _ _ _ E1 E2). intros [= H].
        exists rgb1. split; [done |]. f_equal. symmetry.
        apply sq_distance_zero.
        pose proof (sq_distance_nonneg rgb1 rgb2) as Hn.
        destruct (Z.eq_dec (sq_distance rgb1 rgb2) 0) as [|Hne]; [done |].
        pose proof (round3_similarity_antitone 1 (sq_distance rgb1 rgb2)
                      ltac:(lia)) as Ha.
        change (round3_similarity 1) with 998 in Ha. lia.
      * unfold calculate_color_similarity. rewrite E1, E2.
        apply hex_to_rgb_raises in E2 as ->. cbn. discriminate.
    + unfold calculate_color_similarity. rewrite E1.
      apply hex_to_rgb_raises in E1 as ->. cbn. discriminate.
  - intros (rgb & H1 & H2).
    rewrite (similarity_parsed _ _ _ _ H1 H2), sq_distance_diag. reflexivity.
Qed.

Lemma lower_char_hash (c : ascii) :
  Ascii.eqb "#" (lower_char c) = Ascii.eqb "#" c.
Proof. destruct c as [[] [] [] [] [] [] [] []]; vm_compute; reflexivity. Qed.

Lemma lower_lstrip_hash (s : string) :
  lstrip (Ascii.eqb "#") (lower s) = lower (lstrip (Ascii.eqb "#") s).
Proof.
  induction s as [|c s IH]; [done |]. cbn [lower lstrip].
  rewrite lower_char_hash. by destruct (Ascii.eqb "#" c).
Qed.

Lemma lower_drop (n : nat) (s : string) : drop n (lower s) = lower (drop n s).
Proof.
  revert s; induction n as [|n IH]; intros s; [done |].
  destruct s as [|c s]; [done |]. simpl. apply IH.
Qed.

Lemma lower_take (n : nat) (s : string) : take n (lower s) = lower (take n s).
Proof.
  revert s; induction n as [|n IH]; intros s; [done |].
  destruct s as [|c s]; [done |]. simpl. by rewrite IH.
Qed.

Lemma result_Z_eqb_eq (r1 r2 : result Z) : result_Z_eqb r1 r2 = true → r1 = r2.
Proof.
  destruct r1, r2; simpl; try done.
  - intros H. apply Z.eqb_eq in H. by subst.
  - intros H. apply bool_decide_eq_true in H. by subst.
Qed.

(** Up to two characters read the same in lower case. *)
Lemma int16_lower (s : string) :
  (String.length s ≤ 2)%nat → int16 (lower s) = int16 s.
Proof.
  assert (Hall : forallb
            (λ a, result_Z_eqb (int16 (lower (String a "")))
                    (int16 (String a ""))
                  && forallb
                       (λ b, result_Z_eqb
                               (int16 (lower (String a (String b ""))))
                               (int16 (String a (String b ""))))
                       Spec.all_ascii) Spec.all_ascii = true)
    by (vm_compute; reflexivity).
  rewrite forallb_forall in Hall.
  destruct s as [|a [|b [|c s]]]; simpl String.length; intros Hl; try lia.
  - done.
  - specialize (Hall a (in_all_ascii a)). apply andb_prop in Hall as [H1 _].
    by apply result_Z_eqb_eq.
  - specialize (Hall a (in_all_ascii a)). apply andb_prop in Hall as [_ H2].
    rewrite forallb_forall in H2. specialize (H2 b (in_all_ascii b)).
    by apply result_Z_eqb_eq.
Qed.

Lemma hex_to_rgb_lower (c : string) : hex_to_rgb (lower c) = hex_to_rgb c.
Proof.
  unfold hex_to_rgb. rewrite lower_lstrip_hash.
  set (h := lstrip (Ascii.eqb "#") c). unfold slice.
  rewrite !lower_drop, !lower_take.
  rewrite !int16_lower by apply length_take. reflexivity.
Qed.

(** X10: the score does not depend on the case of the letters: putting
    either colour in lower case leaves it unchanged, on all strings. *)
Theorem calculate_color_similarity_case (a b : string) :
  calculate_color_similarity (lower a) b = calculate_color_similarity a b ∧
  calculate_color_similarity a (lower b) = calculate_color_similarity a b.
Proof.
  unfold calculate_color_similarity. by rewrite !hex_to_rgb_lower.
Qed.

End ScorerMore.

(** * Further properties of the comparator *)

Section ComparatorMore.
Import PyStr Tools.

Lemma similarity_swap (a b : string) :
  Gemini.calculate_color_similarity a b = Gemini.calculate_color_similarity b a.
Proof.
  unfold Gemini.calculate_color_similarity.
  destruct (Gemini.hex_to_rgb a) as [rgb1|e1] eqn:E1;
    destruct (Gemini.hex_to_rgb b) as [rgb2|e2] eqn:E2; cbn;
    try (apply hex_to_rgb_raises in E1 as ->);
    try (apply hex_to_rgb_raises in E2 as ->); try reflexivity.
  by rewrite sq_distance_sym.
Qed.

Lemma differences_length (a b : BrandData.t) :
  length (differences a b) = length (differences b a).
Proof.
  unfold differences.
  rewrite (String.eqb_sym (BrandColors.primary (BrandData.colors a))).
  rewrite (String.eqb_sym (lower (BrandTypography.headings (BrandData.typography a)))).
  rewrite (String.eqb_sym (lower (BrandTypography.body (BrandData.typography a)))).
  repeat match goal with |- context [String.eqb ?x ?y] =>
    destruct (String.eqb x y) end; reflexivity.
Qed.

Lemma font_overlap_swap (a b : BrandData.t) :
  font_overlap b a = font_overlap a b.
Proof. unfold font_overlap. cbv zeta. f_equal. apply (comm_L (∩)). Qed.

(** X11: comparing in the other order.  When [compare_brands a b] returns,
    so does [compare_brands b a], with the same colour similarity, the
    same typography flag, the same fonts in the overlap, in whatever
    order, and as many differences (their texts name the two sides in the
    other order). *)
Theorem compare_brands_swap (a b : BrandData.t) (r : BrandComparison.t) :
  compare_brands a b = Ok r →
  ∃ r', compare_brands b a = Ok r' ∧
        let m := BrandComparison.comparison r in
        let m' := BrandComparison.comparison r' in
        ComparisonMetrics.color_similarity m' = ComparisonMetrics.color_similarity m ∧
        ComparisonMetrics.typography_match m' = ComparisonMetrics.typography_match m ∧
        ComparisonMetrics.font_overlap m' ≡ₚ ComparisonMetrics.font_overlap m ∧
        length (ComparisonMetrics.differences m')
        = length (ComparisonMetrics.differences m).
Proof.
  unfold compare_brands.
  rewrite (similarity_swap _ (BrandColors.primary (BrandData.colors a))).
  destruct (Gemini.calculate_color_similarity _ _) as [k|];
    cbn [mbind result_bind]; [| done].
  destruct ((0 <=? k) && (k <=? 1000)); [| done].
  intros [= <-]. eexists. split; [reflexivity |]. cbn.
  split; [done |]. split.
  - unfold typography_match. by rewrite (String.eqb_sym (lower _)),
      (String.eqb_sym (lower (BrandTypography.body _))).
  - split; [| apply differences_length].
    by rewrite font_overlap_swap.
Qed.

Lemma compare_brands_swap_witness :
  ∃ r', compare_brands Samples.site_b Samples.site_a = Ok r' ∧
        let m := BrandComparison.comparison Samples.comparison_ab in
        let m' := BrandComparison.comparison r' in
        ComparisonMetrics.color_similarity m' = ComparisonMetrics.color_similarity m ∧
        ComparisonMetrics.typography_match m' = ComparisonMetrics.typography_match m ∧
        ComparisonMetrics.font_overlap m' ≡ₚ ComparisonMetrics.font_overlap m ∧
        length (ComparisonMetrics.differences m')
        = length (ComparisonMetrics.differences m).
Proof.
  apply (compare_brands_swap Samples.site_a Samples.site_b).
  vm_compute. reflexivity.
Defined.

(** X12: a brand compared with itself, its primary colour valid: the
    comparison returns, both sites are the brand, the similarity is 1.0,
    the fonts match, the overlap lists the brand's own fonts in lower
    case, each once and in whatever order, and there is no difference. *)
Theorem compare_brands_self (a : BrandData.t) :
  Spec.valid_color (BrandColors.primary (BrandData.colors a)) →
  ∃ r, compare_brands a a = Ok r ∧
       BrandComparison.site1 r = a ∧ BrandComparison.site2 r = a ∧
       let m := BrandComparison.comparison r in
       ComparisonMetrics.color_similarity m = 1000 ∧
       ComparisonMetrics.typography_match m = true ∧
       (∀ f, f ∈ ComparisonMetrics.font_overlap m
             ↔ f = lower (BrandTypography.headings (BrandData.typography a))
               ∨ f = lower (BrandTypography.body (BrandData.typography a))) ∧
       NoDup (ComparisonMetrics.font_overlap m) ∧
       ComparisonMetrics.differences m = [].
Proof.
  intros [rgb H]. destruct (hex_to_rgb_valid _ _ H) as [Hp _].
  unfold compare_brands.
  rewrite (similarity_parsed _ _ _ _ Hp Hp), sq_distance_diag.
  cbn [mbind result_bind]. change (Gemini.round3_similarity 0) with 1000.
  cbn [Z.leb Z.compare andb mret result_ret].
  eexists. split; [reflexivity |]. cbn.
  split; [done |]. split; [done |]. split; [done |].
  split; [unfold typography_match; by rewrite !String.eqb_refl |].
  split; [| split].
  - intros f. unfold font_overlap. cbv zeta.
    rewrite elem_of_elements, elem_of_intersection, elem_of_union,
      !elem_of_singleton. tauto.
  - apply NoDup_elements.
  - unfold differences. by rewrite !String.eqb_refl.
Qed.

Lemma compare_brands_self_witness :
  ∃ r, compare_brands Samples.site_a Samples.site_a = Ok r ∧
       BrandComparison.site1 r = Samples.site_a ∧
       BrandComparison.site2 r = Samples.site_a ∧
       let m := BrandComparison.comparison r in
       ComparisonMetrics.color_similarity m = 1000 ∧
       ComparisonMetrics.typography_match m = true ∧
       (∀ f, f ∈ ComparisonMetrics.font_overlap m
             ↔ f = lower "Arial" ∨ f = lower "Helvetica") ∧
       NoDup (ComparisonMetrics.font_overlap m) ∧
       ComparisonMetrics.differences m = [].
Proof.
  apply (compare_brands_self Samples.site_a).
  exists (255, 0, 0). vm_compute. reflexivity.
Defined.

(** X13: the similarity reads the colours up to case, the difference list
    compares them as written.  Two valid primary colours that differ in
    case only score 1.0 and are still reported as a difference, first in
    the list. *)
Theorem compare_brands_case_difference (a b : BrandData.t) :
  let pa := BrandColors.primary (BrandData.colors a) in
  let pb := BrandColors.primary (BrandData.colors b) in
  Spec.valid_color pa →
  lower pa = lower pb →
  pa ≠ pb →
  ∃ r rest,
    compare_brands a b = Ok r ∧
    ComparisonMetrics.color_similarity (BrandComparison.comparison r) = 1000 ∧
    ComparisonMetrics.differences (BrandComparison.comparison r)
    = ("Primary color: " +:+ pa +:+ " vs " +:+ pb) :: rest.
Proof.
  intros pa pb [rgb H] Hl Hne.
  destruct (hex_to_rgb_valid _ _ H) as [Hp _].
  assert (Hq : Gemini.hex_to_rgb pb = Ok rgb).
  { rewrite <- (hex_to_rgb_lower pb), <- Hl, hex_to_rgb_lower. exact Hp. }
  unfold compare_brands. fold pa pb.
  rewrite (similarity_parsed _ _ _ _ Hp Hq), sq_distance_diag.
  cbn [mbind result_bind]. change (Gemini.round3_similarity 0) with 1000.
  cbn [Z.leb Z.compare andb mret result_ret].
  unfold differences. fold pa pb.
  apply String.eqb_neq in Hne. rewrite Hne. cbn [negb app].
  repeat match goal with |- context [negb (String.eqb ?x ?y)] =>
    destruct (String.eqb x y); cbn [negb app] end;
    eexists _, _; (split; [reflexivity |]); split; reflexivity.
Qed.

Lemma compare_brands_case_difference_witness :
  ∃ r rest,
    compare_brands Samples.site_a site_a_lower = Ok r ∧
    ComparisonMetrics.color_similarity (BrandComparison.comparison r) = 1000 ∧
    ComparisonMetrics.differences (BrandComparison.comparison r)
    = ("Primary color: " +:+ "#FF0000" +:+ " vs " +:+ "#ff0000") :: rest.
Proof.
  apply (compare_brands_case_difference Samples.site_a site_a_lower).
  - exists (255, 0, 0). vm_compute. reflexivity.
  - vm_compute. reflexivity.
  - discriminate.
Defined.

End ComparatorMore.

(** * Further properties of the normaliser *)

Section NormalizerMore.
Import Firecrawl.

Variable validate_int : json → option Z.
Hypothesis validate_int_JInt : ∀ z, validate_int (JInt z) = Some z.

Lemma get_top_present (v w x : json) (k : string) (d : json) :
  get v k d = Ok w → at_path v [k] = Some x → w = x.
Proof.
  destruct v as [| | | | | |m]; try done. simpl.
  destruct (m !! k); [| done]. by intros [= ->] [= ->].
Qed.

Lemma all_ok_as_int (ws : list Z) :
  all_ok (as_int validate_int) (JInt <$> ws) = Ok ws.
Proof.
  induction ws as [|w ws IH]; [done |].
  change (all_ok (as_int validate_int) (JInt <$> w :: ws))
    with (y ← as_int validate_int (JInt w);
          ys ← all_ok (as_int validate_int) (JInt <$> ws); mret (y :: ys)).
  rewrite IH. unfold as_int. by rewrite validate_int_JInt.
Qed.

Lemma all_ok_length {A B} (f : A → result B) (l : list A) (l' : list B) :
  all_ok f l = Ok l' → length l' = length l.
Proof.
  revert l'; induction l as [|x l IH]; intros l'; cbn; [by intros [= <-] |].
  destruct (f x); cbn; [| done].
  destruct (all_ok f l) eqn:E; cbn; [| done].
  intros [= <-]. cbn. f_equal. by apply IH.
Qed.

(** The steps of a successful run of [build_brand] on the optional
    colours, the logo, the favicon and the screenshots, and the fields it
    sets without reading the payload. *)
Lemma build_brand_inv_rest (extracted : json) (url : string)
    (shots : list json) (b : BrandData.t) :
  build_brand validate_int extracted url shots = Ok b →
  ∃ colors_data c_secondary c_accent c_background c_text j_logo j_favicon,
    get extracted "colors" (JObj ∅) = Ok colors_data ∧
    get colors_data "secondary" JNull = Ok c_secondary ∧
    as_opt_str c_secondary = Ok (BrandColors.secondary (BrandData.colors b)) ∧
    get colors_data "accent" JNull = Ok c_accent ∧
    as_opt_str c_accent = Ok (BrandColors.accent (BrandData.colors b)) ∧
    get colors_data "background" JNull = Ok c_background ∧
    as_opt_str c_background
    = Ok (BrandColors.background (BrandData.colors b)) ∧
    get colors_data "text" JNull = Ok c_text ∧
    as_opt_str c_text = Ok (BrandColors.text (BrandData.colors b)) ∧
    get extracted "logo_url" JNull = Ok j_logo ∧
    as_opt_str j_logo = Ok (BrandData.logo_url b) ∧
    get extracted "favicon_url" JNull = Ok j_favicon ∧
    as_opt_str j_favicon = Ok (BrandData.favicon_url b) ∧
    all_ok as_str shots = Ok (BrandData.screenshots b) ∧
    BrandData.url b = url ∧
    BrandTypography.base_size (BrandData.typography b) = Some "16px" ∧
    BrandTypography.line_height (BrandData.typography b) = Some "1.5" ∧
    BrandButtons.secondary (BrandData.buttons b) = None ∧
    BrandButtons.outline (BrandData.buttons b) = None ∧
    ∀ style, BrandButtons.primary (BrandData.buttons b) = Some style →
             ButtonStyle.border style = None ∧
             ButtonStyle.hover_bg style = None.
Proof.
  intros H. unfold build_brand in H.
  bind_ok H as colors_data Ecd. bind_ok H as c_primary Ecp.
  bind_ok H as c_secondary Ecs. bind_ok H as c_accent Eca.
  bind_ok H as c_background Ecb. bind_ok H as c_text Ect.
  bind_ok H as c_palette Ecl. bind_ok H as colors Ecolors.
  bind_ok H as typo_data Etd. bind_ok H as t_headings Eth.
  bind_ok H as t_body Etb. bind_ok H as t_weights Etw.
  bind_ok H as typography Etypo.
  bind_ok H as buttons_data Ebd. bind_ok H as has_primary Ehp.
  bind_ok H as buttons Ebuttons.
  bind_ok H as j_logo Ejl. bind_ok H as j_favicon Ejf.
  bind_ok H as logo_url Elu. bind_ok H as favicon_url Efu.
  bind_ok H as shots' Eshots.
  injection H as <-. cbn.
  bind_ok Ecolors as primary Ep. bind_ok Ecolors as secondary Es.
  bind_ok Ecolors as accent Ea. bind_ok Ecolors as background Eb.
  bind_ok Ecolors as text Et. bind_ok Ecolors as palette Epl.
  injection Ecolors as <-. cbn in *.
  bind_ok Etypo as headings Eh. bind_ok Etypo as body Ebo.
  bind_ok Etypo as weights Ew. injection Etypo as <-. cbn.
  exists colors_data, c_secondary, c_accent, c_background, c_text,
    j_logo, j_favicon.
  do 17 (split; [done |]).
  destruct (truthy has_primary).
  - bind_ok Ebuttons as btn Ebtn. bind_ok Ebuttons as b_bg Ebg.
    bind_ok Ebuttons as b_text Ebt. bind_ok Ebuttons as b_radius Ebr.
    bind_ok Ebuttons as b_padding Ebp. bind_ok Ebuttons as style Est.
    injection Ebuttons as <-. cbn.
    bind_ok Est as bg Esbg. bind_ok Est as stext Estx.
    bind_ok Est as radius Esr. bind_ok Est as spadding Esp.
    injection Est as <-.
    do 2 (split; [done |]). by intros style' [= <-].
  - injection Ebuttons as <-. cbn. do 2 (split; [done |]). done.
Qed.

(** X14: what the normaliser never reads.  Whatever the payload holds, the
    record built has the url it was given, the default base size and line
    height, the default spacing, no secondary and no outline button, and a
    primary button style without border and hover background. *)
Theorem build_brand_fixed_fields (extracted : json) (url : string)
    (shots : list json) (b : BrandData.t) :
  build_brand validate_int extracted url shots = Ok b →
  BrandData.url b = url ∧
  BrandTypography.base_size (BrandData.typography b) = Some "16px" ∧
  BrandTypography.line_height (BrandData.typography b) = Some "1.5" ∧
  BrandData.spacing b = BrandSpacing.default ∧
  BrandButtons.secondary (BrandData.buttons b) = None ∧
  BrandButtons.outline (BrandData.buttons b) = None ∧
  (∀ style, BrandButtons.primary (BrandData.buttons b) = Some style →
            ButtonStyle.border style = None ∧
            ButtonStyle.hover_bg style = None) ∧
  length (BrandData.screenshots b) = length shots.
Proof.
  intros H.
  destruct (build_brand_inv validate_int _ _ _ _ H)
    as (? & ? & ? & ? & ? & ? & ? & ? & _ & _ & _ & _ & _ & _ & _ & _ & _ & _
        & Hsp & _).
  destruct (build_brand_inv_rest _ _ _ _ H)
    as (? & ? & ? & ? & ? & ? & ? & _ & _ & _ & _ & _ & _ & _ & _ & _ & _
        & _ & _ & _ & Hshots & Hu & Hbs & Hlh & Hs2 & Hol & Hst).
  apply all_ok_length in Hshots. done.
Qed.

(** X15: what is present is kept.  In every record built, a primary
    colour, heading font or body font given as a string is taken as it is,
    an optional colour or logo given as a string is set to it, and
    weights given as a list of integers are that list. *)
Theorem build_brand_keeps_present (extracted : json) (url : string)
    (shots : list json) (b : BrandData.t) :
  build_brand validate_int extracted url shots = Ok b →
  (∀ s, at_path extracted ["colors"; "primary"] = Some (JStr s) →
        BrandColors.primary (BrandData.colors b) = s) ∧
  (∀ s, at_path extracted ["colors"; "secondary"] = Some (JStr s) →
        BrandColors.secondary (BrandData.colors b) = Some s) ∧
  (∀ s, at_path extracted ["colors"; "accent"] = Some (JStr s) →
        BrandColors.accent (BrandData.colors b) = Some s) ∧
  (∀ s, at_path extracted ["colors"; "background"] = Some (JStr s) →
        BrandColors.background (BrandData.colors b) = Some s) ∧
  (∀ s, at_path extracted ["colors"; "text"] = Some (JStr s) →
        BrandColors.text (BrandData.colors b) = Some s) ∧
  (∀ s, at_path extracted ["typography"; "headings"] = Some (JStr s) →
        BrandTypography.headings (BrandData.typography b) = s) ∧
  (∀ s, at_path extracted ["typography"; "body"] = Some (JStr s) →
        BrandTypography.body (BrandData.typography b) = s) ∧
  (∀ ws, at_path extracted ["typography"; "weights"] = Some (JArr (JInt <$> ws)) →
         BrandTypography.weights (BrandData.typography b) = ws) ∧
  (∀ s, at_path extracted ["logo_url"] = Some (JStr s) →
        BrandData.logo_url b = Some s) ∧
  (∀ s, at_path extracted ["favicon_url"] = Some (JStr s) →
        BrandData.favicon_url b = Some s).
Proof.
  intros H.
  destruct (build_brand_inv validate_int _ _ _ _ H)
    as (colors_data & c_primary & typo_data & t_headings & t_body & t_weights
        & buttons_data & has_primary & Ecd & Ecp & Ep & Etd & Eth & Eh & Etb
        & Ebo & Etw & Ew & _).
  destruct (build_brand_inv_rest _ _ _ _ H)
    as (colors_data' & c_secondary & c_accent & c_background & c_text & j_logo
        & j_favicon & Ecd' & Ecs & Es & Eca & Ea & Ecb & Eb & Ect & Et & Ejl
        & Elu & Ejf & Efu & _).
  repeat split; intros s Hs.
  - rewrite (get_present _ _ _ _ _ _ _ Ecd Ecp Hs) in Ep. by injection Ep.
  - rewrite (get_present _ _ _ _ _ _ _ Ecd' Ecs Hs) in Es. by injection Es.
  - rewrite (get_present _ _ _ _ _ _ _ Ecd' Eca Hs) in Ea. by injection Ea.
  - rewrite (get_present _ _ _ _ _ _ _ Ecd' Ecb Hs) in Eb. by injection Eb.
  - rewrite (get_present _ _ _ _ _ _ _ Ecd' Ect Hs) in Et. by injection Et.
  - rewrite (get_present _ _ _ _ _ _ _ Etd Eth Hs) in Eh. by injection Eh.
  - rewrite (get_present _ _ _ _ _ _ _ Etd Etb Hs) in Ebo. by injection Ebo.
  - rewrite (get_present _ _ _ _ _ _ _ Etd Etw Hs) in Ew.
    unfold as_int_list in Ew. rewrite all_ok_as_int in Ew. by injection Ew.
  - rewrite (get_top_present _ _ _ _ _ Ejl Hs) in Elu. by injection Elu.
  - rewrite (get_top_present _ _ _ _ _ Ejf Hs) in Efu. by injection Efu.
Qed.

(** X16: null is not missing.  A primary colour that is present in the
    payload and is not a string (null, a number, a list) gets no default:
    the construction raises a validation error. *)
Theorem build_brand_rejects_primary (extracted : json) (url : string)
    (shots : list json) (v : json) :
  at_path extracted ["colors"; "primary"] = Some v →
  (∀ s, v ≠ JStr s) →
  build_brand validate_int extracted url shots = Raise ValidationError.
Proof.
  intros Hp Hv.
  destruct extracted as [| | | | | |m]; try done. simpl in Hp.
  destruct (m !! "colors") as [cd|] eqn:Ec; [| done].
  destruct cd as [| | | | | |mc]; try done.
  destruct (mc !! "primary") as [v'|] eqn:Epr; [| done].
  injection Hp as ->.
  unfold build_brand. cbn [get mbind result_bind]. rewrite Ec.
  cbn [get mbind result_bind]. rewrite Epr.
  assert (as_str v = Raise ValidationError) as ->.
  { destruct v; try done. by destruct (Hv s). }
  reflexivity.
Qed.

(** X17: a payload that is not an object, or whose [colors] section is
    present and not an object (null, for one), makes the normaliser raise
    an attribute error: only a section that is absent is replaced by the
    empty one. *)
Theorem build_brand_not_object (extracted : json) (url : string)
    (shots : list json) :
  (∀ m, extracted ≠ JObj m) ∨
  (∃ v, at_path extracted ["colors"] = Some v ∧ ∀ m, v ≠ JObj m) →
  build_brand validate_int extracted url shots = Raise AttributeError.
Proof.
  intros [Hn|(v & Hv & Hn)].
  - destruct extracted; try done. by destruct (Hn m).
  - destruct extracted as [| | | | | |m]; try done. simpl in Hv.
    destruct (m !! "colors") as [cd|] eqn:Ec; [| done]. injection Hv as ->.
    unfold build_brand. cbn [get mbind result_bind]. rewrite Ec.
    destruct v; try done. by destruct (Hn m0).
Qed.

(** X18: the guard on the primary button.  In every record built from a
    payload with a [buttons.primary] value: a value that is false for
    Python (null, the empty object, the empty string, zero) gives no
    primary button; a value that is true is an object and gives one. *)
Theorem build_brand_button_guard (extracted : json) (url : string)
    (shots : list json) (b : BrandData.t) (v : json) :
  build_brand validate_int extracted url shots = Ok b →
  at_path extracted ["buttons"; "primary"] = Some v →
  (truthy v = false → BrandButtons.primary (BrandData.buttons b) = None) ∧
  (truthy v = true →
   (∃ m, v = JObj m) ∧ is_Some (BrandButtons.primary (BrandData.buttons b))).
Proof.
  intros H Hp.
  destruct (build_brand_inv validate_int _ _ _ _ H)
    as (colors_data & c_primary & typo_data & t_headings & t_body & t_weights
        & buttons_data & has_primary & _ & _ & _ & _ & _ & _ & _ & _ & _ & _
        & _ & Ebd & Ehp & Hb).
  rewrite (get_present _ _ _ _ _ _ _ Ebd Ehp Hp) in Hb.
  split; intros Ht; rewrite Ht in Hb; [done |].
  destruct Hb as (b_bg & b_text & b_radius & b_padding & style
                  & Gbg & _ & _ & _ & _ & _ & _ & _ & Hs).
  split; [| by rewrite Hs].
  destruct v; try done. eauto.
Qed.

Lemma build_brand_empty (url : string) :
  build_brand validate_int (JObj ∅) url [] = Ok (default_brand url).
Proof.
  unfold build_brand. cbn [get mbind result_bind]. rewrite !lookup_empty.
  cbn [get mbind result_bind]. rewrite !lookup_empty.
  rewrite (as_int_list_default validate_int validate_int_JInt).
  reflexivity.
Qed.

(** X19: the screenshots of an extraction.  In every record extracted:
    there is no screenshot when none was requested or the response has
    none; and when one was requested and the response has one, it is a
    string and the only screenshot of the record. *)
Theorem extract_brand_screenshots (data : json) (url : string)
    (include_screenshots : bool) (b : BrandData.t) :
  extract_brand validate_int data url include_screenshots = Ok b →
  (include_screenshots = false → BrandData.screenshots b = []) ∧
  (at_path data ["data"; "screenshot"] = None → BrandData.screenshots b = []) ∧
  (∀ v, include_screenshots = true →
        at_path data ["data"; "screenshot"] = Some v →
        ∃ s, v = JStr s ∧ BrandData.screenshots b = [s]).
Proof.
  intros H. unfold extract_brand in H.
  bind_ok H as d Ed. bind_ok H as extracted Ee. bind_ok H as shots Es.
  destruct (build_brand_inv_rest _ _ _ _ H)
    as (? & ? & ? & ? & ? & ? & ? & _ & _ & _ & _ & _ & _ & _ & _ & _ & _
        & _ & _ & _ & Hshots & _).
  assert (Hnone : shots = [] → BrandData.screenshots b = []).
  { intros ->. by injection Hshots. }
  split; [| split].
  - intros ->. apply Hnone. by injection Es.
  - intros Hp. apply Hnone. destruct include_screenshots; [| by injection Es].
    destruct d as [| | | | | |md]; try done.
    destruct data as [| | | | | |m]; try done. simpl in Ed, Hp.
    destruct (m !! "data") as [d'|].
    + injection Ed as ->. destruct (md !! "screenshot"); [done |].
      by injection Es.
    + injection Ed as <-. rewrite lookup_empty in Es. by injection Es.
  - intros v -> Hp.
    destruct data as [| | | | | |m]; try done. simpl in Ed, Hp.
    destruct (m !! "data") as [d'|]; [| done]. injection Ed as ->.
    destruct d as [| | | | | |md]; try done.
    destruct (md !! "screenshot") as [shot|]; [| done].
    injection Hp as ->. injection Es as <-.
    cbn in Hshots. destruct v; try done. cbn in Hshots.
    injection Hshots as <-. eauto.
Qed.

(** X20: a response with no [data] member gives the record of defaults
    for the url, whether screenshots were requested or not. *)
Theorem extract_brand_missing_data (m : gmap string json) (url : string)
    (include_screenshots : bool) :
  m !! "data" = None →
  extract_brand validate_int (JObj m) url include_screenshots
  = Ok (default_brand url).
Proof.
  intros Hm. unfold extract_brand. cbn [get mbind result_bind]. rewrite Hm.
  cbn [get mbind result_bind]. rewrite !lookup_empty.
  destruct include_screenshots; cbn [mbind result_bind mret result_ret app];
    apply build_brand_empty.
Qed.

End NormalizerMore.

Section NormalizerMoreInstances.
Import Firecrawl.

Lemma build_brand_fixed_fields_witness :
  build_brand int_only full_payload "https://example.com" [JStr "shot.png"]
  = Ok full_brand ∧
  BrandData.url full_brand = "https://example.com" ∧
  BrandTypography.base_size (BrandData.typography full_brand) = Some "16px" ∧
  BrandTypography.line_height (BrandData.typography full_brand) = Some "1.5" ∧
  BrandData.spacing full_brand = BrandSpacing.default ∧
  BrandButtons.secondary (BrandData.buttons full_brand) = None ∧
  BrandButtons.outline (BrandData.buttons full_brand) = None ∧
  (∀ style, BrandButtons.primary (BrandData.buttons full_brand) = Some style →
            ButtonStyle.border style = None ∧
            ButtonStyle.hover_bg style = None) ∧
  length (BrandData.screenshots full_brand) = length [JStr "shot.png"].
Proof.
  split; [vm_compute; reflexivity |].
  apply (build_brand_fixed_fields int_only full_payload).
  vm_compute. reflexivity.
Defined.

Lemma build_brand_keeps_present_witness :
  at_path full_payload ["colors"; "primary"] = Some (JStr "#FF0000") ∧
  at_path full_payload ["typography"; "weights"]
  = Some (JArr (JInt <$> [300; 500])) ∧
  BrandColors.primary (BrandData.colors full_brand) = "#FF0000" ∧
  BrandTypography.weights (BrandData.typography full_brand) = [300; 500].
Proof.
  assert (Hp : at_path full_payload ["colors"; "primary"]
               = Some (JStr "#FF0000")) by (vm_compute; reflexivity).
  assert (Hw : at_path full_payload ["typography"; "weights"]
               = Some (JArr (JInt <$> [300; 500]))) by (vm_compute; reflexivity).
  destruct (build_brand_keeps_present int_only (λ z, eq_refl) full_payload
              "https://example.com" [JStr "shot.png"] full_brand)
    as (H1 & _ & _ & _ & _ & _ & _ & H8 & _); [vm_compute; reflexivity |].
  split; [exact Hp |]. split; [exact Hw |].
  split; [exact (H1 _ Hp) | exact (H8 _ Hw)].
Defined.

Lemma build_brand_rejects_primary_witness :
  build_brand int_only (JObj {["colors" := JObj {["primary" := JNull]}]})
    "https://example.com" []
  = Raise ValidationError.
Proof.
  apply (build_brand_rejects_primary int_only _ _ _ JNull);
    [vm_compute; reflexivity | discriminate].
Defined.

Lemma build_brand_not_object_witness :
  build_brand int_only (JObj {["colors" := JNull]}) "https://example.com" []
  = Raise AttributeError.
Proof.
  apply build_brand_not_object. right. exists JNull.
  split; [vm_compute; reflexivity | discriminate].
Defined.

Lemma build_brand_button_guard_witness :
  (truthy (JObj {["bg" := JStr "#FF0000"]}) = false →
   BrandButtons.primary (BrandData.buttons full_brand) = None) ∧
  (truthy (JObj {["bg" := JStr "#FF0000"]}) = true →
   (∃ m, JObj {["bg" := JStr "#FF0000"]} = JObj m) ∧
   is_Some (BrandButtons.primary (BrandData.buttons full_brand))).
Proof.
  apply (build_brand_button_guard int_only full_payload
           "https://example.com" [JStr "shot.png"]);
    vm_compute; reflexivity.
Defined.

Lemma extract_brand_screenshots_witness :
  extract_brand int_only full_response "https://example.com" true
  = Ok full_brand ∧
  BrandData.screenshots full_brand = ["shot.png"].
Proof.
  assert (H : extract_brand int_only full_response "https://example.com" true
              = Ok full_brand) by (vm_compute; reflexivity).
  split; [exact H |].
  destruct (extract_brand_screenshots int_only _ _ _ _ H) as (_ & _ & H3).
  destruct (H3 (JStr "shot.png") eq_refl) as (s & Es & ->);
    [vm_compute; reflexivity |].
  by injection Es as <-.
Defined.

Lemma extract_brand_missing_data_witness :
  extract_brand int_only (JObj {["success" := JBool false]})
    "https://example.com" true
  = Ok (default_brand "https://example.com").
Proof.
  apply (extract_brand_missing_data int_only (λ z, eq_refl)).
  vm_compute. reflexivity.
Defined.

End NormalizerMoreInstances.

(** * The comparator's validation *)

Section ComparatorErrors.
Import Gemini Tools.

Lemma similarity_at_most_one (c1 c2 : string) :
  ∃ k, calculate_color_similarity c1 c2 = Ok k ∧ k ≤ 1000.
Proof.
  destruct (hex_to_rgb c1) as [rgb1|e1] eqn:E1.
  - destruct (hex_to_rgb c2) as [rgb2|e2] eqn:E2.
    + exists (round3_similarity (sq_distance rgb1 rgb2)).
      split; [by apply similarity_parsed |].
      pose proof (sq_distance_nonneg rgb1 rgb2) as Hn.
      pose proof (round3_similarity_antitone 0 (sq_distance rgb1 rgb2)) as Ha.
      change (round3_similarity 0) with 1000 in Ha. lia.
    + exists 0. split; [| lia]. unfold calculate_color_similarity.
      rewrite E1, E2. apply hex_to_rgb_raises in E2 as ->. reflexivity.
  - exists 0. split; [| lia]. unfold calculate_color_similarity.
    rewrite E1. apply hex_to_rgb_raises in E1 as ->. reflexivity.
Qed.

(** X21: the comparator fails in one way only.  It raises exactly when
    the score of the two primary colours is negative, and what it raises is
    the validation error of the metrics; this happens, for colours written
    with signed channels. *)
Theorem compare_brands_raises :
  (∀ (a b : BrandData.t) (e : exn),
     compare_brands a b = Raise e ↔
     e = ValidationError ∧
     ∃ k, calculate_color_similarity
            (BrandColors.primary (BrandData.colors a))
            (BrandColors.primary (BrandData.colors b)) = Ok k ∧ k < 0) ∧
  compare_brands site_signed site_white = Raise ValidationError.
Proof.
  split; [| vm_compute; reflexivity].
  intros a b e. unfold compare_brands.
  destruct (similarity_at_most_one
              (BrandColors.primary (BrandData.colors a))
              (BrandColors.primary (BrandData.colors b))) as (k & -> & Hk).
  cbn [mbind result_bind].
  destruct (0 <=? k) eqn:E0; [apply Z.leb_le in E0 | apply Z.leb_gt in E0].
  - assert ((k <=? 1000) = true) as -> by (apply Z.leb_le; lia). cbn.
    split; [done |]. intros (_ & k' & [= <-] & Hk'). lia.
  - cbn. split.
    + intros [= <-]. split; [done |]. exists k. split; [done | lia].
    + by intros (-> & _).
Qed.

End ComparatorErrors.

(** * The preview URL *)

Section CodecFacts.
Import PyStr Codec.

Local Open Scope N_scope.

Lemma in_below_64 (n : N) : n < 64 → n ∈ below_64.
Proof.
  intros H. unfold below_64. apply list_elem_of_fmap.
  exists (N.to_nat n). split; [lia |]. apply elem_of_seq. lia.
Qed.

Lemma b64_char_inj (n m : N) :
  n < 64 → m < 64 → b64_char n = b64_char m → n = m.
Proof.
  intros Hn Hm E.
  assert (H : forallb (fun n => forallb (fun m =>
                implb (Ascii.eqb (b64_char n) (b64_char m)) (n =? m))
                below_64) below_64 = true) by (vm_compute; reflexivity).
  rewrite forallb_forall in H.
  specialize (H n). rewrite <- list_elem_of_In in H.
  specialize (H (in_below_64 n Hn)). rewrite forallb_forall in H.
  specialize (H m). rewrite <- list_elem_of_In in H.
  specialize (H (in_below_64 m Hm)).
  rewrite E, Ascii.eqb_refl in H. simpl in H. by apply N.eqb_eq.
Qed.

Lemma b64_char_alphabet (n : N) : n < 64 → b64_char n ∈ b64_alphabet.
Proof.
  intros Hn.
  assert (H : forallb (fun n => bool_decide (b64_char n ∈ b64_alphabet))
                below_64 = true) by (vm_compute; reflexivity).
  rewrite forallb_forall in H.
  specialize (H n). rewrite <- list_elem_of_In in H.
  specialize (H (in_below_64 n Hn)). by apply bool_decide_eq_true in H.
Qed.

Lemma pad_not_alphabet : "="%char ∉ b64_alphabet.
Proof. apply (bool_decide_eq_false_1 _). vm_compute. reflexivity. Qed.

Lemma b64_char_not_pad (n : N) : n < 64 → b64_char n ≠ "="%char.
Proof.
  intros Hn E. apply pad_not_alphabet. rewrite <- E.
  by apply b64_char_alphabet.
Qed.

Lemma list_ind3 {A} (P : list A → Prop) :
  P [] → (∀ a, P [a]) → (∀ a b, P [a; b]) →
  (∀ a b c rest, P rest → P (a :: b :: c :: rest)) →
  ∀ l, P l.
Proof.
  intros H0 H1 H2 H3 l.
  assert (H : ∀ n l, (length l ≤ n)%nat → P l); [| by apply (H (length l))].
  clear l. induction n as [|n IH]; intros l Hl.
  - destruct l; [done | simpl in Hl; lia].
  - destruct l as [|a [|b [|c rest]]]; [done.. |].
    apply H3, IH. simpl in Hl. lia.
Qed.

Ltac euclid := zify; Z.to_euclidean_division_equations; lia.

Ltac b64_index H :=
  apply b64_char_inj in H; [| euclid | euclid].

Ltac b64_pad H :=
  first [ apply b64_char_not_pad in H; [done | euclid]
        | symmetry in H; apply b64_char_not_pad in H; [done | euclid] ].

Lemma same_div_mod (x y d : N) :
  d ≠ 0 → x / d = y / d → x mod d = y mod d → x = y.
Proof.
  intros Hd Hq Hr. rewrite (N.div_mod x d), (N.div_mod y d) by done.
  by rewrite Hq, Hr.
Qed.

Lemma digits_inj (d q r q' r' : N) :
  r < d → r' < d → q * d + r = q' * d + r' → q = q' ∧ r = r'.
Proof.
  intros Hr Hr' E.
  assert (Hq : q = q').
  { rewrite (N.div_unique (q * d + r) d q r) by lia.
    rewrite (N.div_unique (q * d + r) d q' r') by lia. done. }
  subst q'. split; [done | lia].
Qed.

Lemma chunk_inj (a b c a' b' c' : N) :
  b < 256 → b' < 256 → c < 256 → c' < 256 →
  a / 4 = a' / 4 →
  a mod 4 * 16 + b / 16 = a' mod 4 * 16 + b' / 16 →
  b mod 16 * 4 + c / 64 = b' mod 16 * 4 + c' / 64 →
  c mod 64 = c' mod 64 →
  a = a' ∧ b = b' ∧ c = c'.
Proof.
  intros Hb Hb' Hc Hc' E1 E2 E3 E4.
  assert (B1 : b / 16 < 16) by (apply N.Div0.div_lt_upper_bound; lia).
  assert (B2 : b' / 16 < 16) by (apply N.Div0.div_lt_upper_bound; lia).
  assert (B3 : c / 64 < 4) by (apply N.Div0.div_lt_upper_bound; lia).
  assert (B4 : c' / 64 < 4) by (apply N.Div0.div_lt_upper_bound; lia).
  destruct (digits_inj 16 _ _ _ _ B1 B2 E2).
  destruct (digits_inj 4 _ _ _ _ B3 B4 E3).
  split; [by apply (same_div_mod _ _ 4) |].
  split; [by apply (same_div_mod _ _ 16) | by apply (same_div_mod _ _ 64)].
Qed.

Lemma b64encode_inj (bs1 : list N) :
  Forall (fun b => b < 256) bs1 →
  ∀ bs2, Forall (fun b => b < 256) bs2 →
         b64encode bs1 = b64encode bs2 → bs1 = bs2.
Proof.
  induction bs1 as [|a|a b|a b c rest IH] using list_ind3;
    intros H1 bs2 H2 E;
    destruct bs2 as [|a' [|b' [|c' rest']]]; try discriminate E;
    repeat match goal with
           | H : Forall _ (_ :: _) |- _ => apply Forall_cons in H as [? H]
           end;
    cbn [b64encode] in E.
  - done.
  - injection E as E1 E2. b64_index E1. b64_index E2.
    destruct (chunk_inj a 0 0 a' 0 0) as (-> & _); [lia.. | | | |];
      change (0 / 16) with 0; rewrite ?N.add_0_r; done.
  - injection E as E1 E2 E3. b64_pad E3.
  - injection E as E1 E2 E3 E4. b64_pad E3.
  - injection E as E1 E2 E3. b64_pad E3.
  - injection E as E1 E2 E3. b64_index E1. b64_index E2. b64_index E3.
    destruct (chunk_inj a b 0 a' b' 0) as (-> & -> & _); [lia.. | | | |];
      change (0 / 64) with 0; rewrite ?N.add_0_r; done.
  - injection E as E1 E2 E3 E4. b64_pad E4.
  - injection E as E1 E2 E3 E4. b64_pad E3.
  - injection E as E1 E2 E3 E4. b64_pad E4.
  - injection E as E1 E2 E3 E4 E5.
    b64_index E1. b64_index E2. b64_index E3. b64_index E4.
    destruct (chunk_inj a b c a' b' c') as (-> & -> & ->); [done.. |].
    do 3 f_equal. by apply IH.
Qed.

Lemma code_byte (c : ascii) : code c < 256.
Proof. unfold code. apply N_ascii_bounded. Qed.

Lemma code_inj (c1 c2 : ascii) : code c1 = code c2 → c1 = c2.
Proof.
  unfold code. intros E.
  rewrite <- (ascii_N_embedding c1), <- (ascii_N_embedding c2). by rewrite E.
Qed.

Lemma encode_bytes (s : string) : Forall (fun b => b < 256) (encode s).
Proof.
  induction s as [|c s IH]; [constructor |]. cbn [encode].
  apply Forall_app. split; [| done].
  pose proof (code_byte c). unfold encode_char.
  destruct (code c <? 128) eqn:E;
    repeat constructor; try apply N.ltb_lt in E; try apply N.ltb_ge in E;
    euclid.
Qed.

Lemma encode_inj (s1 s2 : string) : encode s1 = encode s2 → s1 = s2.
Proof.
  revert s2. induction s1 as [|c1 s1 IH]; intros [|c2 s2] E.
  - done.
  - exfalso. cbn [encode] in E. unfold encode_char in E.
    destruct (code c2 <? 128); discriminate E.
  - exfalso. cbn [encode] in E. unfold encode_char in E.
    destruct (code c1 <? 128); discriminate E.
  - cbn [encode] in E. unfold encode_char in E.
    pose proof (code_byte c1). pose proof (code_byte c2).
    destruct (code c1 <? 128) eqn:E1, (code c2 <? 128) eqn:E2;
      try apply N.ltb_lt in E1; try apply N.ltb_ge in E1;
      try apply N.ltb_lt in E2; try apply N.ltb_ge in E2;
      cbn [app] in E.
    + injection E as Ec E. f_equal; [by apply code_inj | by apply IH].
    + exfalso. injection E as Ec E. euclid.
    + exfalso. injection E as Ec E. euclid.
    + injection E as Ea Eb E. f_equal; [| by apply IH].
      apply code_inj. euclid.
Qed.

(** X22: the preview URL determines the document: two results with the
    same URL hold the same preview. *)
Theorem preview_url_inj (g1 g2 : GeneratedCode.t) :
  preview_url g1 = preview_url g2 →
  GeneratedCode.preview_html g1 = GeneratedCode.preview_html g2.
Proof.
  unfold preview_url. intros E. apply sapp_inv_head in E.
  apply encode_inj.
  by apply b64encode_inj; [apply encode_bytes | apply encode_bytes |].
Qed.

End CodecFacts.

(** * Serialisation *)

Section SchemaFacts.
Import Firecrawl Schema.

Variable validate_int : json → option Z.
Hypothesis validate_int_JInt : ∀ z, validate_int (JInt z) = Some z.

Ltac field_here :=
  unfold field, obj; cbn [list_to_map foldr uncurry map fst snd];
  rewrite ?lookup_insert_ne by done; rewrite lookup_insert_eq.

Lemma as_opt_str_dump (v : option string) : as_opt_str (dump_opt_str v) = Ok v.
Proof. by destruct v. Qed.

Lemma as_str_list_dump (l : list string) : as_str_list (dump_str_list l) = Ok l.
Proof.
  unfold as_str_list, dump_str_list.
  induction l as [|s l IH]; [done |].
  change (all_ok as_str (JStr <$> s :: l))
    with (y ← as_str (JStr s); ys ← all_ok as_str (JStr <$> l); mret (y :: ys)).
  by rewrite IH.
Qed.

Lemma as_str_dict_dump (m : gmap string string) :
  as_str_dict (dump_str_dict m) = Ok m.
Proof.
  unfold as_str_dict, dump_str_dict.
  destruct (decide _) as [_|Hn].
  - f_equal. apply map_eq. intros k.
    rewrite lookup_omap, lookup_fmap. by destruct (m !! k).
  - destruct Hn. intros k v. rewrite lookup_fmap.
    destruct (m !! k); [| done]. intros [= <-]. by eexists.
Qed.

Lemma validate_dump_ButtonStyle (b : ButtonStyle.t) :
  validate_ButtonStyle (dump_ButtonStyle b) = Ok b.
Proof.
  destruct b as [bg text radius padding border hover].
  unfold validate_ButtonStyle, dump_ButtonStyle, ButtonStyle_items.
  cbn [ButtonStyle.bg ButtonStyle.text ButtonStyle.border_radius
       ButtonStyle.padding ButtonStyle.border ButtonStyle.hover_bg].
  repeat (field_here; cbn [dump_opt_str as_str mbind result_bind];
          rewrite ?as_opt_str_dump; cbn [mbind result_bind]).
  reflexivity.
Qed.

Lemma validate_dump_opt_ButtonStyle (v : option ButtonStyle.t) :
  validate_opt_ButtonStyle (dump_opt_ButtonStyle v) = Ok v.
Proof.
  destruct v as [b|]; [| done].
  unfold validate_opt_ButtonStyle, dump_opt_ButtonStyle.
  rewrite validate_dump_ButtonStyle. reflexivity.
Qed.

Lemma validate_dump_BrandColors (c : BrandColors.t) :
  validate_BrandColors (dump_BrandColors c) = Ok c.
Proof.
  destruct c. unfold validate_BrandColors, dump_BrandColors.
  repeat (field_here; cbn [as_str mbind result_bind];
          rewrite ?as_opt_str_dump, ?as_str_list_dump;
          cbn [mbind result_bind]).
  reflexivity.
Qed.

Lemma validate_dump_BrandTypography (t : BrandTypography.t) :
  validate_BrandTypography validate_int (dump_BrandTypography t) = Ok t.
Proof.
  destruct t. unfold validate_BrandTypography, dump_BrandTypography.
  repeat (field_here; cbn [as_str as_int_list mbind result_bind];
          rewrite ?as_opt_str_dump,
            ?(all_ok_as_int validate_int validate_int_JInt);
          cbn [mbind result_bind]).
  reflexivity.
Qed.

Lemma validate_dump_BrandSpacing (s : BrandSpacing.t) :
  validate_BrandSpacing (dump_BrandSpacing s) = Ok s.
Proof.
  destruct s. unfold validate_BrandSpacing, dump_BrandSpacing.
  repeat (field_here; cbn [as_str mbind result_bind];
          rewrite ?as_opt_str_dump, ?as_str_dict_dump;
          cbn [mbind result_bind]).
  reflexivity.
Qed.

Lemma validate_dump_BrandButtons (b : BrandButtons.t) :
  validate_BrandButtons (dump_BrandButtons b) = Ok b.
Proof.
  destruct b. unfold validate_BrandButtons, dump_BrandButtons.
  repeat (field_here; rewrite ?validate_dump_opt_ButtonStyle;
          cbn [mbind result_bind]).
  reflexivity.
Qed.

(** Round trip: validating the dump of a record gives the record back. *)
Lemma validate_dump (b : BrandData.t) :
  validate_BrandData validate_int (dump_BrandData b) = Ok b.
Proof.
  destruct b. unfold validate_BrandData, dump_BrandData.
  repeat (field_here; cbn [as_str mbind result_bind];
          rewrite ?as_opt_str_dump, ?as_str_list_dump,
            ?validate_dump_BrandColors, ?validate_dump_BrandTypography,
            ?validate_dump_BrandSpacing, ?validate_dump_BrandButtons;
          cbn [mbind result_bind]).
  reflexivity.
Qed.

Lemma as_str_raises (v : json) (e : exn) :
  as_str v = Raise e → e = ValidationError.
Proof. destruct v; simpl; congruence. Qed.

Lemma as_opt_str_raises (v : json) (e : exn) :
  as_opt_str v = Raise e → e = ValidationError.
Proof. destruct v; simpl; congruence. Qed.

Lemma all_ok_raises {A B} (f : A → result B) (l : list A) (e : exn) :
  (∀ x e, f x = Raise e → e = ValidationError) →
  all_ok f l = Raise e → e = ValidationError.
Proof.
  intros Hf. induction l as [|x l IH]; [done |]. cbn [all_ok].
  destruct (f x) eqn:Ex; cbn [mbind result_bind]; [| intros [= <-]; eauto].
  destruct (all_ok f l); cbn [mbind result_bind]; [done |].
  intros [= <-]. by apply IH.
Qed.

Lemma as_str_list_raises (v : json) (e : exn) :
  as_str_list v = Raise e → e = ValidationError.
Proof.
  destruct v; simpl; try congruence.
  apply all_ok_raises, as_str_raises.
Qed.

Lemma as_int_list_raises (v : json) (e : exn) :
  as_int_list validate_int v = Raise e → e = ValidationError.
Proof.
  destruct v; simpl; try congruence.
  apply all_ok_raises. intros x e'. unfold as_int.
  destruct (validate_int x); congruence.
Qed.

Lemma as_str_dict_raises (v : json) (e : exn) :
  as_str_dict v = Raise e → e = ValidationError.
Proof.
  destruct v; simpl; try congruence. destruct (decide _); congruence.
Qed.

Lemma field_raises {A} (m : gmap string json) (k : string)
    (validate : json → result A) (default : option A) (e : exn) :
  (∀ v e, validate v = Raise e → e = ValidationError) →
  field m k validate default = Raise e → e = ValidationError.
Proof.
  intros Hv. unfold field. destruct (m !! k); [apply Hv |].
  destruct default; congruence.
Qed.

Ltac raises_steps H :=
  repeat match type of H with
         | mbind _ ?r = Raise _ =>
             let E := fresh "E" in
             destruct r eqn:E; cbn [mbind result_bind] in H;
             [| injection H as <-; revert E; apply field_raises; clear;
                intros v e; eauto ]
         end.

Lemma validate_ButtonStyle_raises (v : json) (e : exn) :
  validate_ButtonStyle v = Raise e → e = ValidationError.
Proof.
  destruct v; simpl; try congruence. intros H.
  raises_steps H;
    first [by inversion H | apply as_str_raises | apply as_opt_str_raises].
Qed.

Lemma validate_opt_ButtonStyle_raises (v : json) (e : exn) :
  validate_opt_ButtonStyle v = Raise e → e = ValidationError.
Proof.
  unfold validate_opt_ButtonStyle. intros H.
  destruct v; try discriminate H;
    match type of H with
    | mbind _ ?r = _ => destruct r eqn:E; [discriminate H |];
                          injection H as <-;
                          by apply validate_ButtonStyle_raises in E
    end.
Qed.

Lemma validate_BrandColors_raises (v : json) (e : exn) :
  validate_BrandColors v = Raise e → e = ValidationError.
Proof.
  destruct v; simpl; try congruence. intros H.
  raises_steps H;
    first [by inversion H | apply as_str_raises | apply as_opt_str_raises | apply as_str_list_raises].
Qed.

Lemma validate_BrandTypography_raises (v : json) (e : exn) :
  validate_BrandTypography validate_int v = Raise e → e = ValidationError.
Proof.
  destruct v; simpl; try congruence. intros H.
  raises_steps H;
    first [by inversion H | apply as_str_raises | apply as_opt_str_raises | apply as_int_list_raises].
Qed.

Lemma validate_BrandSpacing_raises (v : json) (e : exn) :
  validate_BrandSpacing v = Raise e → e = ValidationError.
Proof.
  destruct v; simpl; try congruence. intros H.
  raises_steps H;
    first [by inversion H | apply as_str_raises | apply as_opt_str_raises | apply as_str_dict_raises].
Qed.

Lemma validate_BrandButtons_raises (v : json) (e : exn) :
  validate_BrandButtons v = Raise e → e = ValidationError.
Proof.
  destruct v; simpl; try congruence. intros H.
  raises_steps H;
    first [by inversion H | apply validate_opt_ButtonStyle_raises].
Qed.

Lemma validate_BrandData_raises (v : json) (e : exn) :
  validate_BrandData validate_int v = Raise e → e = ValidationError.
Proof.
  destruct v; simpl; try congruence. intros H.
  raises_steps H;
    first [ by inversion H
          | apply as_str_raises
          | apply as_opt_str_raises
          | apply as_str_list_raises
          | apply validate_BrandColors_raises
          | apply validate_BrandTypography_raises
          | apply validate_BrandSpacing_raises
          | apply validate_BrandButtons_raises ].
Qed.

(** X23: the output of one tool is input to another.  The dump of a
    brand record validates to the record itself, so two records with the
    same dump are the same record. *)
Theorem model_validate_model_dump :
  (∀ b, validate_BrandData validate_int (dump_BrandData b) = Ok b) ∧
  (∀ b1 b2, dump_BrandData b1 = dump_BrandData b2 → b1 = b2).
Proof.
  split; [apply validate_dump |].
  intros b1 b2 E.
  pose proof (validate_dump b1) as H1. rewrite E, validate_dump in H1.
  by injection H1.
Qed.

End SchemaFacts.

(** * The tools and the outside world *)

Section ToolFacts.
Import Firecrawl Schema.

Variable env : gmap string string.
Variable post : list event → string → json → outcome json.
Variable generate_content : list event → string → string → outcome string.
Variable validate_int : json → option Z.
Hypothesis validate_int_JInt : ∀ z, validate_int (JInt z) = Some z.

Lemma resolve_key_raises (api_key : option string) (name : string) (e : exn) :
  resolve_key env api_key name = Raise e → e = ValueError.
Proof.
  unfold resolve_key.
  destruct (negb (Gemini.truthy_str _)); [by intros [= <-] | done].
Qed.

Lemma resolve_key_missing (name : string) :
  env !! name = None ∨ env !! name = Some "" →
  resolve_key env None name = Raise ValueError.
Proof. unfold resolve_key. by intros [-> | ->]. Qed.

Lemma firecrawl_init (log : list event) :
  FirecrawlService.__init__ env None log
  = match resolve_key env None "FIRECRAWL_API_KEY" with
    | Ok key => (Returned (FirecrawlService.mk key), log ++ [AsyncClient FirecrawlService.BASE_URL
                    (FirecrawlService.headers key)])
    | Raise e => (Failed (Builtin e), log)
    end.
Proof.
  unfold FirecrawlService.__init__, mbind, io_bind, lift.
  by destruct (resolve_key env None "FIRECRAWL_API_KEY").
Qed.

Lemma gemini_init (log : list event) :
  GeminiService.__init__ env None log
  = match resolve_key env None "GOOGLE_API_KEY" with
    | Ok key => (Returned (GeminiService.mk key "gemini-2.0-flash-lite"),
                 log ++ [Configure key])
    | Raise e => (Failed (Builtin e), log)
    end.
Proof.
  unfold GeminiService.__init__, mbind, io_bind, lift.
  by destruct (resolve_key env None "GOOGLE_API_KEY").
Qed.

Lemma extract_brand_log (self : FirecrawlService.t) (url : string)
    (include : bool) (log : list event) :
  (FirecrawlService.extract_brand post validate_int self url include log).2
  = log ++ [Post "/scrape" (FirecrawlService.extract_payload url include)].
Proof.
  unfold FirecrawlService.extract_brand, FirecrawlService.request.
  unfold mbind, io_bind.
  destruct (post log "/scrape" (FirecrawlService.extract_payload url include))
    as [data|f]; [| done].
  by destruct (Firecrawl.extract_brand validate_int data url include).
Qed.

Lemma guarded_extract (self : FirecrawlService.t) (url : string)
    (include : bool) (log : list event) :
  finally (FirecrawlService.extract_brand post validate_int self url include)
    (FirecrawlService.close self) log
  = ((FirecrawlService.extract_brand post validate_int self url include
        log).1,
     log ++ [Post "/scrape" (FirecrawlService.extract_payload url include);
             Aclose]).
Proof.
  unfold finally.
  pose proof (extract_brand_log self url include log) as Hl.
  destruct (FirecrawlService.extract_brand post validate_int self url include
              log) as [r log1].
  simpl in Hl. subst log1. cbn. by rewrite <- app_assoc.
Qed.

Lemma generate_replica_log (self : GeminiService.t) (brand : BrandData.t)
    (component customization : string) (log : list event) :
  (GeminiService.generate_replica generate_content self brand component
     customization log).2
  = log ++ [GenerateContent (GeminiService.model self)
              (GeminiService.prompt brand component customization)].
Proof.
  unfold GeminiService.generate_replica, GeminiService.ask.
  unfold mbind, io_bind.
  destruct (generate_content log (GeminiService.model self)
              (GeminiService.prompt brand component customization))
    as [text|f]; [| done].
  by destruct (Gemini.generate_replica brand component customization text).
Qed.

Lemma finally_close {A} (body : io A) (self : FirecrawlService.t)
    (log : list event) :
  finally body (FirecrawlService.close self) log
  = ((body log).1, (body log).2 ++ [Aclose]).
Proof. unfold finally. by destruct (body log). Qed.

Lemma bind_run {A B} (m : io A) (k : A → io B) (log : list event) :
  (m ≫= k) log
  = match (m log).1 with
    | Returned a => k a (m log).2
    | Failed f => (Failed f, (m log).2)
    end.
Proof. unfold mbind, io_bind. by destruct (m log) as [[a|f] log']. Qed.

Lemma lift_run {A} (r : result A) (log : list event) :
  lift r log
  = (match r with Ok a => Returned a | Raise e => Failed (Builtin e) end, log).
Proof. by destruct r. Qed.

Lemma opened_app (l1 l2 : list event) : opened (l1 ++ l2) = (opened l1 + opened l2)%nat.
Proof. unfold opened. by rewrite List.filter_app, length_app. Qed.

Lemma closed_app (l1 l2 : list event) : closed (l1 ++ l2) = (closed l1 + closed l2)%nat.
Proof. unfold closed. by rewrite List.filter_app, length_app. Qed.

(** The four tools that scrape, up to the end of the extraction. *)
Lemma extract_brand_run (url : string) (include : bool) (log : list event) :
  McpTools.extract_brand env post validate_int url include log
  = match resolve_key env None "FIRECRAWL_API_KEY" with
    | Raise e => (Failed (Builtin e), log)
    | Ok key =>
        let log1 := log ++ [AsyncClient FirecrawlService.BASE_URL
                              (FirecrawlService.headers key)] in
        (match (FirecrawlService.extract_brand post validate_int
                  (FirecrawlService.mk key) url include log1).1 with
         | Returned brand => Returned (dump_BrandData brand)
         | Failed f => Failed f
         end,
         log1 ++ [Post "/scrape" (FirecrawlService.extract_payload url include);
                  Aclose])
    end.
Proof.
  unfold McpTools.extract_brand. rewrite bind_run, firecrawl_init.
  destruct (resolve_key env None "FIRECRAWL_API_KEY") as [key|e]; [| done].
  cbn [fst snd]. rewrite finally_close, bind_run, extract_brand_log.
  destruct (FirecrawlService.extract_brand post validate_int _ url include _).1;
    unfold mret, io_ret; cbn [fst snd]; by rewrite <- app_assoc.
Qed.

(** A scrape without screenshots, the client closed, then [k]. *)
Lemma scrape_then_run {B} (url : string) (k : BrandData.t → io B)
    (log : list event) :
  (firecrawl ← FirecrawlService.__init__ env None;
   brand_data ←
     finally
       (FirecrawlService.extract_brand post validate_int firecrawl url false)
       (FirecrawlService.close firecrawl);
   k brand_data) log
  = match resolve_key env None "FIRECRAWL_API_KEY" with
    | Raise e => (Failed (Builtin e), log)
    | Ok key =>
        let log1 := log ++ [AsyncClient FirecrawlService.BASE_URL
                              (FirecrawlService.headers key)] in
        let log2 :=
          log1 ++ [Post "/scrape" (FirecrawlService.extract_payload url false);
                   Aclose] in
        match (FirecrawlService.extract_brand post validate_int
                 (FirecrawlService.mk key) url false log1).1 with
        | Returned brand_data => k brand_data log2
        | Failed f => (Failed f, log2)
        end
    end.
Proof.
  rewrite bind_run, firecrawl_init.
  destruct (resolve_key env None "FIRECRAWL_API_KEY") as [key|e]; [| done].
  cbn [fst snd]. rewrite bind_run, guarded_extract. cbn [fst snd].
  reflexivity.
Qed.

(** The model configured and asked, the answer passed through [h]. *)
Lemma generate_then_run {B} (brand : BrandData.t)
    (component customization : string) (h : GeneratedCode.t → B)
    (log : list event) :
  (gemini ← GeminiService.__init__ env None;
   generated ← GeminiService.generate_replica generate_content gemini brand
                 component customization;
   mret (h generated)) log
  = match resolve_key env None "GOOGLE_API_KEY" with
    | Raise e => (Failed (Builtin e), log)
    | Ok key =>
        let gemini := GeminiService.mk key "gemini-2.0-flash-lite" in
        let log1 := log ++ [Configure key] in
        (match (GeminiService.generate_replica generate_content gemini brand
                  component customization log1).1 with
         | Returned generated => Returned (h generated)
         | Failed f => Failed f
         end,
         log1 ++ [GenerateContent "gemini-2.0-flash-lite"
                    (GeminiService.prompt brand component customization)])
    end.
Proof.
  rewrite bind_run, gemini_init.
  destruct (resolve_key env None "GOOGLE_API_KEY") as [key|e]; [| done].
  cbn [fst snd]. rewrite bind_run, generate_replica_log.
  by destruct (GeminiService.generate_replica generate_content _ brand
                 component customization _).1.
Qed.

Lemma compare_brands_run (url1 url2 : string) (log : list event) :
  McpTools.compare_brands env post validate_int url1 url2 log
  = match resolve_key env None "FIRECRAWL_API_KEY" with
    | Raise e => (Failed (Builtin e), log)
    | Ok key =>
        let firecrawl := FirecrawlService.mk key in
        let log1 := log ++ [AsyncClient FirecrawlService.BASE_URL
                              (FirecrawlService.headers key)] in
        match resolve_key env None "GOOGLE_API_KEY" with
        | Raise e => (Failed (Builtin e), log1)
        | Ok google =>
            let log2 := log1 ++ [Configure google] in
            let post1 :=
              Post "/scrape" (FirecrawlService.extract_payload url1 false) in
            let post2 :=
              Post "/scrape" (FirecrawlService.extract_payload url2 false) in
            match (FirecrawlService.extract_brand post validate_int
                     firecrawl url1 false log2).1 with
            | Failed f => (Failed f, log2 ++ [post1; Aclose])
            | Returned brand1 =>
                match (FirecrawlService.extract_brand post validate_int
                         firecrawl url2 false (log2 ++ [post1])).1 with
                | Failed f => (Failed f, log2 ++ [post1; post2; Aclose])
                | Returned brand2 =>
                    (match Tools.compare_brands brand1 brand2 with
                     | Ok comparison =>
                         Returned (dump_BrandComparison comparison)
                     | Raise e => Failed (Builtin e)
                     end,
                     log2 ++ [post1; post2; Aclose])
                end
            end
        end
    end.
Proof.
  unfold McpTools.compare_brands. rewrite bind_run, firecrawl_init.
  destruct (resolve_key env None "FIRECRAWL_API_KEY") as [key|e]; [| done].
  cbn [fst snd]. rewrite bind_run, gemini_init.
  destruct (resolve_key env None "GOOGLE_API_KEY") as [google|e]; [| done].
  cbn [fst snd]. rewrite bind_run, finally_close, bind_run, extract_brand_log.
  destruct (FirecrawlService.extract_brand post validate_int _ url1 false _).1
    as [brand1|f]; cbn [fst snd]; [| by rewrite <- app_assoc].
  rewrite bind_run, extract_brand_log.
  destruct (FirecrawlService.extract_brand post validate_int _ url2 false _).1
    as [brand2|f]; unfold mret, io_ret; cbn [fst snd];
    [| by rewrite <- !app_assoc].
  rewrite bind_run, lift_run. cbn [fst snd].
  destruct (Tools.compare_brands brand1 brand2);
    unfold mret, io_ret; by rewrite <- !app_assoc.
Qed.

Lemma resolve_key_present (name key : string) :
  env !! name = Some key → key ≠ "" → resolve_key env None name = Ok key.
Proof.
  intros E Hk. unfold resolve_key. cbn [Gemini.truthy_str]. rewrite E.
  cbn [Gemini.truthy_str Gemini.str_of default].
  destruct (String.eqb_spec key ""); done.
Qed.

(** X24: without a key for the scraper nothing happens.  With
    FIRECRAWL_API_KEY unset or empty, each of the four tools that scrape
    raises a value error and leaves the log as it was: no client is
    opened, nothing is sent. *)
Theorem tools_need_firecrawl_key (log : list event) :
  env !! "FIRECRAWL_API_KEY" = None ∨ env !! "FIRECRAWL_API_KEY" = Some "" →
  (∀ url include,
     McpTools.extract_brand env post validate_int url include log
     = (Failed (Builtin ValueError), log)) ∧
  (∀ url component customization,
     McpTools.replicate_website env post generate_content validate_int
       url component customization log
     = (Failed (Builtin ValueError), log)) ∧
  (∀ url1 url2,
     McpTools.compare_brands env post validate_int url1 url2 log
     = (Failed (Builtin ValueError), log)) ∧
  (∀ url template,
     McpTools.apply_brand_to_template env post generate_content validate_int
       url template log
     = (Failed (Builtin ValueError), log)).
Proof.
  intros Hk. apply resolve_key_missing in Hk.
  split; [| split; [| split]]; intros.
  - by rewrite extract_brand_run, Hk.
  - unfold McpTools.replicate_website. by rewrite scrape_then_run, Hk.
  - by rewrite compare_brands_run, Hk.
  - unfold McpTools.apply_brand_to_template. by rewrite scrape_then_run, Hk.
Qed.

(** X25: the generating tool validates first.  A brand that does not
    validate makes it raise the validation error with the log as it was,
    whether a key for the model is configured or not. *)
Theorem generate_replica_validates_first (brand_data : json)
    (component customization : string) (log : list event) (e : exn) :
  validate_BrandData validate_int brand_data = Raise e →
  McpTools.generate_replica env generate_content validate_int brand_data
    component customization log
  = (Failed (Builtin ValidationError), log).
Proof.
  intros H. unfold McpTools.generate_replica.
  rewrite bind_run, lift_run, H. cbn [fst snd].
  by apply validate_BrandData_raises in H as ->.
Qed.

Ltac balance :=
  cbv zeta; cbn [fst snd];
  first [ exists []; rewrite app_nil_r;
          split; [reflexivity | split; [reflexivity | vm_compute; lia]]
        | eexists; split; [rewrite <- ?app_assoc; reflexivity |];
          unfold opened, closed;
          cbn [List.filter is_open is_close app length];
          split; [reflexivity | lia] ].

(** X26: the client is always closed.  Whatever the services answer,
    and whether they fail or not, a run of the extracting, the generating,
    the replicating or the template tool closes the one client it opened,
    if it opened one. *)
Theorem tools_close_client :
  (∀ url include,
     balanced (McpTools.extract_brand env post validate_int url include)) ∧
  (∀ brand_data component customization,
     balanced (McpTools.generate_replica env generate_content validate_int
                 brand_data component customization)) ∧
  (∀ url component customization,
     balanced (McpTools.replicate_website env post generate_content
                 validate_int url component customization)) ∧
  (∀ url template,
     balanced (McpTools.apply_brand_to_template env post generate_content
                 validate_int url template)).
Proof.
  split; [| split; [| split]]; intros; intros log.
  - rewrite extract_brand_run.
    destruct (resolve_key env None "FIRECRAWL_API_KEY"); cbn [fst snd]; balance.
  - unfold McpTools.generate_replica. rewrite bind_run, lift_run. cbn [fst snd].
    destruct (validate_BrandData validate_int brand_data); [| balance].
    rewrite generate_then_run.
    destruct (resolve_key env None "GOOGLE_API_KEY"); cbn [fst snd]; balance.
  - unfold McpTools.replicate_website. rewrite scrape_then_run.
    destruct (resolve_key env None "FIRECRAWL_API_KEY"); [| balance].
    cbv zeta.
    destruct (FirecrawlService.extract_brand post validate_int _ url false _).1;
      [| balance].
    rewrite generate_then_run.
    destruct (resolve_key env None "GOOGLE_API_KEY"); cbn [fst snd]; balance.
  - unfold McpTools.apply_brand_to_template. rewrite scrape_then_run.
    destruct (resolve_key env None "FIRECRAWL_API_KEY"); [| balance].
    cbv zeta.
    destruct (FirecrawlService.extract_brand post validate_int _ url false _).1;
      [| balance].
    unfold GeminiService.generate_from_template.
    rewrite (generate_then_run _ _ _
               (fun result =>
                  obj [("html", JStr (GeneratedCode.html result));
                       ("css", JStr (GeneratedCode.css result));
                       ("preview_url", JStr (Codec.preview_url result));
                       ("template_type", JStr template);
                       ("source_url", JStr url)])).
    destruct (resolve_key env None "GOOGLE_API_KEY"); cbn [fst snd]; balance.
Qed.

(** X27: the comparing tool can leave its client open.  With a key for
    the scraper and none for the model, it has opened the client when the
    model service refuses to start; it raises the value error, sends
    nothing and never closes the client. *)
Theorem compare_brands_leak (url1 url2 key : string) (log : list event) :
  env !! "FIRECRAWL_API_KEY" = Some key → key ≠ "" →
  env !! "GOOGLE_API_KEY" = None ∨ env !! "GOOGLE_API_KEY" = Some "" →
  McpTools.compare_brands env post validate_int url1 url2 log
  = (Failed (Builtin ValueError),
     log ++ [AsyncClient FirecrawlService.BASE_URL
               (FirecrawlService.headers key)]) ∧
  ¬ balanced (McpTools.compare_brands env post validate_int url1 url2).
Proof.
  intros Hf Hk Hg.
  assert (E : ∀ log,
             McpTools.compare_brands env post validate_int url1 url2 log
             = (Failed (Builtin ValueError),
                log ++ [AsyncClient FirecrawlService.BASE_URL
                          (FirecrawlService.headers key)])).
  { intros log'. rewrite compare_brands_run.
    by rewrite (resolve_key_present _ _ Hf Hk), (resolve_key_missing _ Hg). }
  split; [apply E |].
  intros Hb. destruct (Hb []) as (added & Ha & Hoc & _).
  rewrite E in Ha. cbn in Ha. subst added. vm_compute in Hoc. discriminate Hoc.
Qed.

(** X28: replicating is extracting, then generating.  A run of the
    replicating tool is a run of the extracting tool without screenshots
    followed by a run of the generating tool on what it returned: the same
    calls in the same order, the same failure or the same two results. *)
Theorem replicate_website_composes (url component customization : string)
    (log : list event) :
  McpTools.replicate_website env post generate_content validate_int
    url component customization log
  = (brand_data ← McpTools.extract_brand env post validate_int url false;
     generated ← McpTools.generate_replica env generate_content validate_int
                   brand_data component customization;
     mret (obj [("brand_data", brand_data); ("generated", generated)])) log.
Proof.
  unfold McpTools.replicate_website.
  rewrite scrape_then_run, bind_run, extract_brand_run.
  destruct (resolve_key env None "FIRECRAWL_API_KEY") as [key|e]; [| done].
  cbv zeta. cbn [fst snd].
  destruct (FirecrawlService.extract_brand post validate_int _ url false _).1
    as [brand|f]; [| done].
  rewrite generate_then_run, bind_run. unfold McpTools.generate_replica.
  rewrite bind_run, lift_run, (validate_dump _ validate_int_JInt).
  cbn [fst snd]. rewrite generate_then_run.
  destruct (resolve_key env None "GOOGLE_API_KEY") as [google|e]; [| done].
  cbv zeta. cbn [fst snd].
  by destruct (GeminiService.generate_replica generate_content _ brand
                 component customization _).1.
Qed.

Lemma generate_replica_component (self : GeminiService.t)
    (brand : BrandData.t) (component customization : string)
    (log : list event) (generated : GeneratedCode.t) :
  (GeminiService.generate_replica generate_content self brand component
     customization log).1 = Returned generated →
  GeneratedCode.component_type generated = Some component.
Proof.
  unfold GeminiService.generate_replica, GeminiService.ask.
  unfold mbind at 1. unfold io_bind.
  destruct (generate_content _ _ _) as [text|f]; [| done].
  unfold Gemini.generate_replica.
  destruct (Gemini.parse_response text) as [[html css]|e];
    cbn; [| done].
  by intros [= <-].
Qed.

(** X29: the template tool is the replicating tool with the template's
    instructions.  On the same log it makes the same calls and fails the
    same way; when the replicating tool returns, the template tool returns
    the html, the css and the preview URL of what was generated, and the
    component type generated is the template type. *)
Theorem apply_brand_to_template_replicates (url template : string)
    (log : list event) :
  match McpTools.replicate_website env post generate_content validate_int
          url template (GeminiService.template_customization template) log
  with
  | (Returned out, log') =>
      ∃ brand generated,
        out = obj [("brand_data", dump_BrandData brand);
                   ("generated", dump_GeneratedCode generated)] ∧
        GeneratedCode.component_type generated = Some template ∧
        McpTools.apply_brand_to_template env post generate_content
          validate_int url template log
        = (Returned
             (obj [("html", JStr (GeneratedCode.html generated));
                   ("css", JStr (GeneratedCode.css generated));
                   ("preview_url", JStr (Codec.preview_url generated));
                   ("template_type", JStr template);
                   ("source_url", JStr url)]),
           log')
  | (Failed f, log') =>
      McpTools.apply_brand_to_template env post generate_content
        validate_int url template log
      = (Failed f, log')
  end.
Proof.
  unfold McpTools.replicate_website, McpTools.apply_brand_to_template.
  rewrite !scrape_then_run.
  destruct (resolve_key env None "FIRECRAWL_API_KEY") as [key|e]; [| done].
  cbv zeta.
  destruct (FirecrawlService.extract_brand post validate_int _ url false _).1
    as [brand|f]; [| done].
  unfold GeminiService.generate_from_template.
  rewrite (generate_then_run _ _ _
             (fun generated =>
                obj [("brand_data", dump_BrandData brand);
                     ("generated", dump_GeneratedCode generated)])).
  rewrite (generate_then_run _ _ _
             (fun result =>
                obj [("html", JStr (GeneratedCode.html result));
                     ("css", JStr (GeneratedCode.css result));
                     ("preview_url", JStr (Codec.preview_url result));
                     ("template_type", JStr template);
                     ("source_url", JStr url)])).
  destruct (resolve_key env None "GOOGLE_API_KEY") as [google|e]; [| done].
  cbv zeta.
  destruct (GeminiService.generate_replica generate_content _ brand
              template _ _).1 as [generated|f] eqn:E; [| done].
  exists brand, generated. split; [done |]. split; [| done].
  by apply generate_replica_component in E.
Qed.

(** X30: the comparing tool stops at the first failure.  With both keys
    set, when the extraction of the first site fails the tool fails the
    same way: the second site is not requested, and the client is closed. *)
Theorem compare_brands_first_failure (url1 url2 key google : string)
    (log : list event) (f : failure) :
  resolve_key env None "FIRECRAWL_API_KEY" = Ok key →
  resolve_key env None "GOOGLE_API_KEY" = Ok google →
  (FirecrawlService.extract_brand post validate_int (FirecrawlService.mk key)
     url1 false
     (log ++ [AsyncClient FirecrawlService.BASE_URL
                (FirecrawlService.headers key); Configure google])).1
  = Failed f →
  McpTools.compare_brands env post validate_int url1 url2 log
  = (Failed f,
     log ++ [AsyncClient FirecrawlService.BASE_URL
               (FirecrawlService.headers key);
             Configure google;
             Post "/scrape" (FirecrawlService.extract_payload url1 false);
             Aclose]).
Proof.
  intros Hk Hg Hf. rewrite compare_brands_run, Hk, Hg. cbv zeta.
  rewrite <- app_assoc. cbn [app]. rewrite Hf.
  by rewrite <- app_assoc.
Qed.

End ToolFacts.

Section ToolInstances.
Import Firecrawl Schema.

Lemma preview_url_inj_witness :
  GeneratedCode.preview_html (GeneratedCode.mk "a" "b" "<p>doc</p>" None)
  = GeneratedCode.preview_html
      (GeneratedCode.mk "x" "y" "<p>doc</p>" (Some "card")).
Proof. apply preview_url_inj. vm_compute. reflexivity. Defined.

Lemma model_validate_model_dump_witness :
  (∀ b, validate_BrandData int_only (dump_BrandData b) = Ok b) ∧
  (∀ b1 b2, dump_BrandData b1 = dump_BrandData b2 → b1 = b2).
Proof. apply (model_validate_model_dump int_only). intros z. reflexivity. Defined.

Lemma tools_need_firecrawl_key_witness :
  (∀ url include,
     McpTools.extract_brand ∅ sample_post int_only url include []
     = (Failed (Builtin ValueError), [])) ∧
  (∀ url component customization,
     McpTools.replicate_website ∅ sample_post sample_generate int_only
       url component customization []
     = (Failed (Builtin ValueError), [])) ∧
  (∀ url1 url2,
     McpTools.compare_brands ∅ sample_post int_only url1 url2 []
     = (Failed (Builtin ValueError), [])) ∧
  (∀ url template,
     McpTools.apply_brand_to_template ∅ sample_post sample_generate int_only
       url template []
     = (Failed (Builtin ValueError), [])).
Proof.
  apply (tools_need_firecrawl_key ∅ sample_post sample_generate int_only []).
  left. reflexivity.
Defined.

Lemma generate_replica_validates_first_witness :
  McpTools.generate_replica sample_env sample_generate int_only (JObj ∅)
    "card" "" []
  = (Failed (Builtin ValidationError), []).
Proof.
  apply (generate_replica_validates_first sample_env sample_generate int_only
           (JObj ∅) "card" "" [] ValidationError).
  vm_compute. reflexivity.
Defined.

Lemma compare_brands_leak_witness :
  McpTools.compare_brands scraping_env sample_post int_only
    "https://a.example" "https://b.example" []
  = (Failed (Builtin ValueError),
     [] ++ [AsyncClient FirecrawlService.BASE_URL
              (FirecrawlService.headers "fc-key")]) ∧
  ¬ balanced (McpTools.compare_brands scraping_env sample_post int_only
                "https://a.example" "https://b.example").
Proof.
  apply (compare_brands_leak scraping_env sample_post int_only
           "https://a.example" "https://b.example" "fc-key" []).
  - vm_compute. reflexivity.
  - discriminate.
  - left. vm_compute. reflexivity.
Defined.

Lemma replicate_website_composes_witness :
  McpTools.replicate_website sample_env sample_post sample_generate int_only
    "https://example.com" "card" "" []
  = (brand_data ← McpTools.extract_brand sample_env sample_post int_only
                    "https://example.com" false;
     generated ← McpTools.generate_replica sample_env sample_generate int_only
                   brand_data "card" "";
     mret (obj [("brand_data", brand_data); ("generated", generated)])) [].
Proof.
  apply (replicate_website_composes sample_env sample_post sample_generate
           int_only).
  intros z. reflexivity.
Defined.

Lemma compare_brands_first_failure_witness :
  McpTools.compare_brands sample_env failing_post int_only
    "https://a.example" "https://b.example" []
  = (Failed (Foreign "httpx.HTTPStatusError"),
     [] ++ [AsyncClient FirecrawlService.BASE_URL
              (FirecrawlService.headers "fc-key");
            Configure "g-key";
            Post "/scrape"
              (FirecrawlService.extract_payload "https://a.example" false);
            Aclose]).
Proof.
  apply (compare_brands_first_failure sample_env failing_post int_only
           "https://a.example" "https://b.example" "fc-key" "g-key" []
           (Foreign "httpx.HTTPStatusError"));
    vm_compute; reflexivity.
Defined.

(** A run of the replicating tool in the sample world: five calls, in
    this order. *)
Example replicate_website_sample_log :
  (McpTools.replicate_website sample_env sample_post sample_generate int_only
     "https://example.com" "card" "" []).2
  = [AsyncClient FirecrawlService.BASE_URL (FirecrawlService.headers "fc-key");
     Post "/scrape"
       (FirecrawlService.extract_payload "https://example.com" false);
     Aclose;
     Configure "g-key";
     GenerateContent "gemini-2.0-flash-lite"
       (GeminiService.prompt
          (BrandData.mk "https://example.com"
             (BrandData.colors full_brand) (BrandData.typography full_brand)
             BrandSpacing.default (BrandData.buttons full_brand)
             (Some "/logo.png") (Some "/favicon.ico") [])
          "card" "")].
Proof. vm_compute. reflexivity. Qed.

End ToolInstances.
